(** * Sistema_Facturacion: the invoicing back end of [app.py]

    A shallow embedding of the Flask application: the tax calculator
    [calcular_totales], the number generator [generar_numero_factura],
    the creation handler [crear_factura] and the query handlers
    [verificar_cae] and [obtener_estadisticas], over an explicit store
    holding the module globals [facturas] and [contadores].

    Python numbers are modelled as the interpreter has them: [int] is
    unbounded ([Z]) and [float] is IEEE 754 binary64 with round to nearest,
    ties to even, including signed zeros, infinities and NaN. *)

From Stdlib Require Import ZArith QArith Qround Qpower Qabs Lia Lqa Ascii String List Bool.
From Stdlib Require Import Floats.SpecFloat DecimalString DecimalZ.
From stdpp Require Import base option gmap strings.

Local Open Scope Z_scope.
Set Warnings "-register-all".

(** ** Binary64 arithmetic *)

Module F64.

Definition prec : Z := 53.
Definition emax : Z := 1024.

Definition pow2 (e : Z) : Q := Qpower 2 e.

(** [ilog2 q] is the binade of a positive rational: the [k] with
    [2^k <= q < 2^(k+1)]. *)
Definition ilog2 (q : Q) : Z :=
  let k0 := Z.log2 (Qnum q) - Z.log2 (Zpos (Qden q)) in
  if Qle_bool (pow2 k0) q then k0 else k0 - 1.

(** Nearest integer, ties to the even one. *)
Definition rint_even (q : Q) : Z :=
  let f := Qfloor q in
  match Qcompare (q - inject_Z f) (1 # 2) with
  | Lt => f
  | Gt => f + 1
  | Eq => if Z.even f then f else f + 1
  end.

(** Correct rounding of a positive rational to binary64 with sign [neg]:
    the exponent [rexp] is that of the binade (or the subnormal one), the
    mantissa [rmant] the nearest integer at that exponent, a rounded-up
    mantissa of [2^53] moves to the next binade and values beyond the
    largest finite one overflow. [rval] is the value the result stands
    for. *)
Definition rexp (q : Q) : Z := Z.max (ilog2 q - 52) (-1074).

Definition rmant (q : Q) : Z := rint_even (q / pow2 (rexp q)).

Definition rval (q : Q) : Q := inject_Z (rmant q) * pow2 (rexp q).

Definition round_pos (neg : bool) (q : Q) : spec_float :=
  let e := rexp q in
  let m := rmant q in
  if m =? 0 then S754_zero neg
  else
    let '(m', e') := if m =? 2 ^ 53 then (2 ^ 52, e + 1) else (m, e) in
    if e' >? 971 then S754_infinity neg else S754_finite neg (Z.to_pos m') e'.

Definition Q2F (q : Q) : spec_float :=
  match Qcompare q 0 with
  | Eq => S754_zero false
  | Gt => round_pos false q
  | Lt => round_pos true (- q)
  end.

(** Magnitude and value of a float; zero for the non-finite ones. *)
Definition Fabs (f : spec_float) : Q :=
  match f with
  | S754_finite _ m e => inject_Z (Zpos m) * pow2 e
  | _ => 0
  end.

Definition F2Q (f : spec_float) : Q :=
  match f with
  | S754_finite s _ _ => if s then - Fabs f else Fabs f
  | _ => 0
  end.

Definition fsign (f : spec_float) : bool :=
  match f with
  | S754_zero s | S754_infinity s | S754_finite s _ _ => s
  | S754_nan => false
  end.

Definition fopp (f : spec_float) : spec_float :=
  match f with
  | S754_zero s => S754_zero (negb s)
  | S754_infinity s => S754_infinity (negb s)
  | S754_finite s m e => S754_finite (negb s) m e
  | S754_nan => S754_nan
  end.

Definition fmul (x y : spec_float) : spec_float :=
  match x, y with
  | S754_nan, _ | _, S754_nan => S754_nan
  | S754_infinity _, S754_zero _ | S754_zero _, S754_infinity _ => S754_nan
  | S754_infinity sx, _ => S754_infinity (xorb sx (fsign y))
  | _, S754_infinity sy => S754_infinity (xorb (fsign x) sy)
  | S754_zero sx, _ => S754_zero (xorb sx (fsign y))
  | _, S754_zero sy => S754_zero (xorb (fsign x) sy)
  | S754_finite sx _ _, S754_finite sy _ _ =>
      round_pos (xorb sx sy) (Fabs x * Fabs y)
  end.

Definition fadd (x y : spec_float) : spec_float :=
  match x, y with
  | S754_nan, _ | _, S754_nan => S754_nan
  | S754_infinity sx, S754_infinity sy =>
      if Bool.eqb sx sy then x else S754_nan
  | S754_infinity _, _ => x
  | _, S754_infinity _ => y
  | S754_zero sx, S754_zero sy =>
      if Bool.eqb sx sy then x else S754_zero false
  | S754_zero _, _ => y
  | _, S754_zero _ => x
  | S754_finite _ _ _, S754_finite _ _ _ => Q2F (F2Q x + F2Q y)
  end.

Definition fsub (x y : spec_float) : spec_float := fadd x (fopp y).

Definition is_nan (f : spec_float) : bool :=
  match f with S754_nan => true | _ => false end.

Definition is_finite (f : spec_float) : bool :=
  match f with S754_zero _ | S754_finite _ _ _ => true | _ => false end.

(** IEEE comparisons: NaN is unordered, the zeros are equal. *)
Definition fle (x y : spec_float) : bool :=
  match x, y with
  | S754_nan, _ | _, S754_nan => false
  | S754_infinity true, _ | _, S754_infinity false => true
  | S754_infinity false, _ | _, S754_infinity true => false
  | _, _ => Qle_bool (F2Q x) (F2Q y)
  end.

Definition feq (x y : spec_float) : bool := fle x y && fle y x.

(** [float.__round__] with [ndigits = 2]: non-finite values round to
    themselves; a finite one is printed with two correctly rounded
    decimals (ties to even on the exact binary value) and the decimal
    string is read back as the nearest double. The sign is kept. *)
Definition fround2 (x : spec_float) : spec_float :=
  match x with
  | S754_finite s _ _ =>
      let n := rint_even (Fabs x * 100) in
      if n =? 0 then S754_zero s else round_pos s (inject_Z n / 100)
  | _ => x
  end.

(** The three outcomes of a correct rounding, each with the value
    [rval q] it stands for. *)
Inductive round_pos_outcome (neg : bool) (q : Q) : spec_float -> Prop :=
| rp_zero : rmant q = 0 -> round_pos_outcome neg q (S754_zero neg)
| rp_inf : (pow2 1024 <= rval q)%Q -> round_pos_outcome neg q (S754_infinity neg)
| rp_finite m e :
    (inject_Z (Z.pos m) * pow2 e == rval q)%Q ->
    (0 < rval q)%Q -> (rval q < pow2 1024)%Q ->
    valid_binary prec emax (S754_finite neg m e) = true ->
    round_pos_outcome neg q (S754_finite neg m e).

(** A float that is not NaN, not negative and, when finite, a number of
    the format. *)
Definition fnn (f : spec_float) : Prop :=
  match f with
  | S754_zero _ => True
  | S754_infinity s => s = false
  | S754_finite s m e => s = false /\ valid_binary prec emax f = true
  | S754_nan => False
  end.

#[global] Instance spec_float_eq_dec : EqDecision spec_float.
Proof. solve_decision. Defined.

(** Pairs of floats on which the operations above are compared with the
    reference operations of the Standard Library ([SFmul], [SFadd],
    [SFsub], [SFleb]): amounts of the examples, the extremes of the format
    and the special values. *)
Definition muestras : list (spec_float * spec_float) :=
  let vs := [ Q2F (21 # 100); Q2F (25 # 2); Q2F 19; Q2F (399 # 100);
              Q2F (-3 # 2); Q2F (1014 # 1000); Q2F 121;
              S754_finite false 1 (-1074);
              S754_finite false 4503599627370495 (-1074);
              S754_finite false 9007199254740991 971;
              S754_finite true 9007199254740991 971;
              S754_zero false; S754_zero true;
              S754_infinity false; S754_infinity true; S754_nan ] in
  flat_map (fun x => map (fun y => (x, y)) vs) vs.

End F64.

Import F64.

(** ** Python values *)

(** The exceptions the handlers can meet. [NotModelled] marks a value
    outside the fragment of [str] covered below; the creation handler never
    reaches it. *)
Inductive exn :=
| TypeError | KeyError | AttributeError | OverflowError | ValueError
| NotModelled.

Inductive res (A : Type) : Type :=
| Ok (a : A)
| Raise (e : exn).
Arguments Ok {A} a.
Arguments Raise {A} e.

#[global] Instance res_ret : MRet res := fun A a => Ok a.
#[global] Instance res_bind : MBind res := fun A B k r =>
  match r with Ok a => k a | Raise e => Raise e end.

(** A number is an [int] or a [float]. *)
Inductive num :=
| PyInt (z : Z)
| PyFloat (f : spec_float).

(** A parsed JSON document, as [request.get_json] returns it. An object is
    the parsed [dict], listed as its bindings with each key once. *)
Inductive json :=
| JNull
| JBool (b : bool)
| JInt (z : Z)
| JFloat (f : spec_float)
| JStr (s : string)
| JArr (l : list json)
| JObj (kv : list (string * json)).

(** [float(z)] as the mixed arithmetic does it: correctly rounded, and
    OverflowError when the integer is beyond the float range. *)
Definition float_of_int (z : Z) : res spec_float :=
  match Q2F (inject_Z z) with
  | S754_infinity _ => Raise OverflowError
  | f => Ok f
  end.

Definition py_mul (a b : num) : res num :=
  match a, b with
  | PyInt x, PyInt y => Ok (PyInt (x * y))
  | PyInt x, PyFloat g => f ← float_of_int x; Ok (PyFloat (fmul f g))
  | PyFloat f, PyInt y => g ← float_of_int y; Ok (PyFloat (fmul f g))
  | PyFloat f, PyFloat g => Ok (PyFloat (fmul f g))
  end.

Definition py_add (a b : num) : res num :=
  match a, b with
  | PyInt x, PyInt y => Ok (PyInt (x + y))
  | PyInt x, PyFloat g => f ← float_of_int x; Ok (PyFloat (fadd f g))
  | PyFloat f, PyInt y => g ← float_of_int y; Ok (PyFloat (fadd f g))
  | PyFloat f, PyFloat g => Ok (PyFloat (fadd f g))
  end.

Definition py_sub (a b : num) : res num :=
  match a, b with
  | PyInt x, PyInt y => Ok (PyInt (x - y))
  | PyInt x, PyFloat g => f ← float_of_int x; Ok (PyFloat (fsub f g))
  | PyFloat f, PyInt y => g ← float_of_int y; Ok (PyFloat (fsub f g))
  | PyFloat f, PyFloat g => Ok (PyFloat (fsub f g))
  end.

(** [round(x, 2)]: an [int] is returned as it is. *)
Definition py_round2 (x : num) : num :=
  match x with
  | PyInt z => PyInt z
  | PyFloat f => PyFloat (fround2 f)
  end.

(** [a <= b] and [a == b]; an [int] is compared with a [float] by value,
    without converting it. *)
Definition py_le (a b : num) : bool :=
  match a, b with
  | PyInt x, PyInt y => x <=? y
  | PyInt x, PyFloat g =>
      match g with
      | S754_nan => false
      | S754_infinity s => negb s
      | _ => Qle_bool (inject_Z x) (F2Q g)
      end
  | PyFloat f, PyInt y =>
      match f with
      | S754_nan => false
      | S754_infinity s => s
      | _ => Qle_bool (F2Q f) (inject_Z y)
      end
  | PyFloat f, PyFloat g => fle f g
  end.

Definition py_ge (a b : num) : bool := py_le b a.
Definition py_eq (a b : num) : bool := py_le a b && py_le b a.

(** Numbers that are not negative, and numbers that are finite. *)
Definition num_nn (x : num) : Prop :=
  match x with PyInt z => 0 <= z | PyFloat f => fnn f end.

Definition num_fin (x : num) : Prop :=
  match x with PyInt _ => True | PyFloat f => is_finite f = true end.

(** [sum(f(x) for x in xs)]: starts from the int [0], evaluates the
    elements one at a time and adds each to the running total, from left to
    right. (CPython 3.12 and later add two or more floats with a
    compensated sum, which can differ from the running total in the last
    bit; with ints only, or with a single item, there is no difference.) *)
Fixpoint py_sum_from {A} (f : A -> res num) (acc : num) (xs : list A) : res num :=
  match xs with
  | [] => Ok acc
  | x :: xs' => v ← f x; acc' ← py_add acc v; py_sum_from f acc' xs'
  end.

Definition py_sum {A} (f : A -> res num) (xs : list A) : res num :=
  py_sum_from f (PyInt 0) xs.

(** [str(z)] for an [int]: its decimal digits, with a minus sign. *)
Definition py_str_Z (z : Z) : string := NilZero.string_of_int (Z.to_int z).

Fixpoint zeros (n : nat) : string :=
  match n with O => EmptyString | S n' => String "0"%char (zeros n') end.

(** [s.zfill(width)]: zeros on the left up to [width], after a leading
    sign if there is one. *)
Definition zfill (width : nat) (s : string) : string :=
  let n := String.length s in
  if (width <=? n)%nat then s
  else
    match s with
    | String c r =>
        if (Ascii.eqb c "+"%char || Ascii.eqb c "-"%char)%bool
        then String c (zeros (width - n) ++ r)
        else zeros (width - n) ++ s
    | EmptyString => zeros width
    end.

(** ** JSON values under the Python operations the handlers apply *)

Fixpoint lookup_key (k : string) (kv : list (string * json)) : option json :=
  match kv with
  | [] => None
  | (k', v) :: kv' => if String.eqb k k' then Some v else lookup_key k kv'
  end.

(** [d.get(k)]: the value, [None] when the key is absent; only a dict has
    the method. *)
Definition py_get (d : json) (k : string) : res json :=
  match d with
  | JObj kv => Ok (default JNull (lookup_key k kv))
  | _ => Raise AttributeError
  end.

(** [d[k]] with a string key. *)
Definition py_getitem (d : json) (k : string) : res json :=
  match d with
  | JObj kv => match lookup_key k kv with Some v => Ok v | None => Raise KeyError end
  | _ => Raise TypeError
  end.

Definition py_truthy (v : json) : bool :=
  match v with
  | JNull => false
  | JBool b => b
  | JInt z => negb (z =? 0)
  | JFloat (S754_zero _) => false
  | JFloat _ => true
  | JStr s => negb (String.eqb s "")
  | JArr l => match l with [] => false | _ => true end
  | JObj kv => match kv with [] => false | _ => true end
  end.

Definition py_len (v : json) : res Z :=
  match v with
  | JStr s => Ok (Z.of_nat (String.length s))
  | JArr l => Ok (Z.of_nat (length l))
  | JObj kv => Ok (Z.of_nat (length kv))
  | _ => Raise TypeError
  end.

Fixpoint chars (s : string) : list json :=
  match s with
  | EmptyString => []
  | String c r => JStr (String c EmptyString) :: chars r
  end.

(** The elements a [for] loop sees. *)
Definition py_iter (v : json) : res (list json) :=
  match v with
  | JArr l => Ok l
  | JStr s => Ok (chars s)
  | JObj kv => Ok (map (fun p => JStr (fst p)) kv)
  | _ => Raise TypeError
  end.

(** The operand of an arithmetic operation: [bool] is an [int]. A string
    or a list can be repeated by [*], but the repetition then makes [sum]
    raise TypeError at its first addition; both end the request in the same
    handler, so the operand is refused here. *)
Definition as_num (v : json) : res num :=
  match v with
  | JInt z => Ok (PyInt z)
  | JBool b => Ok (PyInt (Z.b2z b))
  | JFloat f => Ok (PyFloat f)
  | _ => Raise TypeError
  end.

(** [x == k] for an int [k], as list membership tests it. *)
Definition eq_int (v : json) (k : Z) : bool :=
  match v with
  | JInt z => z =? k
  | JBool b => Z.b2z b =? k
  | JFloat f => py_eq (PyFloat f) (PyInt k)
  | _ => false
  end.

(** [str(v)] on the values the number generator can be handed: [None],
    booleans, ints, strings and floats with an integer value below [1e16],
    which print as the integer followed by [.0]. Other floats and the
    containers are outside this fragment ([None]). *)
Definition py_str (v : json) : option string :=
  match v with
  | JNull => Some "None"%string
  | JBool b => Some (if b then "True" else "False")%string
  | JInt z => Some (py_str_Z z)
  | JStr s => Some s
  | JFloat (S754_zero s) => Some (if s then "-0.0" else "0.0")%string
  | JFloat (S754_finite s m e as f) =>
      let q := Qred (F2Q f) in
      if (Zpos (Qden q) =? 1) && (Z.abs (Qnum q) <? 10 ^ 16)
      then Some (py_str_Z (Qnum q) ++ ".0")%string
      else None
  | _ => None
  end.

(** ** The module globals *)

(** The literal [0.21] is read as the nearest double. *)
Definition f_0_21 : spec_float := Eval vm_compute in Q2F (21 # 100)%Q.

Definition importe_iva : num := PyFloat f_0_21.

Definition puntos_venta : list Z := [1; 2; 3; 4; 5].

Module Totales.
Record t := mk { subtotal : num; iva : num; total : num }.
End Totales.

Module Factura.
Record t := mk {
  id : Z;
  tipo : string;
  numero : string;
  puntoVenta : json;
  cae : string;
  fechaEmision : string;
  fechaVencimientoCAE : string;
  cliente : json;
  items : json;
  subtotal : num;
  iva : num;
  total : num;
  estado : string
}.
End Factura.

(** The simulated database: the list [facturas] and the dict [contadores]. *)
Record state := mkState {
  facturas : list Factura.t;
  contadores : gmap string Z
}.

Definition init_state : state :=
  mkState [] (<["A" := 1]> (<["B" := 1]> ∅)).

(** Code that reads and writes the globals and may raise: the store at the
    point of the exception is the one that stays. *)
Definition M (A : Type) : Type := state -> res A * state.

#[global] Instance M_ret : MRet M := fun A a st => (Ok a, st).
#[global] Instance M_bind : MBind M := fun A B k m st =>
  match m st with
  | (Ok a, st') => k a st'
  | (Raise e, st') => (Raise e, st')
  end.

Definition lift {A} (r : res A) : M A := fun st => (r, st).
Definition get_state : M state := fun st => (Ok st, st).
Definition put_state (st' : state) : M unit := fun _ => (Ok tt, st').

(** ** The tax calculator *)

Definition importe_item (item : json) : res num :=
  c ← py_getitem item "cantidad";
  p ← py_getitem item "precioUnitario";
  a ← as_num c;
  b ← as_num p;
  py_mul a b.

Definition calcular_totales (items : json) (tipo : string) : res Totales.t :=
  its ← py_iter items;
  subtotal ← py_sum importe_item its;
  if String.eqb tipo "A" then
    iva ← py_mul subtotal importe_iva;
    total ← py_add subtotal iva;
    Ok (Totales.mk (py_round2 subtotal) (py_round2 iva) (py_round2 total))
  else
    iva_incluido ← py_mul subtotal importe_iva;
    total ← py_add subtotal iva_incluido;
    let subtotal_neto := total in
    iva ← py_sub total subtotal_neto;
    Ok (Totales.mk (py_round2 subtotal_neto) (py_round2 iva) (py_round2 total)).

(** ** The properties the tax calculator is checked against *)

(** Rounding to two decimals with ties up: the cents are
    [floor(100 x + 1/2)], read back as the nearest double. *)
Definition fround2_half_up (x : spec_float) : spec_float :=
  match x with
  | S754_finite _ _ _ =>
      Q2F (inject_Z (Qfloor (F2Q x * 100 + (1 # 2))) / 100)
  | _ => x
  end.

Definition py_round2_half_up (x : num) : num :=
  match x with
  | PyInt z => PyInt z
  | PyFloat f => PyFloat (fround2_half_up f)
  end.

(** Series A with every field rounded half-up. *)
Definition totales_A_half_up (items : json) : res Totales.t :=
  its ← py_iter items;
  subtotal ← py_sum importe_item its;
  iva ← py_mul subtotal importe_iva;
  total ← py_add subtotal iva;
  Ok (Totales.mk (py_round2_half_up subtotal) (py_round2_half_up iva)
        (py_round2_half_up total)).

(** [x] rounded to two decimals with ties to even: an int is left as it
    is, a non-finite float too; for a finite float the cents [n] are the
    integer nearest to a hundred times its magnitude, the even one when two
    are as near, and the result is the double nearest to [n / 100] with the
    sign of [x]. *)
Definition es_redondeo_par (x r : num) : Prop :=
  match x with
  | PyInt z => r = PyInt z
  | PyFloat (S754_finite s m e as f) =>
      exists n : Z,
        (Qabs (Fabs f * 100 - inject_Z n) <= 1 # 2)%Q /\
        ((Qabs (Fabs f * 100 - inject_Z n) == 1 # 2)%Q -> Z.even n = true) /\
        r = PyFloat (if n =? 0 then S754_zero s
                     else round_pos s (inject_Z n / 100))
  | PyFloat f => r = PyFloat f
  end.

(** The literal [1.21] and series B computed as the raw subtotal times
    [1.21], with the subtotal field equal to the total and no tax. *)
Definition f_1_21 : spec_float := Eval vm_compute in Q2F (121 # 100)%Q.

Definition totales_B_por_1_21 (items : json) : res Totales.t :=
  its ← py_iter items;
  subtotal_raw ← py_sum importe_item its;
  total ← py_mul subtotal_raw (PyFloat f_1_21);
  Ok (Totales.mk (py_round2 total) (PyInt 0) (py_round2 total)).

(** The cents of an exact amount, ties up and ties to even. *)
Definition cents_half_up (q : Q) : Z := Qfloor (q * 100 + (1 # 2)).
Definition cents_half_even (q : Q) : Z := rint_even (q * 100).

(** [total == subtotal + iva] and [total >= subtotal] on the stored
    fields. *)
Definition total_es_suma (t : Totales.t) : Prop :=
  exists r, py_add (Totales.subtotal t) (Totales.iva t) = Ok r /\
            py_eq (Totales.total t) r = true.

Definition total_cubre_subtotal (t : Totales.t) : Prop :=
  py_ge (Totales.total t) (Totales.subtotal t) = true.

(** A quantity or a price that is a number, not negative and finite; an
    item whose quantity and price are [c] and [p]. *)
Definition json_nn (v : json) : Prop :=
  match v with
  | JInt z => 0 <= z
  | JBool _ => True
  | JFloat f => fnn f /\ is_finite f = true
  | _ => False
  end.

Definition item_es (it c p : json) : Prop :=
  py_getitem it "cantidad" = Ok c /\ py_getitem it "precioUnitario" = Ok p.

Definition item_nn (it : json) : Prop :=
  exists c p, item_es it c p /\ json_nn c /\ json_nn p.

(** Items that are all floats, and items that are all ints with the given
    quantities and prices. *)
Definition items_float (its : list json) : Prop :=
  Forall (fun it => exists c p, item_es it (JFloat c) (JFloat p)) its.

Definition items_int (its : list json) (cps : list (Z * Z)) : Prop :=
  Forall2 (fun it cp => item_es it (JInt cp.1) (JInt cp.2)) its cps.

Definition suma_int (cps : list (Z * Z)) : Z :=
  fold_left (fun acc cp => acc + cp.1 * cp.2) cps 0.

(** ** The number and authorization-code generators *)

(** [generar_cae]: the decimal string of the integer [random.randint]
    draws, which the caller passes in. *)
Definition generar_cae (sorteo : Z) : string := py_str_Z sorteo.

Definition generar_numero_factura (tipo : string) (punto_venta : json) : M string :=
  fun st =>
    match contadores st !! tipo with
    | None => (Raise KeyError, st)
    | Some numero =>
        let st' := mkState (facturas st) (<[tipo := numero + 1]> (contadores st)) in
        match py_str punto_venta with
        | None => (Raise NotModelled, st')
        | Some pv => (Ok (zfill 5 pv ++ "-" ++ zfill 8 (py_str_Z numero))%string, st')
        end
    end.

(** ** The request handlers *)

Inductive response :=
| Resp201 (factura : Factura.t)
| Resp400 (error : string)
| Resp500 (e : exn).

(** [tipo not in ['A', 'B']]: only the two strings are members. *)
Definition tipo_valido (tipo : json) : option string :=
  match tipo with
  | JStr s => if (String.eqb s "A" || String.eqb s "B")%bool then Some s else None
  | _ => None
  end.

Definition en_puntos_venta (punto_venta : json) : bool :=
  existsb (eq_int punto_venta) puntos_venta.

(** [not items or len(items) == 0] *)
Definition sin_items (items : json) : res bool :=
  if negb (py_truthy items) then Ok true
  else n ← py_len items; Ok (n =? 0).

Module Verificacion.
Record t := mk { valido : bool; factura : option Factura.t; mensaje : string }.
End Verificacion.

Module Estadisticas.
Record t := mk {
  totalFacturas : Z;
  facturasA : Z;
  facturasB : Z;
  totalFacturado : num
}.
End Estadisticas.

(** One POST: the clock reading, the draw of [random.randint] and the
    parsed body. *)
Record peticion := mkPeticion { ahora : Z; sorteo : Z; cuerpo : json }.

Section Handlers.

(** [datetime.isoformat] and [datetime.fromisoformat], on instants counted
    in microseconds. The text they produce and accept is left open; what is
    assumed of them, where it is needed, is that reading back a printed
    instant gives the instant. *)
Variable isoformat : Z -> string.
Variable fromisoformat : string -> option Z.

(** [timedelta(days=10)] *)
Definition diez_dias : Z := 10 * 86400 * 1000000.

(** The body of the [try] block of [crear_factura]. *)
Definition crear_factura_try (p : peticion) : M response :=
  let data := cuerpo p in
  tipo ← lift (py_get data "tipo");
  punto_venta ← lift (py_get data "puntoVenta");
  cliente ← lift (py_get data "cliente");
  items ← lift (py_get data "items");
  match tipo_valido tipo with
  | None => mret (Resp400 "Tipo de factura inválido. Debe ser A o B")
  | Some tipo =>
      if negb (en_puntos_venta punto_venta)
      then mret (Resp400 "Punto de venta inválido")
      else
        vacio ← lift (sin_items items);
        if (vacio : bool) then mret (Resp400 "Debe incluir al menos un item")
        else
          totales ← lift (calcular_totales items tipo);
          let fecha := ahora p in
          st ← get_state;
          let id := Z.of_nat (length (facturas st)) + 1 in
          numero ← generar_numero_factura tipo punto_venta;
          let factura :=
            Factura.mk id tipo numero punto_venta
              (generar_cae (sorteo p))
              (isoformat fecha) (isoformat (fecha + diez_dias))
              cliente items
              (Totales.subtotal totales) (Totales.iva totales)
              (Totales.total totales) "Autorizada" in
          st' ← get_state;
          _ ← put_state (mkState (facturas st' ++ [factura]) (contadores st'));
          mret (Resp201 factura)
  end.

(** [crear_factura]: any exception of the body becomes a 500 response. *)
Definition crear_factura (p : peticion) (st : state) : response * state :=
  match crear_factura_try p st with
  | (Ok r, st') => (r, st')
  | (Raise e, st') => (Resp500 e, st')
  end.

(** A sequence of POST requests served one after the other. *)
Fixpoint atender (ps : list peticion) (st : state) : list response * state :=
  match ps with
  | [] => ([], st)
  | p :: ps' =>
      let '(r, st1) := crear_factura p st in
      let '(rs, st2) := atender ps' st1 in
      (r :: rs, st2)
  end.

Definition verificar_cae (ahora : Z) (cae : string) (st : state)
  : res Verificacion.t :=
  match find (fun f => String.eqb (Factura.cae f) cae) (facturas st) with
  | None => Ok (Verificacion.mk false None "CAE no encontrado")
  | Some factura =>
      match fromisoformat (Factura.fechaVencimientoCAE factura) with
      | None => Raise ValueError
      | Some vencimiento =>
          let vencido := ahora >? vencimiento in
          Ok (Verificacion.mk (negb vencido) (Some factura)
                (if vencido then "CAE vencido" else "CAE válido"))
      end
  end.

Definition obtener_estadisticas (st : state) : res Estadisticas.t :=
  total_facturado ← py_sum (fun f => Ok (Factura.total f)) (facturas st);
  let facturas_a :=
    filter (fun f => Factura.tipo f = "A"%string) (facturas st) in
  let facturas_b :=
    filter (fun f => Factura.tipo f = "B"%string) (facturas st) in
  Ok (Estadisticas.mk
        (Z.of_nat (length (facturas st)))
        (Z.of_nat (length facturas_a))
        (Z.of_nat (length facturas_b))
        (py_round2 total_facturado)).

End Handlers.

(** ** What a run of requests shows *)

(** The invoices of the successful responses, in order, and their ids. *)
Definition creadas (rs : list response) : list Factura.t :=
  flat_map (fun r => match r with Resp201 f => [f] | _ => [] end) rs.

Definition ids_creados (rs : list response) : list Z :=
  map Factura.id (creadas rs).

(** The number of successful creations of one series. *)
Definition creadas_de (tipo : string) (rs : list response) : Z :=
  Z.of_nat (length (filter (fun f => Factura.tipo f = tipo) (creadas rs))).

(** The number a field of decimal digits stands for; leading zeros do not
    count. *)
Definition valor_digitos (s : string) : option Z :=
  option_map Z.of_uint (NilEmpty.uint_of_string s).

(** A printer and a reader of instants that satisfy the law the handlers
    assume of [isoformat] and [fromisoformat]; they instantiate the handlers
    where a concrete run is evaluated. *)
Definition instante_a_texto (d : Z) : string := py_str_Z d.

Definition texto_a_instante (s : string) : option Z :=
  option_map Z.of_int (NilZero.int_of_string s).

(** A request body with the four fields of the contract. *)
Definition item (cantidad precio : json) : json :=
  JObj [("cantidad"%string, cantidad); ("precioUnitario"%string, precio)].

Definition cuerpo_factura (tipo punto_venta cliente items : json) : json :=
  JObj [("tipo"%string, tipo); ("puntoVenta"%string, punto_venta);
        ("cliente"%string, cliente); ("items"%string, items)].

(** The requests the examples use: issued at instant 1000 with the draw
    12345678901234 and no customer. *)
Definition un_item : json := JArr [item (JInt 2) (JInt 100)].

Definition peticion_de (tipo punto_venta items : json) : peticion :=
  mkPeticion 1000 12345678901234 (cuerpo_factura tipo punto_venta JNull items).

(** The same request issued at another instant. *)
Definition peticion_en (ahora : Z) (tipo punto_venta items : json) : peticion :=
  mkPeticion ahora 12345678901234 (cuerpo_factura tipo punto_venta JNull items).

(** ** The query handlers *)

(** [obtener_factura]: the first invoice with the id, or the 404 answer.
    An invoice is a dict with thirteen keys, so [not factura] holds only
    of [None]. *)
Inductive consulta :=
| Resp200 (factura : Factura.t)
| Resp404 (error : string).

Definition obtener_factura (id : Z) (st : state) : consulta :=
  match find (fun f => Factura.id f =? id) (facturas st) with
  | None => Resp404 "Factura no encontrada"
  | Some factura => Resp200 factura
  end.

Definition obtener_puntos_venta : list Z := puntos_venta.

Module Listado.
Record t := mk { total : Z; facturas : list Factura.t }.
End Listado.

(** A [datetime] read from a text: naive, or aware of its UTC offset. Both
    are instants in microseconds, an aware one on the UTC scale. *)
Inductive datetime :=
| Naive (t : Z)
| Aware (t : Z).

(** [a <= b] and [a >= b] on datetimes: TypeError between a naive and an
    aware one. *)
Definition dt_le (a b : datetime) : res bool :=
  match a, b with
  | Naive x, Naive y => Ok (x <=? y)
  | Aware x, Aware y => Ok (x <=? y)
  | _, _ => Raise TypeError
  end.

Definition dt_ge (a b : datetime) : res bool := dt_le b a.

(** A query argument as [if arg:] sees it: absent and empty are the same. *)
Definition arg_dado (arg : option string) : option string :=
  match arg with
  | Some s => if String.eqb s "" then None else Some s
  | None => None
  end.

(** [[x for x in l if c(x)]] with a condition that may raise: the elements
    are tested in order and the first exception ends the loop. *)
Fixpoint py_filter {A} (c : A -> res bool) (l : list A) : res (list A) :=
  match l with
  | [] => Ok []
  | x :: l' =>
      b ← c x;
      r ← py_filter c l';
      Ok (if (b : bool) then x :: r else r)
  end.

Section Consultas.

(** [datetime.fromisoformat] on a text that may come from the client:
    [None] stands for ValueError. *)
Variable fromisoformat : string -> option datetime.

Definition leer_fecha (s : string) : res datetime :=
  match fromisoformat s with
  | Some d => Ok d
  | None => Raise ValueError
  end.

(** [obtener_facturas]: the three filters in the order the handler applies
    them. An exception is not caught here. *)
Definition obtener_facturas (tipo desde hasta : option string) (st : state)
  : res Listado.t :=
  let resultado := facturas st in
  let resultado :=
    match arg_dado tipo with
    | Some tipo => filter (fun f => Factura.tipo f = tipo) resultado
    | None => resultado
    end in
  resultado ←
    match arg_dado desde with
    | Some desde =>
        fecha_desde ← leer_fecha desde;
        py_filter (fun f => emision ← leer_fecha (Factura.fechaEmision f);
                            dt_ge emision fecha_desde) resultado
    | None => Ok resultado
    end;
  resultado ←
    match arg_dado hasta with
    | Some hasta =>
        fecha_hasta ← leer_fecha hasta;
        py_filter (fun f => emision ← leer_fecha (Factura.fechaEmision f);
                            dt_le emision fecha_hasta) resultado
    | None => Ok resultado
    end;
  Ok (Listado.mk (Z.of_nat (length resultado)) resultado).

End Consultas.

(** A reader of datetimes for concrete runs: the decimal text of an instant
    is naive, and followed by [Z] it is aware. *)
Definition texto_a_fecha (s : string) : option datetime :=
  match texto_a_instante s with
  | Some d => Some (Naive d)
  | None =>
      let n := String.length s in
      match String.get (n - 1) s with
      | Some "Z"%char =>
          option_map Aware (texto_a_instante (String.substring 0 (n - 1) s))
      | _ => None
      end
  end.

(** ** What the further properties speak of *)

(** A JSON value that arithmetic takes as a number. *)
Definition es_numero (v : json) : Prop :=
  match v with
  | JInt _ | JFloat _ | JBool _ => True
  | _ => False
  end.

(** The int a quantity or a price is, a boolean being 0 or 1; [None] for a
    float. *)
Definition entero_de (v : json) : option Z :=
  match v with
  | JInt z => Some z
  | JBool b => Some (Z.b2z b)
  | _ => None
  end.

(** The size of the ints an item brings to the sum: the product when
    quantity and price are both ints, the int when the other is a float,
    nothing when both are floats. *)
Definition peso_de (cp : json * json) : Z :=
  match entero_de cp.1, entero_de cp.2 with
  | Some x, Some y => Z.abs (x * y)
  | Some x, None => Z.abs x
  | None, Some y => Z.abs y
  | None, None => 0
  end.

Definition peso_total (cps : list (json * json)) : Z :=
  fold_right (fun cp acc => peso_de cp + acc) 0 cps.

(** Items whose quantities and prices are the given numbers: ints, floats
    or booleans, in any mix and of any sign. *)
Definition items_numericos (its : list json) (cps : list (json * json)) : Prop :=
  Forall2 (fun it cp => item_es it cp.1 cp.2 /\ es_numero cp.1 /\ es_numero cp.2)
    its cps.

Definition item_numerico (it : json) : Prop :=
  exists c p, item_es it c p /\ es_numero c /\ es_numero p.

(** The invoices of a list that are of the series asked for, all of them
    when none is asked for. *)
Definition por_tipo (tipo : option string) (l : list Factura.t) : list Factura.t :=
  match arg_dado tipo with
  | Some t => filter (fun f => Factura.tipo f = t) l
  | None => l
  end.

(** A date argument that is absent, or reads as the naive instant [a]. *)
Definition lee_como (fromisoformat : string -> option datetime)
    (arg : option string) (a : option Z) : Prop :=
  match arg_dado arg, a with
  | None, None => True
  | Some s, Some t => fromisoformat s = Some (Naive t)
  | _, _ => False
  end.

(** An invoice issued within the window, by the instant its issue date
    reads as; a bound that is [None] is open. *)
Definition emitida_en (fromisoformat : string -> option datetime)
    (desde hasta : option Z) (f : Factura.t) : bool :=
  match fromisoformat (Factura.fechaEmision f) with
  | Some (Naive e) =>
      match desde with Some a => a <=? e | None => true end &&
      match hasta with Some b => e <=? b | None => true end
  | _ => false
  end.

(** An invoice whose number is its point of sale as [str] prints it, padded
    to five characters, a dash, and the sequence number [k] padded to eight
    digits. *)
Definition numerada (f : Factura.t) (k : Z) : Prop :=
  exists pv, py_str (Factura.puntoVenta f) = Some pv /\
    String.length (zfill 5 pv) = 5%nat /\
    Factura.numero f = (zfill 5 pv ++ "-" ++ zfill 8 (py_str_Z k))%string.

Definition serie_y_numero (f : Factura.t) : string * string :=
  (Factura.tipo f, Factura.numero f).

(** A store whose counters are not negative, whose invoices carry sequence
    numbers below the counter of their series, and in which no two invoices
    share series and number. *)
Definition libro_en_orden (st : state) : Prop :=
  (forall t c, contadores st !! t = Some c -> 0 <= c) /\
  Forall (fun f => exists c k, contadores st !! Factura.tipo f = Some c /\
                               numerada f k /\ 0 <= k < c) (facturas st) /\
  NoDup (map serie_y_numero (facturas st)).

(* ===================================================================== *)
(** * Properties *)
(* ===================================================================== *)

(** ** Binary64 rounding *)

Section Rounding.
Local Open Scope Q_scope.

Lemma pow2_pos e : 0 < pow2 e.
Proof. apply Qpower_0_lt. reflexivity. Qed.

Lemma pow2_add a b : pow2 (a + b) == pow2 a * pow2 b.
Proof. apply Qpower_plus. discriminate. Qed.

Lemma pow2_sub a b : pow2 (a - b) == pow2 a / pow2 b.
Proof. apply Qpower_minus. discriminate. Qed.

Lemma pow2_le a b : (a <= b)%Z -> pow2 a <= pow2 b.
Proof. intros H. apply Qpower_le_compat_l; [done|]. discriminate. Qed.

Lemma pow2_lt a b : (a < b)%Z -> pow2 a < pow2 b.
Proof. intros H. apply Qpower_lt_compat_l; [done|]. reflexivity. Qed.

Lemma pow2_lt_inv a b : pow2 a < pow2 b -> (a < b)%Z.
Proof. intros H. apply Qpower_lt_compat_l_inv in H; [done|reflexivity]. Qed.

Lemma pow2_Z e : (0 <= e)%Z -> pow2 e == inject_Z (2 ^ e).
Proof. intros H. unfold pow2. by rewrite Zpower_Qpower. Qed.

(** *** Nearest integer *)

Lemma rint_even_cases q :
  let f := Qfloor q in
  (rint_even q = f /\ q - inject_Z f <= 1 # 2) \/
  (rint_even q = (f + 1)%Z /\ 1 # 2 <= q - inject_Z f).
Proof.
  intros f. unfold rint_even. fold f.
  destruct (Qcompare_spec (q - inject_Z f) (1 # 2)) as [H|H|H].
  - destruct (Z.even f); [left|right]; split; try done; rewrite H; apply Qle_refl.
  - left. split; [done|]. by apply Qlt_le_weak.
  - right. split; [done|]. by apply Qlt_le_weak.
Qed.

Lemma rint_even_bounds q :
  q - (1 # 2) <= inject_Z (rint_even q) <= q + (1 # 2).
Proof.
  pose proof (Qfloor_le q) as Hlo. pose proof (Qlt_floor q) as Hhi.
  rewrite inject_Z_plus in Hhi. change (inject_Z 1) with 1 in Hhi.
  destruct (rint_even_cases q) as [[-> H]|[-> H]];
    rewrite ?inject_Z_plus; change (inject_Z 1) with 1; split; lra.
Qed.

Lemma rint_even_Qeq q1 q2 : q1 == q2 -> rint_even q1 = rint_even q2.
Proof.
  intros H. unfold rint_even. rewrite (Qfloor_comp _ _ H).
  assert (E : q1 - inject_Z (Qfloor q2) == q2 - inject_Z (Qfloor q2)) by lra.
  by rewrite (Qcompare_comp _ _ E _ _ (Qeq_refl (1 # 2))).
Qed.

Lemma rint_even_Z z : rint_even (inject_Z z) = z.
Proof.
  unfold rint_even. rewrite Qfloor_Z.
  destruct (Qcompare_spec (inject_Z z - inject_Z z) (1 # 2)) as [H|H|H];
    [exfalso; lra|done|exfalso; lra].
Qed.

Lemma rint_even_mono q1 q2 : q1 <= q2 -> (rint_even q1 <= rint_even q2)%Z.
Proof.
  intros Hle. pose proof (Qfloor_resp_le _ _ Hle) as Hf.
  unfold rint_even.
  destruct (Z.eq_dec (Qfloor q1) (Qfloor q2)) as [E|NE].
  - rewrite <- E. set (f := Qfloor q1).
    destruct (Qcompare_spec (q1 - inject_Z f) (1 # 2)) as [H1|H1|H1];
    destruct (Qcompare_spec (q2 - inject_Z f) (1 # 2)) as [H2|H2|H2];
    destruct (Z.even f); try lia; exfalso; lra.
  - destruct (Qcompare (q1 - _) _), (Qcompare (q2 - _) _);
      repeat destruct (Z.even _); lia.
Qed.


(** *** The binade of a positive rational *)

Lemma ilog2_spec q : 0 < q -> pow2 (ilog2 q) <= q < pow2 (ilog2 q + 1).
Proof.
  intros Hq. destruct q as [n d]. unfold ilog2. cbn [Qnum Qden].
  assert (Hn : (0 < n)%Z) by (unfold Qlt in Hq; simpl in Hq; lia).
  set (a := Z.log2 n). set (b := Z.log2 (Zpos d)).
  destruct (Z.log2_spec n Hn) as [Ha1 Ha2]. fold a in Ha1, Ha2.
  destruct (Z.log2_spec (Zpos d) eq_refl) as [Hb1 Hb2]. fold b in Hb1, Hb2.
  assert (Ha0 : (0 <= a)%Z) by apply Z.log2_nonneg.
  assert (Hb0 : (0 <= b)%Z) by apply Z.log2_nonneg.
  assert (Hlo : pow2 (a - b - 1) < n # d).
  { replace (a - b - 1)%Z with (a - (b + 1))%Z by lia.
    rewrite pow2_sub, !pow2_Z by lia.
    apply Qlt_shift_div_r; [rewrite <- pow2_Z by lia; apply pow2_pos|].
    unfold Qlt, Qmult, inject_Z. simpl. rewrite Pos.mul_1_r, Z.mul_1_r.
    change (Z.succ b) with (b + 1)%Z in Hb2.
    apply Z.le_lt_trans with (n * Z.pos d)%Z;
      [apply Z.mul_le_mono_nonneg_r; lia|apply Z.mul_lt_mono_pos_l; lia]. }
  assert (Hhi : n # d < pow2 (a - b + 1)).
  { replace (a - b + 1)%Z with (a + 1 - b)%Z by lia.
    rewrite pow2_sub, !pow2_Z by lia.
    apply Qlt_shift_div_l; [rewrite <- pow2_Z by lia; apply pow2_pos|].
    unfold Qlt, Qmult, inject_Z. simpl. rewrite Pos.mul_1_r, Z.mul_1_r.
    change (Z.succ a) with (a + 1)%Z in Ha2.
    apply Z.lt_le_trans with (2 ^ (a + 1) * 2 ^ b)%Z;
      [apply Z.mul_lt_mono_pos_r; lia|apply Z.mul_le_mono_nonneg_l; lia]. }
  destruct (Qle_bool (pow2 (a - b)) (n # d)) eqn:E.
  - apply Qle_bool_iff in E. by split.
  - split; [by apply Qlt_le_weak|].
    replace (a - b - 1 + 1)%Z with (a - b)%Z by lia.
    apply Qnot_le_lt. intros H. apply Qle_bool_iff in H. congruence.
Qed.

Lemma ilog2_unique q k :
  pow2 k <= q -> q < pow2 (k + 1) -> ilog2 q = k.
Proof.
  intros Hlo Hhi.
  assert (Hq : 0 < q) by (pose proof (pow2_pos k); lra).
  destruct (ilog2_spec q Hq) as [Hlo' Hhi'].
  assert (H1 : (k < ilog2 q + 1)%Z) by (apply pow2_lt_inv; lra).
  assert (H2 : (ilog2 q < k + 1)%Z) by (apply pow2_lt_inv; lra).
  lia.
Qed.

Lemma ilog2_mono q1 q2 : 0 < q1 -> q1 <= q2 -> (ilog2 q1 <= ilog2 q2)%Z.
Proof.
  intros H1 Hle.
  destruct (ilog2_spec q1 H1) as [Hlo1 _].
  destruct (ilog2_spec q2) as [_ Hhi2]; [lra|].
  assert (H : (ilog2 q1 < ilog2 q2 + 1)%Z) by (apply pow2_lt_inv; lra).
  lia.
Qed.

Lemma ilog2_Qeq q1 q2 : 0 < q1 -> q1 == q2 -> ilog2 q1 = ilog2 q2.
Proof.
  intros H1 E. destruct (ilog2_spec q1 H1) as [Hlo Hhi].
  symmetry. apply ilog2_unique; lra.
Qed.


(** *** Correct rounding: mantissa, exponent and value of the result *)

Lemma round_pos_unfold neg q :
  round_pos neg q =
    if (rmant q =? 0)%Z then S754_zero neg
    else
      let '(m', e') :=
        if (rmant q =? 2 ^ 53)%Z then (2 ^ 52, rexp q + 1)%Z
        else (rmant q, rexp q) in
      if (e' >? 971)%Z then S754_infinity neg
      else S754_finite neg (Z.to_pos m') e'.
Proof. reflexivity. Qed.

Lemma rexp_ge q : (-1074 <= rexp q)%Z.
Proof. unfold rexp. lia. Qed.

Lemma pow2_scale (z e : Z) : (0 <= z)%Z -> pow2 (z + e) == inject_Z (2 ^ z) * pow2 e.
Proof. intros H. by rewrite pow2_add, pow2_Z. Qed.

Lemma rmant_bounds q :
  0 < q ->
  (0 <= rmant q <= 2 ^ 53)%Z /\ ((-1074 < rexp q)%Z -> (2 ^ 52 <= rmant q)%Z).
Proof.
  intros Hq. destruct (ilog2_spec q Hq) as [Hlo Hhi].
  pose proof (pow2_pos (rexp q)) as HP.
  unfold rmant. split; [split|].
  - rewrite <- (rint_even_Z 0). apply rint_even_mono.
    apply Qle_shift_div_l; [done|]. change (inject_Z 0) with 0. lra.
  - rewrite <- (rint_even_Z (2 ^ 53)). apply rint_even_mono.
    apply Qle_shift_div_r; [done|]. rewrite <- pow2_scale by lia.
    apply Qlt_le_weak. eapply Qlt_le_trans; [exact Hhi|].
    apply pow2_le. unfold rexp. lia.
  - intros He. rewrite <- (rint_even_Z (2 ^ 52)). apply rint_even_mono.
    apply Qle_shift_div_l; [done|]. rewrite <- pow2_scale by lia.
    eapply Qle_trans; [|exact Hlo]. apply pow2_le. unfold rexp in *. lia.
Qed.

Lemma digits2_pos_size p : digits2_pos p = Pos.size p.
Proof. induction p as [p IH|p IH|]; simpl; by rewrite ?IH. Qed.

Lemma digits2_pos_log2 p : Z.pos (digits2_pos p) = (Z.log2 (Z.pos p) + 1)%Z.
Proof.
  rewrite digits2_pos_size. destruct p; simpl; try done; by rewrite Pos2Z.inj_succ.
Qed.

Lemma valid_binary_finite s m e :
  valid_binary prec emax (S754_finite s m e) = true <->
  (Z.max (Z.log2 (Z.pos m) + e - 52) (-1074) = e /\ e <= 971)%Z.
Proof.
  unfold valid_binary, bounded, canonical_mantissa, fexp, emin, prec, emax.
  rewrite digits2_pos_log2, andb_true_iff, Z.leb_le, Z.eqb_eq. lia.
Qed.


Lemma round_pos_cases neg q : 0 < q -> round_pos_outcome neg q (round_pos neg q).
Proof.
  intros Hq. rewrite round_pos_unfold.
  destruct (rmant_bounds q Hq) as [[Hm0 Hm53] Hm52].
  pose proof (rexp_ge q) as He. pose proof (pow2_pos (rexp q)) as HP.
  destruct (Z.eqb_spec (rmant q) 0) as [E0|N0]; [by constructor|].
  assert (Hpos : 0 < rval q).
  { unfold rval. apply Qmult_lt_0_compat; [|done].
    change 0 with (inject_Z 0). rewrite <- Zlt_Qlt. lia. }
  destruct (Z.eqb_spec (rmant q) (2 ^ 53)) as [E53|N53].
  - (* the mantissa rounded up to 2^53 *)
    assert (Hv : rval q == pow2 (53 + rexp q)).
    { unfold rval. rewrite E53. rewrite pow2_scale by lia. reflexivity. }
    destruct (Z.gtb_spec (rexp q + 1) 971) as [Hov|Hok].
    + constructor. rewrite Hv. apply pow2_le. lia.
    + constructor; try done.
      * change (Z.pos (Z.to_pos (2 ^ 52))) with (2 ^ 52)%Z.
        rewrite Hv, <- pow2_scale by lia.
        replace (52 + (rexp q + 1))%Z with (53 + rexp q)%Z by lia. reflexivity.
      * rewrite Hv. apply pow2_lt. lia.
      * apply valid_binary_finite. change (Z.to_pos (2 ^ 52)) with (2 ^ 52)%positive.
        change (Z.log2 (Z.pos (2 ^ 52))) with 52%Z. lia.
  - assert (Hm : (0 < rmant q < 2 ^ 53)%Z) by lia.
    destruct (Z.gtb_spec (rexp q) 971) as [Hov|Hok].
    + constructor. unfold rval.
      apply Qle_trans with (inject_Z (2 ^ 52) * pow2 (rexp q)).
      * rewrite <- pow2_scale by lia. apply pow2_le. lia.
      * apply Qmult_le_compat_r; [|lra]. rewrite <- Zle_Qle. apply Hm52. lia.
    + assert (Hid : Z.pos (Z.to_pos (rmant q)) = rmant q) by (apply Z2Pos.id; lia).
      constructor; try done.
      * by rewrite Hid.
      * unfold rval.
        apply Qlt_le_trans with (inject_Z (2 ^ 53) * pow2 (rexp q)).
        -- apply Qmult_lt_compat_r; [done|]. rewrite <- Zlt_Qlt. lia.
        -- rewrite <- pow2_scale by lia. apply pow2_le. lia.
      * apply valid_binary_finite. rewrite Hid. split; [|lia].
        assert (Hl : (Z.log2 (rmant q) < 53)%Z) by (apply Z.log2_lt_pow2; lia).
        destruct (Z.eq_dec (rexp q) (-1074)%Z) as [Es|Ns]; [lia|].
        assert (Hl' : (52 <= Z.log2 (rmant q))%Z).
        { apply Z.log2_le_pow2; [lia|]. apply Hm52. lia. }
        lia.
Qed.


Lemma rexp_mono q1 q2 : 0 < q1 -> q1 <= q2 -> (rexp q1 <= rexp q2)%Z.
Proof. intros H1 H. pose proof (ilog2_mono q1 q2 H1 H). unfold rexp. lia. Qed.

Lemma rval_mono q1 q2 : 0 < q1 -> q1 <= q2 -> rval q1 <= rval q2.
Proof.
  intros H1 Hle. assert (H2 : 0 < q2) by lra.
  pose proof (rexp_mono q1 q2 H1 Hle) as He.
  destruct (rmant_bounds q1 H1) as [[_ Hm1] _].
  destruct (rmant_bounds q2 H2) as [_ Hm2].
  pose proof (rexp_ge q1) as Hge. pose proof (pow2_pos (rexp q2)) as HP2.
  unfold rval. destruct (Z.eq_dec (rexp q1) (rexp q2)) as [E|NE].
  - rewrite E. apply Qmult_le_compat_r; [|lra].
    rewrite <- Zle_Qle. unfold rmant. rewrite E. apply rint_even_mono.
    apply Qmult_le_compat_r; [done|]. apply Qlt_le_weak, Qinv_lt_0_compat, HP2.
  - apply Qle_trans with (pow2 (53 + rexp q1)).
    + rewrite pow2_scale by lia. apply Qmult_le_compat_r.
      * by rewrite <- Zle_Qle.
      * apply Qlt_le_weak, pow2_pos.
    + apply Qle_trans with (pow2 (52 + rexp q2)); [apply pow2_le; lia|].
      rewrite pow2_scale by lia. apply Qmult_le_compat_r; [|lra].
      rewrite <- Zle_Qle. apply Hm2. lia.
Qed.

Lemma round_pos_Qeq neg q1 q2 :
  0 < q1 -> q1 == q2 -> round_pos neg q1 = round_pos neg q2.
Proof.
  intros H1 E. rewrite !round_pos_unfold.
  assert (He : rexp q1 = rexp q2) by (unfold rexp; by rewrite (ilog2_Qeq q1 q2)).
  assert (Hm : rmant q1 = rmant q2).
  { unfold rmant. rewrite He. apply rint_even_Qeq. by rewrite E. }
  by rewrite He, Hm.
Qed.

(** A value that is a whole number of units of its own exponent rounds to
    itself. *)
Lemma rval_exact_units q N :
  q / pow2 (rexp q) == inject_Z N -> rval q == q.
Proof.
  intros Hx. pose proof (pow2_pos (rexp q)) as HP.
  unfold rval, rmant. rewrite (rint_even_Qeq _ _ Hx), rint_even_Z.
  rewrite <- Hx. field. lra.
Qed.

(** So does a value with a mantissa below [2^53] at an exponent the format
    has. *)
Lemma rval_exact q M E :
  q == inject_Z M * pow2 E -> (0 < M < 2 ^ 53)%Z -> (-1074 <= E)%Z ->
  rval q == q.
Proof.
  intros Hq HM HE.
  assert (Hpos : 0 < q).
  { rewrite Hq. apply Qmult_lt_0_compat; [|apply pow2_pos].
    change 0 with (inject_Z 0). rewrite <- Zlt_Qlt. lia. }
  destruct (ilog2_spec q Hpos) as [Hlo _].
  assert (Hk : (ilog2 q < 53 + E)%Z).
  { apply pow2_lt_inv. eapply Qle_lt_trans; [exact Hlo|].
    rewrite Hq, pow2_scale by lia. apply Qmult_lt_compat_r; [apply pow2_pos|].
    rewrite <- Zlt_Qlt. lia. }
  assert (He : (rexp q <= E)%Z) by (unfold rexp; lia).
  pose proof (pow2_pos (rexp q)) as HP.
  apply (rval_exact_units q (M * 2 ^ (E - rexp q))).
  rewrite inject_Z_mult, <- pow2_Z by lia.
  rewrite (Qdiv_comp _ _ Hq _ _ (Qeq_refl _)), pow2_sub. field. lra.
Qed.

Lemma ilog2_scaled m e : ilog2 (inject_Z (Z.pos m) * pow2 e) = (Z.log2 (Z.pos m) + e)%Z.
Proof.
  destruct (Z.log2_spec (Z.pos m) eq_refl) as [Hlo Hhi].
  pose proof (Z.log2_nonneg (Z.pos m)) as Hnn.
  apply ilog2_unique.
  - rewrite pow2_scale by lia. apply Qmult_le_compat_r;
      [by rewrite <- Zle_Qle|apply Qlt_le_weak, pow2_pos].
  - replace (Z.log2 (Z.pos m) + e + 1)%Z with (Z.succ (Z.log2 (Z.pos m)) + e)%Z by lia.
    rewrite pow2_scale by lia. apply Qmult_lt_compat_r; [apply pow2_pos|].
    by rewrite <- Zlt_Qlt.
Qed.

(** Rounding the value of a float of the format gives the float back. *)
Lemma round_pos_idem s m e :
  valid_binary prec emax (S754_finite s m e) = true ->
  round_pos s (inject_Z (Z.pos m) * pow2 e) = S754_finite s m e.
Proof.
  intros Hv. apply valid_binary_finite in Hv as [Hc Hb].
  set (q := inject_Z (Z.pos m) * pow2 e).
  assert (He : rexp q = e) by (unfold rexp, q; rewrite ilog2_scaled; lia).
  pose proof (pow2_pos e) as HP.
  assert (Hm : rmant q = Z.pos m).
  { unfold rmant. rewrite He.
    transitivity (rint_even (inject_Z (Z.pos m))); [|apply rint_even_Z].
    apply rint_even_Qeq. unfold q. field. lra. }
  rewrite round_pos_unfold, He, Hm.
  assert (Hl : (Z.pos m < 2 ^ 53)%Z).
  { apply Z.log2_lt_pow2; lia. }
  destruct (Z.eqb_spec (Z.pos m) 0); [lia|].
  destruct (Z.eqb_spec (Z.pos m) (2 ^ 53)); [lia|].
  destruct (Z.gtb_spec e 971); [lia|]. done.
Qed.


(** *** Order and sign of the results *)

Lemma Fabs_pos s m e : 0 < Fabs (S754_finite s m e).
Proof.
  simpl. apply Qmult_lt_0_compat; [|apply pow2_pos].
  change 0 with (inject_Z 0). by rewrite <- Zlt_Qlt.
Qed.

Lemma round_pos_fnn q : 0 < q -> fnn (round_pos false q).
Proof. intros Hq. by destruct (round_pos_cases false q Hq). Qed.

Lemma fle_zero_fnn s f : fnn f -> fle (S754_zero s) f = true.
Proof.
  destruct f as [s'|s'| |s' m e]; simpl; try done.
  - by intros ->.
  - intros [-> _]. apply Qle_bool_iff. apply Qlt_le_weak, (Fabs_pos false m e).
Qed.

Lemma fle_refl_fnn f : fnn f -> fle f f = true.
Proof.
  destruct f as [s|s| |s m e]; simpl; try done.
  - by intros ->.
  - intros [-> _]. apply Qle_bool_iff, Qle_refl.
Qed.

Lemma fle_inf_fnn f : fnn f -> fle f (S754_infinity false) = true.
Proof. by destruct f as [s|[|]| |s m e]. Qed.

Lemma rval_zero q : rmant q = 0%Z -> rval q == 0.
Proof. intros H. unfold rval. rewrite H. ring. Qed.

Lemma fle_round_pos q1 q2 :
  0 < q1 -> q1 <= q2 ->
  fle (round_pos false q1) (round_pos false q2) = true.
Proof.
  intros H1 Hle. assert (H2 : 0 < q2) by lra.
  pose proof (rval_mono q1 q2 H1 Hle) as Hv.
  pose proof (pow2_pos 1024) as HP.
  destruct (round_pos_cases false q1 H1) as [Z1|I1|m1 e1 V1 P1 B1 W1].
  - apply fle_zero_fnn, round_pos_fnn, H2.
  - destruct (round_pos_cases false q2 H2) as [Z2|I2|m2 e2 V2 P2 B2 W2].
    + apply rval_zero in Z2. exfalso. lra.
    + done.
    + exfalso. lra.
  - destruct (round_pos_cases false q2 H2) as [Z2|I2|m2 e2 V2 P2 B2 W2].
    + apply rval_zero in Z2. exfalso. lra.
    + done.
    + simpl. apply Qle_bool_iff. lra.
Qed.

Lemma fadd_fnn x y : fnn x -> fnn y -> fnn (fadd x y) /\ fle x (fadd x y) = true.
Proof.
  intros Hx Hy.
  destruct x as [sx|sx| |sx mx ex]; try done;
  destruct y as [sy|sy| |sy my ey]; try done.
  - simpl. destruct (Bool.eqb sx sy); split; try done;
      apply (fle_zero_fnn sx (S754_zero _)); done.
  - split; [done|]. by apply fle_zero_fnn.
  - split; [done|]. by apply fle_zero_fnn.
  - split; [done|]. by apply fle_refl_fnn.
  - simpl in Hx, Hy. subst. split; [done|]. done.
  - split; [done|]. by apply fle_refl_fnn.
  - split; [done|]. by apply fle_refl_fnn.
  - split; [done|]. simpl in Hy. subst. by apply fle_inf_fnn.
  - destruct Hx as [-> Hx]. destruct Hy as [-> Hy].
    pose proof (Fabs_pos false mx ex) as Px. pose proof (Fabs_pos false my ey) as Py.
    unfold fadd, Q2F. cbn [F2Q].
    destruct (Qcompare_spec (Fabs (S754_finite false mx ex) +
                             Fabs (S754_finite false my ey)) 0) as [E|E|E];
      try (exfalso; lra).
    split; [by apply round_pos_fnn|].
    rewrite <- (round_pos_idem false mx ex Hx) at 1.
    cbn [Fabs] in *. apply fle_round_pos; [exact Px|]. lra.
Qed.

Lemma fmul_fnn x y :
  fnn x -> fnn y -> is_nan (fmul x y) = false -> fnn (fmul x y).
Proof.
  intros Hx Hy Hn.
  destruct x as [sx|sx| |sx mx ex]; try done;
  destruct y as [sy|sy| |sy my ey]; try done; simpl in Hx, Hy, Hn;
    try discriminate;
    repeat match goal with H : _ /\ _ |- _ => destruct H end; subst;
    try done.
  apply round_pos_fnn. apply Qmult_lt_0_compat.
  - apply (Fabs_pos false mx ex).
  - apply (Fabs_pos false my ey).
Qed.


(** *** Rounding to two decimals *)

Lemma cents_nonneg s m e : (0 <= rint_even (Fabs (S754_finite s m e) * 100))%Z.
Proof.
  rewrite <- (rint_even_Z 0). apply rint_even_mono.
  pose proof (Fabs_pos s m e). change (inject_Z 0) with 0. lra.
Qed.

Lemma fround2_fnn x : fnn x -> fnn (fround2 x).
Proof.
  destruct x as [s|s| |s m e]; try done. intros [-> Hv]. unfold fround2.
  pose proof (cents_nonneg false m e) as Hn.
  destruct (Z.eqb_spec (rint_even (Fabs (S754_finite false m e) * 100)) 0) as [E|N];
    [done|].
  apply round_pos_fnn. apply Qlt_shift_div_l; [done|].
  rewrite Qmult_0_l. change 0 with (inject_Z 0). rewrite <- Zlt_Qlt. lia.
Qed.

Lemma fround2_mono x y :
  fnn x -> fnn y -> fle x y = true -> fle (fround2 x) (fround2 y) = true.
Proof.
  intros Hx Hy Hle. pose proof (fround2_fnn y Hy) as Hy'.
  destruct x as [sx|sx| |sx mx ex]; try done.
  - by apply fle_zero_fnn.
  - simpl in Hx. subst sx. destruct y as [sy|sy| |sy my ey]; try done.
  - destruct Hx as [-> Hx].
    destruct y as [sy|sy| |sy my ey]; try done.
    + simpl in Hle. apply Qle_bool_iff in Hle.
      pose proof (Fabs_pos false mx ex) as P. cbn [Fabs] in P. exfalso. lra.
    + simpl in Hy. subst sy. apply fle_inf_fnn.
      apply (fround2_fnn (S754_finite false mx ex)). by split.
    + destruct Hy as [-> Hy]. simpl in Hle. apply Qle_bool_iff in Hle.
      unfold fround2 in *.
      set (nx := rint_even (Fabs (S754_finite false mx ex) * 100)) in *.
      set (ny := rint_even (Fabs (S754_finite false my ey) * 100)) in *.
      assert (Hn : (nx <= ny)%Z).
      { apply rint_even_mono. cbn [Fabs]. lra. }
      pose proof (cents_nonneg false mx ex) as Hnx. fold nx in Hnx.
      destruct (Z.eqb_spec nx 0) as [Ex|Nx]; [by apply fle_zero_fnn|].
      destruct (Z.eqb_spec ny 0) as [Ey|Ny]; [lia|].
      apply fle_round_pos.
      * apply Qlt_shift_div_l; [done|]. rewrite Qmult_0_l.
        change 0 with (inject_Z 0). rewrite <- Zlt_Qlt. lia.
      * apply Qmult_le_compat_r; [|done]. by rewrite <- Zle_Qle.
Qed.

(** A float of the format whose value is an integer is its own rounding. *)
Lemma fround2_integer m e k :
  valid_binary prec emax (S754_finite false m e) = true ->
  inject_Z (Z.pos m) * pow2 e == inject_Z k ->
  fround2 (S754_finite false m e) = S754_finite false m e.
Proof.
  intros Hv Hk. unfold fround2. cbn [Fabs].
  pose proof (Fabs_pos false m e) as P. cbn [Fabs] in P.
  assert (Hn : rint_even (inject_Z (Z.pos m) * pow2 e * 100) = (k * 100)%Z).
  { rewrite <- (rint_even_Z (k * 100)). apply rint_even_Qeq.
    rewrite inject_Z_mult, Hk. reflexivity. }
  rewrite Hn.
  assert (Hk0 : (0 < k)%Z) by (rewrite Zlt_Qlt, <- Hk; exact P).
  destruct (Z.eqb_spec (k * 100) 0); [lia|].
  rewrite <- (round_pos_idem false m e Hv). apply round_pos_Qeq.
  - apply Qlt_shift_div_l; [done|]. rewrite Qmult_0_l.
    change 0 with (inject_Z 0). rewrite <- Zlt_Qlt. lia.
  - rewrite inject_Z_mult, Hk. field.
Qed.


(** *** Integers as floats *)

Lemma inject_Z_pos z : (0 < z)%Z -> 0 < inject_Z z.
Proof. intros H. change 0 with (inject_Z 0). by rewrite <- Zlt_Qlt. Qed.

Lemma float_of_int_pos z :
  (0 < z)%Z -> float_of_int z =
    match round_pos false (inject_Z z) with
    | S754_infinity _ => Raise OverflowError
    | f => Ok f
    end.
Proof.
  intros Hz. unfold float_of_int, Q2F.
  pose proof (inject_Z_pos z Hz) as Hq.
  destruct (Qcompare_spec (inject_Z z) 0) as [E|E|E]; [exfalso; lra..|done].
Qed.

Lemma float_of_int_fnn z f :
  (0 <= z)%Z -> float_of_int z = Ok f -> fnn f /\ is_finite f = true.
Proof.
  intros Hz. destruct (Z.eq_dec z 0%Z) as [->|Hne].
  - by intros [= <-].
  - rewrite float_of_int_pos by lia.
    assert (Hq : 0 < inject_Z z) by (apply inject_Z_pos; lia).
    pose proof (round_pos_fnn _ Hq) as Hf.
    destruct (round_pos false (inject_Z z)) as [s|s| |s m e]; try done;
      by intros [= <-].
Qed.

Lemma float_of_int_bound z :
  (Z.abs z < 2 ^ 1023)%Z -> exists f, float_of_int z = Ok f.
Proof.
  intros Hz. unfold float_of_int, Q2F.
  assert (Hfin : forall s q, 0 < q -> q < pow2 1023 ->
                   match round_pos s q with
                   | S754_infinity _ => False | _ => True end).
  { intros s q Hq Hb. destruct (round_pos_cases s q Hq) as [Z1|I1|m e V P B W];
      try done.
    destruct (rmant_bounds q Hq) as [[_ Hm] _].
    destruct (ilog2_spec q Hq) as [Hlo _].
    assert (Hk : (ilog2 q < 1023)%Z) by (apply pow2_lt_inv; lra).
    assert (He : (rexp q <= 970)%Z) by (unfold rexp; lia).
    assert (Hv : rval q <= pow2 1023).
    { unfold rval. apply Qle_trans with (inject_Z (2 ^ 53) * pow2 (rexp q)).
      - apply Qmult_le_compat_r; [by rewrite <- Zle_Qle|].
        apply Qlt_le_weak, pow2_pos.
      - rewrite <- pow2_scale by lia. apply pow2_le. lia. }
    assert (pow2 1023 < pow2 1024) by (by apply pow2_lt). lra. }
  assert (Hb : Qabs (inject_Z z) < pow2 1023).
  { rewrite pow2_Z by lia.
    unfold Qabs, inject_Z, Qlt. simpl. lia. }
  destruct (Qcompare_spec (inject_Z z) 0) as [E|E|E]; [by eexists| |].
  - specialize (Hfin true (- inject_Z z)).
    rewrite Qabs_neg in Hb by lra.
    destruct (round_pos true (- inject_Z z)); try (by eexists).
    exfalso. apply Hfin; lra.
  - specialize (Hfin false (inject_Z z)).
    rewrite Qabs_pos in Hb by lra.
    destruct (round_pos false (inject_Z z)); try (by eexists).
    exfalso. apply Hfin; lra.
Qed.


(** *** The tax rate *)

Lemma f_0_21_fnn : fnn f_0_21.
Proof. unfold f_0_21, fnn. split; reflexivity. Qed.

Lemma f_0_21_ge : pow2 (-3) <= Fabs f_0_21.
Proof.
  unfold f_0_21. cbn [Fabs]. change (-3)%Z with (52 + -55)%Z.
  rewrite pow2_scale by lia. apply Qmult_le_compat_r.
  - rewrite <- Zle_Qle. lia.
  - apply Qlt_le_weak, pow2_pos.
Qed.

Lemma round_pos_not_nan s q : is_nan (round_pos s q) = false.
Proof.
  rewrite round_pos_unfold. destruct (_ =? 0)%Z; [done|].
  destruct (_ =? _)%Z; by destruct (_ >? _)%Z.
Qed.

Lemma fmul_iva_fnn f : fnn f -> fnn (fmul f f_0_21).
Proof.
  intros Hf. apply fmul_fnn; [done|apply f_0_21_fnn|].
  destruct f as [s|s| |s m e]; try done. apply round_pos_not_nan.
Qed.

(** *** An int subtotal and the total computed from it *)

Lemma ilog2_nonneg_int z : (0 < z)%Z -> (0 <= ilog2 (inject_Z z))%Z.
Proof.
  intros Hz. change 0%Z with (ilog2 (inject_Z 1)).
  apply ilog2_mono; [reflexivity|]. rewrite <- Zle_Qle. lia.
Qed.

(** Below every total there is a float with an integer value that is at
    least the int subtotal. *)
Lemma int_subtotal_bound z f :
  (0 < z)%Z -> float_of_int z = Ok f ->
  exists Y,
    fnn Y /\ fle Y (fadd f (fmul f f_0_21)) = true /\ fround2 Y = Y /\
    match Y with
    | S754_infinity _ => True
    | _ => inject_Z z <= F2Q Y
    end.
Proof.
  intros Hz Hf. rewrite float_of_int_pos in Hf by done.
  set (q := inject_Z z) in *. assert (Hq : 0 < q) by by apply inject_Z_pos.
  pose proof (ilog2_nonneg_int z Hz) as Hk. fold q in Hk.
  assert (He : (rexp q = ilog2 q - 52)%Z) by (unfold rexp; lia).
  destruct (rmant_bounds q Hq) as [[_ Hm53] Hm52].
  specialize (Hm52 ltac:(lia)).
  pose proof (pow2_pos (rexp q)) as HP.
  destruct (ilog2_spec q Hq) as [_ Hhi].
  pose proof (fmul_iva_fnn f) as Hiva.
  destruct (round_pos_cases false q Hq) as [Z1|I1|m e V P B W]; [lia|done|].
  injection Hf as <-. specialize (Hiva ltac:(by split)).
  (* the value of the float is an integer whenever it is at least [q] *)
  assert (Hint : q <= rval q -> exists k, rval q == inject_Z k).
  { intros _. destruct (Z_le_gt_dec 0 (rexp q)) as [Hpos|Hneg].
    - exists (rmant q * 2 ^ rexp q)%Z. unfold rval.
      by rewrite inject_Z_mult, pow2_Z.
    - exists z. apply (rval_exact_units q (z * 2 ^ (- rexp q))).
      rewrite inject_Z_mult, <- pow2_Z by lia.
      replace (- rexp q)%Z with (0 - rexp q)%Z by lia. rewrite pow2_sub.
      change (pow2 0) with 1. fold q. field. lra. }
  destruct (Qlt_le_dec (rval q) q) as [Hlt|Hge].
  - (* rounded down: the next float up *)
    assert (He1 : (1 <= rexp q)%Z).
    { destruct (Z_le_gt_dec (rexp q) 0) as [Hneg|]; [|lia]. exfalso.
      assert (rval q == q); [|lra].
      apply (rval_exact_units q (z * 2 ^ (- rexp q))).
      rewrite inject_Z_mult, <- pow2_Z by lia.
      replace (- rexp q)%Z with (0 - rexp q)%Z by lia. rewrite pow2_sub.
      change (pow2 0) with 1. fold q. field. lra. }
    assert (Hm : (rmant q < 2 ^ 53)%Z).
    { destruct (Z.eq_dec (rmant q) (2 ^ 53)%Z) as [E|]; [|lia]. exfalso.
      assert (rval q == pow2 (53 + rexp q))
        by (unfold rval; rewrite E, pow2_scale by lia; reflexivity).
      assert (pow2 (ilog2 q + 1) <= pow2 (53 + rexp q)) by (apply pow2_le; lia).
      lra. }
    set (y := inject_Z ((rmant q + 1) * 2 ^ rexp q)).
    assert (Hy : y == rval q + pow2 (rexp q)).
    { unfold y, rval. rewrite !inject_Z_mult, inject_Z_plus, <- pow2_Z by lia.
      change (inject_Z 1) with 1. ring. }
    assert (Hqy : q <= y).
    { destruct (rint_even_bounds (q / pow2 (rexp q))) as [Hlo _].
      fold (rmant q) in Hlo.
      assert (q / pow2 (rexp q) * pow2 (rexp q) <=
              (inject_Z (rmant q) + 1) * pow2 (rexp q)).
      { apply Qmult_le_compat_r; lra. }
      assert (q / pow2 (rexp q) * pow2 (rexp q) == q) by (field; lra).
      rewrite Hy. unfold rval. lra. }
    assert (Hy0 : 0 < y) by lra.
    assert (Hry : rval y == y).
    { destruct (Z.eq_dec (rmant q + 1)%Z (2 ^ 53)%Z) as [E|NE].
      - apply (rval_exact y (2 ^ 52) (rexp q + 1)); [|lia|lia].
        assert (Em : inject_Z (rmant q) == inject_Z (2 ^ 53) - 1).
        { rewrite <- E, inject_Z_plus. change (inject_Z 1) with 1. ring. }
        rewrite Hy. unfold rval. rewrite Em, pow2_add. change (pow2 1) with 2.
        change (inject_Z (2 ^ 53)) with (2 * inject_Z (2 ^ 52)). ring.
      - apply (rval_exact y (rmant q + 1) (rexp q)); [|lia|lia].
        unfold y. by rewrite inject_Z_mult, <- pow2_Z by lia. }
    exists (round_pos false y).
    split; [by apply round_pos_fnn|]. split; [|split].
    + (* the tax is at least one unit in the last place *)
      cbn [fmul fsign]. unfold f_0_21 at 1. cbn [xorb].
      set (w0 := Fabs (S754_finite false m e) * Fabs f_0_21).
      assert (Hw0 : pow2 (rexp q) <= w0).
      { pose proof f_0_21_ge as Hc. unfold w0. cbn [Fabs] in *.
        apply Qle_trans with (pow2 (52 + rexp q) * pow2 (-3)).
        - rewrite <- pow2_add. apply pow2_le. lia.
        - apply Qle_trans with (inject_Z (Z.pos m) * pow2 e * pow2 (-3)).
          + apply Qmult_le_compat_r; [|apply Qlt_le_weak, pow2_pos].
            rewrite V. unfold rval. rewrite pow2_scale by lia.
            apply Qmult_le_compat_r; [by rewrite <- Zle_Qle|lra].
          + rewrite !(Qmult_comm (inject_Z (Z.pos m) * pow2 e)).
            apply Qmult_le_compat_r; [done|]. rewrite V. lra. }
      assert (Hrw : pow2 (rexp q) <= rval w0).
      { assert (E1 : rval (pow2 (rexp q)) == pow2 (rexp q)).
        { apply (rval_exact _ 1 (rexp q)); [|lia|lia].
          change (inject_Z 1) with 1. ring. }
        rewrite <- E1. apply rval_mono; [done|done]. }
      destruct (round_pos_cases false w0) as [Z2|I2|mi ei Vi Pi Bi Wi]; [lra| | |].
      * apply rval_zero in Z2. exfalso. lra.
      * apply fle_inf_fnn. by apply round_pos_fnn.
      * unfold fadd, Q2F. cbn [F2Q Fabs].
        destruct (Qcompare_spec (inject_Z (Z.pos m) * pow2 e +
                                 inject_Z (Z.pos mi) * pow2 ei) 0) as [E|E|E];
          try (exfalso; lra).
        apply fle_round_pos; [done|]. rewrite Hy, V, Vi. lra.
    + destruct (round_pos_cases false y Hy0) as [Z2|I2|my ey Vy Py By Wy].
      * apply rval_zero in Z2. exfalso. lra.
      * done.
      * apply (fround2_integer my ey ((rmant q + 1) * 2 ^ rexp q)); [done|].
        by rewrite Vy, Hry.
    + destruct (round_pos_cases false y Hy0) as [Z2|I2|my ey Vy Py By Wy].
      * apply rval_zero in Z2. exfalso. lra.
      * done.
      * cbn [F2Q Fabs]. rewrite Vy, Hry. exact Hqy.
  - (* not rounded down: the float itself *)
    destruct (Hint Hge) as [k Hk'].
    exists (S754_finite false m e). split; [by split|]. split; [|split].
    + apply fadd_fnn; [by split|done].
    + apply (fround2_integer m e k); [done|]. by rewrite V.
    + cbn [F2Q Fabs]. rewrite V. exact Hge.
Qed.


(** *** Series A: the stored total against the stored subtotal *)

Lemma py_le_int_float z Y T :
  fnn Y -> fnn T -> fle Y T = true ->
  match Y with
  | S754_infinity _ => True
  | _ => inject_Z z <= F2Q Y
  end ->
  py_le (PyInt z) (PyFloat T) = true.
Proof.
  intros HY0 HT Hle HY.
  destruct T as [sT|sT| |sT mT eT]; try done.
  - destruct Y as [sY|sY| |sY mY eY]; try done.
    + simpl in *. apply Qle_bool_iff in Hle. apply Qle_bool_iff. lra.
    + simpl in HY0. by subst sY.
    + simpl in *. apply Qle_bool_iff in Hle. apply Qle_bool_iff.
      destruct sY; lra.
  - simpl in HT. by subst.
  - destruct Y as [sY|sY| |sY mY eY]; try done.
    + simpl in *. apply Qle_bool_iff in Hle. apply Qle_bool_iff. lra.
    + simpl in HY0. by subst sY.
    + simpl in *. apply Qle_bool_iff in Hle. apply Qle_bool_iff.
      destruct sY, sT; lra.
Qed.

Lemma total_ge_subtotal s iva total :
  num_nn s ->
  py_mul s importe_iva = Ok iva ->
  py_add s iva = Ok total ->
  py_le (py_round2 s) (py_round2 total) = true.
Proof.
  intros Hs Hiva Htot. destruct s as [z|f]; simpl in Hs, Hiva.
  - destruct (float_of_int z) as [f|] eqn:Hf; [|done].
    injection Hiva as <-. simpl in Htot. rewrite Hf in Htot.
    injection Htot as <-. cbn [py_round2].
    destruct (float_of_int_fnn z f Hs Hf) as [Hfnn _].
    pose proof (fmul_iva_fnn f Hfnn) as Hi.
    destruct (fadd_fnn f _ Hfnn Hi) as [Ht Hle].
    pose proof (fround2_fnn _ Ht) as HT.
    destruct (Z.eq_dec z 0%Z) as [->|Hz].
    + apply (py_le_int_float 0 (S754_zero false)); [done|done| |done].
      by apply fle_zero_fnn.
    + destruct (int_subtotal_bound z f ltac:(lia) Hf) as (Y & HY & HYle & HYr & HYv).
      apply (py_le_int_float z Y); [done|done| |done].
      rewrite <- HYr. by apply fround2_mono.
  - injection Hiva as <-. injection Htot as <-. cbn [py_round2 py_le].
    pose proof (fmul_iva_fnn f Hs) as Hi.
    destruct (fadd_fnn f _ Hs Hi) as [Ht Hle].
    by apply fround2_mono.
Qed.

(** *** Non-negative items have a non-negative sum *)

Lemma as_num_nn v x :
  json_nn v -> as_num v = Ok x -> num_nn x /\ num_fin x.
Proof.
  destruct v as [ |b|z|f|s|l|kv]; simpl; try done.
  - intros _ [= <-]. simpl. by destruct b.
  - by intros Hz [= <-].
  - by intros [Hf Hfin] [= <-].
Qed.

Lemma fmul_finite_fnn f g :
  fnn f -> fnn g -> is_finite f = true -> is_finite g = true -> fnn (fmul f g).
Proof.
  intros Hf Hg Ff Fg. apply fmul_fnn; [done..|].
  destruct f as [s|s| |s m e]; try done;
  destruct g as [s'|s'| |s' m' e']; try done. apply round_pos_not_nan.
Qed.

Lemma py_mul_nn a b r :
  num_nn a -> num_nn b -> num_fin a -> num_fin b ->
  py_mul a b = Ok r -> num_nn r.
Proof.
  intros Ha Hb Fa Fb. destruct a as [x|f], b as [y|g]; simpl in *.
  - intros [= <-]. simpl. lia.
  - destruct (float_of_int x) as [f|] eqn:Hf; [|done]. intros [= <-].
    destruct (float_of_int_fnn x f Ha Hf). by apply fmul_finite_fnn.
  - destruct (float_of_int y) as [g|] eqn:Hg; [|done]. intros [= <-].
    destruct (float_of_int_fnn y g Hb Hg). by apply fmul_finite_fnn.
  - intros [= <-]. by apply fmul_finite_fnn.
Qed.

Lemma py_add_nn a b r :
  num_nn a -> num_nn b -> py_add a b = Ok r -> num_nn r.
Proof.
  intros Ha Hb. destruct a as [x|f], b as [y|g]; simpl in *.
  - intros [= <-]. simpl. lia.
  - destruct (float_of_int x) as [f|] eqn:Hf; [|done]. intros [= <-].
    destruct (float_of_int_fnn x f Ha Hf). by apply fadd_fnn.
  - destruct (float_of_int y) as [g|] eqn:Hg; [|done]. intros [= <-].
    destruct (float_of_int_fnn y g Hb Hg). by apply fadd_fnn.
  - intros [= <-]. by apply fadd_fnn.
Qed.

Lemma importe_item_nn it v :
  item_nn it -> importe_item it = Ok v -> num_nn v.
Proof.
  intros (c & p & [Hc Hp] & Nc & Np). unfold importe_item.
  rewrite Hc, Hp. cbn [mbind res_bind].
  destruct (as_num c) as [a|] eqn:Ha; [|done].
  destruct (as_num p) as [b|] eqn:Hb; [|done]. cbn [mbind res_bind].
  destruct (as_num_nn c a Nc Ha). destruct (as_num_nn p b Np Hb).
  by apply py_mul_nn.
Qed.

Lemma py_sum_from_nn its acc s :
  Forall item_nn its -> num_nn acc ->
  py_sum_from importe_item acc its = Ok s -> num_nn s.
Proof.
  intros Hits. revert acc. induction Hits as [|it its Hit _ IH]; intros acc Hacc.
  - by intros [= <-].
  - cbn [py_sum_from].
    destruct (importe_item it) as [v|] eqn:Hv; [|done]. cbn [mbind res_bind].
    destruct (py_add acc v) as [acc'|] eqn:Hadd; [|done]. cbn [mbind res_bind].
    apply IH. eapply py_add_nn; [exact Hacc| |exact Hadd].
    by eapply importe_item_nn.
Qed.


(** *** The result against the exact value and the reference operations *)

(** The rounded value is within half a unit in the last place. *)
Lemma rval_error q :
  Qabs (q - rval q) <= pow2 (rexp q) * (1 # 2).
Proof.
  pose proof (pow2_pos (rexp q)) as HP.
  destruct (rint_even_bounds (q / pow2 (rexp q))) as [Hlo Hhi].
  fold (rmant q) in Hlo, Hhi. unfold rval.
  assert (E : q / pow2 (rexp q) * pow2 (rexp q) == q) by (field; lra).
  set (x := q / pow2 (rexp q)) in *.
  assert (H1 : (x - (1 # 2)) * pow2 (rexp q) <= inject_Z (rmant q) * pow2 (rexp q))
    by (apply Qmult_le_compat_r; lra).
  assert (H2 : inject_Z (rmant q) * pow2 (rexp q) <= (x + (1 # 2)) * pow2 (rexp q))
    by (apply Qmult_le_compat_r; lra).
  apply Qabs_Qle_condition. split; lra.
Qed.

Example operaciones_de_referencia :
  forallb (fun xy =>
             bool_decide (fmul xy.1 xy.2 = SFmul prec emax xy.1 xy.2) &&
             bool_decide (fadd xy.1 xy.2 = SFadd prec emax xy.1 xy.2) &&
             bool_decide (fsub xy.1 xy.2 = SFsub prec emax xy.1 xy.2) &&
             Bool.eqb (fle xy.1 xy.2) (SFleb xy.1 xy.2)) muestras = true.
Proof. vm_compute. reflexivity. Qed.

End Rounding.

Lemma py_eq_float_int f k :
  py_eq (PyFloat f) (PyInt k) = true -> is_finite f = true /\ (F2Q f == inject_Z k)%Q.
Proof.
  unfold py_eq, py_le. destruct f as [s|s| |s m e]; simpl.
  - rewrite andb_true_iff, !Qle_bool_iff. intros [H1 H2]. split; [done|]. by apply Qle_antisym.
  - destruct s; simpl; discriminate.
  - discriminate.
  - rewrite andb_true_iff, !Qle_bool_iff. intros [H1 H2]. split; [done|]. by apply Qle_antisym.
Qed.

Lemma py_str_registered v :
  en_puntos_venta v = true -> exists s, py_str v = Some s.
Proof.
  unfold en_puntos_venta. rewrite existsb_exists. intros (k & Hk & Heq).
  destruct v as [ |b|z|f|s|l|kv]; simpl in Heq; try discriminate; simpl; eauto.
  apply py_eq_float_int in Heq as [Hfin Hq].
  destruct f as [s|s| |s m e]; try discriminate; eauto.
  apply Qred_complete in Hq. cbv zeta. rewrite Hq.
  simpl in Hk. repeat (destruct Hk as [<-|Hk]; [vm_compute; eauto|]). done.
Qed.

(** *** Mixed arithmetic *)

Lemma bind_Ok {A B} (r : res A) (k : A -> res B) b :
  r ≫= k = Ok b -> exists a, r = Ok a /\ k a = Ok b.
Proof. destruct r as [a|e]; [by exists a|done]. Qed.

Lemma float_of_int_0 : float_of_int 0 = Ok (S754_zero false).
Proof. reflexivity. Qed.

Lemma py_mul_float_r a g r :
  py_mul a (PyFloat g) = Ok r -> exists h, r = PyFloat h.
Proof.
  destruct a as [x|f]; simpl.
  - destruct (float_of_int x); [|done]. intros [= <-]. eauto.
  - intros [= <-]. eauto.
Qed.

Lemma py_add_float_r a g r :
  py_add a (PyFloat g) = Ok r -> exists h, r = PyFloat h.
Proof.
  destruct a as [x|f]; simpl.
  - destruct (float_of_int x); [|done]. intros [= <-]. eauto.
  - intros [= <-]. eauto.
Qed.

(** The tax rate is a float, so the total of either series is one. *)
Lemma calcular_totales_total_float items tipo tot :
  calcular_totales items tipo = Ok tot -> exists g, Totales.total tot = PyFloat g.
Proof.
  unfold calcular_totales. intros H.
  apply bind_Ok in H as (its & _ & H). apply bind_Ok in H as (s & _ & H).
  destruct (String.eqb tipo "A").
  - apply bind_Ok in H as (iva & Hiva & H). apply bind_Ok in H as (total & Ht & H).
    injection H as <-. cbn [Totales.total].
    apply py_mul_float_r in Hiva as [h ->]. apply py_add_float_r in Ht as [g ->].
    by eexists.
  - apply bind_Ok in H as (iva & Hiva & H). apply bind_Ok in H as (total & Ht & H).
    apply bind_Ok in H as (i & _ & H). injection H as <-. cbn [Totales.total].
    apply py_mul_float_r in Hiva as [h ->]. apply py_add_float_r in Ht as [g ->].
    by eexists.
Qed.

(** Adding floats never raises. *)
Lemma py_sum_from_floats {A} (total : A -> num) (l : list A) acc :
  (acc = PyInt 0 \/ exists g, acc = PyFloat g) ->
  Forall (fun x => exists g, total x = PyFloat g) l ->
  exists s, py_sum_from (fun x => Ok (total x)) acc l = Ok s.
Proof.
  intros Hacc Hl. revert acc Hacc.
  induction Hl as [|x l [g Hx] _ IH]; intros acc Hacc; [by eexists|].
  cbn [py_sum_from]. change (Ok (total x) ≫= ?k) with (k (total x)).
  cbv beta. rewrite Hx.
  destruct Hacc as [-> | [h ->]]; cbn [py_add].
  - rewrite float_of_int_0. apply IH. right. by eexists.
  - apply IH. right. by eexists.
Qed.

(** ** The tax calculator *)

Section TaxCalculator.
Local Open Scope Q_scope.

(** [rint_even] is a nearest integer, the even one at a tie. *)
Lemma rint_even_nearest q :
  Qabs (q - inject_Z (rint_even q)) <= 1 # 2 /\
  (Qabs (q - inject_Z (rint_even q)) == 1 # 2 -> Z.even (rint_even q) = true).
Proof.
  split.
  - apply Qabs_Qle_condition. destruct (rint_even_bounds q). split; lra.
  - pose proof (Qfloor_le q) as Hlo. pose proof (Qlt_floor q) as Hhi.
    rewrite inject_Z_plus in Hhi. change (inject_Z 1) with 1 in Hhi.
    unfold rint_even.
    destruct (Qcompare_spec (q - inject_Z (Qfloor q)) (1 # 2)) as [H|H|H].
    + intros _. destruct (Z.even (Qfloor q)) eqn:E; [done|].
      rewrite Z.add_1_r, Z.even_succ, <- Z.negb_even. by rewrite E.
    + rewrite Qabs_pos by lra. intros E. exfalso. lra.
    + rewrite inject_Z_plus. change (inject_Z 1) with 1.
      rewrite Qabs_neg by lra. intros E. exfalso. lra.
Qed.

(** [round(x, 2)] rounds to two decimals with ties to even. *)
Lemma py_round2_par x : es_redondeo_par x (py_round2 x).
Proof.
  destruct x as [z|[s|s| |s m e]]; try done. simpl.
  exists (rint_even (inject_Z (Z.pos m) * pow2 e * 100)).
  destruct (rint_even_nearest (inject_Z (Z.pos m) * pow2 e * 100)) as [H1 H2].
  by repeat split.
Qed.

(** What the series-A branch computes. *)
Lemma calcular_totales_A_inv items tot :
  calcular_totales items "A" = Ok tot ->
  exists its s iva total,
    py_iter items = Ok its /\
    py_sum importe_item its = Ok s /\
    py_mul s importe_iva = Ok iva /\
    py_add s iva = Ok total /\
    tot = Totales.mk (py_round2 s) (py_round2 iva) (py_round2 total).
Proof.
  unfold calcular_totales. intros H.
  apply bind_Ok in H as (its & Hits & H). apply bind_Ok in H as (s & Hs & H).
  cbn [String.eqb Ascii.eqb Bool.eqb] in H.
  apply bind_Ok in H as (iva & Hiva & H). apply bind_Ok in H as (total & Ht & H).
  injection H as <-. by exists its, s, iva, total.
Qed.

Lemma calcular_totales_A_ok items its s iva total :
  py_iter items = Ok its ->
  py_sum importe_item its = Ok s ->
  py_mul s importe_iva = Ok iva ->
  py_add s iva = Ok total ->
  calcular_totales items "A" =
    Ok (Totales.mk (py_round2 s) (py_round2 iva) (py_round2 total)).
Proof.
  intros Hits Hs Hiva Ht. unfold calcular_totales.
  rewrite Hits. cbn [mbind res_bind]. rewrite Hs. cbn [mbind res_bind].
  cbn [String.eqb Ascii.eqb Bool.eqb]. rewrite Hiva. cbn [mbind res_bind].
  by rewrite Ht.
Qed.

(** What the series-B branch computes: the total is a float [g], the
    subtotal field is the total and the tax is [g - g]. *)
Lemma calcular_totales_B_inv items tot :
  calcular_totales items "B" = Ok tot ->
  exists its s t g,
    py_iter items = Ok its /\
    py_sum importe_item its = Ok s /\
    py_mul s importe_iva = Ok t /\
    py_add s t = Ok (PyFloat g) /\
    tot = Totales.mk (PyFloat (fround2 g)) (PyFloat (fround2 (fsub g g)))
            (PyFloat (fround2 g)).
Proof.
  unfold calcular_totales. intros H.
  apply bind_Ok in H as (its & Hits & H). apply bind_Ok in H as (s & Hs & H).
  cbn [String.eqb Ascii.eqb Bool.eqb] in H.
  apply bind_Ok in H as (t & Ht & H). apply bind_Ok in H as (total & Htot & H).
  destruct (py_mul_float_r _ _ _ Ht) as [h ->].
  destruct (py_add_float_r _ _ _ Htot) as [g ->].
  cbn in H. injection H as <-. by exists its, s, (PyFloat h), g.
Qed.

Lemma calcular_totales_B_ok items its s t g :
  py_iter items = Ok its ->
  py_sum importe_item its = Ok s ->
  py_mul s importe_iva = Ok t ->
  py_add s t = Ok (PyFloat g) ->
  calcular_totales items "B" =
    Ok (Totales.mk (PyFloat (fround2 g)) (PyFloat (fround2 (fsub g g)))
          (PyFloat (fround2 g))).
Proof.
  intros Hits Hs Ht Hg. unfold calcular_totales.
  rewrite Hits. cbn [mbind res_bind]. rewrite Hs. cbn [mbind res_bind].
  cbn [String.eqb Ascii.eqb Bool.eqb]. rewrite Ht. cbn [mbind res_bind].
  by rewrite Hg.
Qed.

(** A finite float minus itself is [+0.0]. *)
Lemma fsub_self g : is_finite g = true -> fsub g g = S754_zero false.
Proof.
  destruct g as [s|s| |s m e]; try done; intros _.
  - unfold fsub. simpl. by destruct s.
  - unfold fsub, fadd, fopp, Q2F.
    pose proof (Fabs_pos s m e) as P.
    destruct (Qcompare_spec (F2Q (S754_finite s m e) +
                             F2Q (S754_finite (negb s) m e)) 0) as [E|E|E];
      [done|exfalso..]; destruct s; cbn [F2Q negb Fabs] in *; lra.
Qed.

Lemma fround2_not_nan g : is_nan g = false -> is_nan (fround2 g) = false.
Proof.
  destruct g as [s|s| |s m e]; try done. intros _. unfold fround2.
  destruct (_ =? 0)%Z; [done|apply round_pos_not_nan].
Qed.

Lemma fround2_finite_inv g : is_finite (fround2 g) = true -> is_finite g = true.
Proof. by destruct g. Qed.

Lemma py_eq_add_zero r :
  is_nan r = false ->
  py_eq (PyFloat r) (PyFloat (fadd r (S754_zero false))) = true.
Proof.
  destruct r as [s|[|]| |s m e]; try done; intros _.
  - by destruct s.
  - unfold py_eq, py_le, fadd, fle. cbn [F2Q].
    by rewrite (proj2 (Qle_bool_iff _ _) (Qle_refl _)).
Qed.

(** C1 (as amended): for series A the calculator returns the sum of
    quantity times price as subtotal, the subtotal times 0.21 as tax and
    their sum as total, in binary floating point, each rounded to two
    decimals the way [round(x, 2)] does it: an int is left as it is and a
    float goes to the nearest cent with ties to the even cent on its exact
    binary value (not half-up). Whenever the three amounts can be computed
    the calculator returns them; for one item of quantity 2 and price 100
    that is 200, 42.0 and 242.0. *)
Theorem totales_serie_A :
  (forall items tot,
      calcular_totales items "A" = Ok tot ->
      exists its s iva total,
        py_iter items = Ok its /\
        py_sum importe_item its = Ok s /\
        py_mul s importe_iva = Ok iva /\
        py_add s iva = Ok total /\
        es_redondeo_par s (Totales.subtotal tot) /\
        es_redondeo_par iva (Totales.iva tot) /\
        es_redondeo_par total (Totales.total tot)) /\
  (forall items its s iva total,
      py_iter items = Ok its ->
      py_sum importe_item its = Ok s ->
      py_mul s importe_iva = Ok iva ->
      py_add s iva = Ok total ->
      calcular_totales items "A" =
        Ok (Totales.mk (py_round2 s) (py_round2 iva) (py_round2 total))) /\
  calcular_totales (JArr [item (JInt 2) (JInt 100)]) "A" =
    Ok (Totales.mk (PyInt 200) (PyFloat (Q2F 42)) (PyFloat (Q2F 242))).
Proof.
  split; [|split].
  - intros items tot H.
    apply calcular_totales_A_inv in H as (its & s & iva & total & H1 & H2 & H3 & H4 & ->).
    exists its, s, iva, total. repeat (split; [done|]).
    cbn [Totales.subtotal Totales.iva Totales.total].
    split; [|split]; apply py_round2_par.
  - apply calcular_totales_A_ok.
  - vm_compute. reflexivity.
Qed.

Lemma totales_serie_A_witness :
  exists s iva total,
    py_sum importe_item [item (JInt 2) (JInt 100)] = Ok s /\
    py_mul s importe_iva = Ok iva /\
    py_add s iva = Ok total /\
    es_redondeo_par iva (PyFloat (Q2F 42)) /\
    es_redondeo_par total (PyFloat (Q2F 242)).
Proof.
  destruct totales_serie_A as (Hinv & _ & Hej).
  destruct (Hinv _ _ Hej) as (its & s & iva & total & Hits & Hs & Hiva & Ht & _ & Ri & Rt).
  injection Hits as <-. exists s, iva, total. by repeat split.
Defined.

(** The series-A tax of one item of price 12.5 is 2.625 exactly; the
    calculator stores 2.62 and a total of 15.12, half-up rounding gives 2.63
    and 15.13. *)
Lemma half_up_counterexample :
  let items := JArr [item (JInt 1) (JFloat (Q2F (25 # 2)))] in
  calcular_totales items "A" =
    Ok (Totales.mk (PyFloat (Q2F (25 # 2))) (PyFloat (Q2F (262 # 100)))
          (PyFloat (Q2F (1512 # 100)))) /\
  totales_A_half_up items =
    Ok (Totales.mk (PyFloat (Q2F (25 # 2))) (PyFloat (Q2F (263 # 100)))
          (PyFloat (Q2F (1513 # 100)))) /\
  py_eq (PyFloat (Q2F (262 # 100))) (PyFloat (Q2F (263 # 100))) = false /\
  calcular_totales items "A" <> totales_A_half_up items.
Proof.
  intros items. split; [|split; [|split]]; vm_compute; try reflexivity.
  discriminate.
Qed.

(** C2 (as amended): for series B the calculator returns as total the sum
    [s] of quantity times price plus [s] times 0.21, added in binary
    floating point and rounded by [round(x, 2)]; that is not always [s]
    times 1.21 rounded. The subtotal field is the total, and the tax is 0.0
    whenever the total is finite (NaN when it is not). Whenever the
    amounts can be computed the calculator returns them; for one item of
    quantity 1 and price 121 the total is 146.41. *)
Theorem totales_serie_B :
  (forall items tot,
      calcular_totales items "B" = Ok tot ->
      exists its s t g,
        py_iter items = Ok its /\
        py_sum importe_item its = Ok s /\
        py_mul s importe_iva = Ok t /\
        py_add s t = Ok (PyFloat g) /\
        es_redondeo_par (PyFloat g) (Totales.total tot) /\
        Totales.subtotal tot = Totales.total tot /\
        (is_finite g = true -> Totales.iva tot = PyFloat (S754_zero false)) /\
        (is_finite g = false -> Totales.iva tot = PyFloat S754_nan)) /\
  (forall items its s t g,
      py_iter items = Ok its ->
      py_sum importe_item its = Ok s ->
      py_mul s importe_iva = Ok t ->
      py_add s t = Ok (PyFloat g) ->
      exists tot, calcular_totales items "B" = Ok tot /\
                  Totales.total tot = py_round2 (PyFloat g)) /\
  calcular_totales (JArr [item (JInt 1) (JInt 121)]) "B" =
    Ok (Totales.mk (PyFloat (Q2F (14641 # 100))) (PyFloat (S754_zero false))
          (PyFloat (Q2F (14641 # 100)))).
Proof.
  split; [|split].
  - intros items tot H.
    apply calcular_totales_B_inv in H as (its & s & t & g & H1 & H2 & H3 & H4 & ->).
    exists its, s, t, g. repeat (split; [done|]).
    cbn [Totales.subtotal Totales.iva Totales.total].
    split; [apply (py_round2_par (PyFloat g))|]. split; [done|]. split.
    + intros Hg. by rewrite fsub_self.
    + by destruct g as [s'|[|]| |s' m e].
  - intros items its s t g H1 H2 H3 H4. eexists. split.
    + by eapply calcular_totales_B_ok.
    + done.
  - vm_compute. reflexivity.
Qed.

Lemma totales_serie_B_witness :
  exists g,
    es_redondeo_par (PyFloat g) (PyFloat (Q2F (14641 # 100))) /\
    is_finite g = true.
Proof.
  destruct totales_serie_B as (Hinv & _ & Hej).
  destruct (Hinv _ _ Hej) as (its & s & t & g & Hits & Hs & Ht & Hg & Rg & _).
  injection Hits as <-. vm_compute in Hs. injection Hs as <-.
  vm_compute in Ht. injection Ht as <-. vm_compute in Hg. injection Hg as <-.
  eexists. split; [exact Rg|reflexivity].
Defined.

(** For one item of price 3.5 the calculator's total is 4.24 while 3.5
    times the double 1.21, rounded, is 4.23; for one item of price 1.5 the
    calculator's total is 1.81 while 1.5 times 1.21 is exactly 1.815, which
    rounds to 1.82 with ties up and with ties to even. *)
Lemma por_1_21_counterexample :
  (let items := JArr [item (JInt 1) (JFloat (Q2F (7 # 2)))] in
   calcular_totales items "B" =
     Ok (Totales.mk (PyFloat (Q2F (424 # 100))) (PyFloat (S754_zero false))
           (PyFloat (Q2F (424 # 100)))) /\
   totales_B_por_1_21 items =
     Ok (Totales.mk (PyFloat (Q2F (423 # 100))) (PyInt 0)
           (PyFloat (Q2F (423 # 100)))) /\
   py_eq (PyFloat (Q2F (424 # 100))) (PyFloat (Q2F (423 # 100))) = false) /\
  (let items := JArr [item (JInt 1) (JFloat (Q2F (3 # 2)))] in
   calcular_totales items "B" =
     Ok (Totales.mk (PyFloat (Q2F (181 # 100))) (PyFloat (S754_zero false))
           (PyFloat (Q2F (181 # 100)))) /\
   cents_half_up ((3 # 2) * (121 # 100)) = 182%Z /\
   cents_half_even ((3 # 2) * (121 # 100)) = 182%Z).
Proof.
  split; intros items; repeat split; vm_compute; reflexivity.
Qed.

(** C3 (as amended): the stored fields of a series-B invoice with a finite
    total satisfy [total == subtotal + iva], the tax being 0.0 and the
    subtotal the total. For series A with quantities and prices that are
    non-negative finite numbers the stored total is at least the stored
    subtotal; the three stored fields are the separate roundings of amounts
    [s], [iva] and [s + iva], so the equality holds before rounding and
    need not hold after it. *)
Theorem campos_guardados :
  (forall items tot,
      calcular_totales items "B" = Ok tot ->
      (exists g, Totales.total tot = PyFloat g /\ is_finite g = true) ->
      total_es_suma tot) /\
  (forall its tot,
      Forall item_nn its ->
      calcular_totales (JArr its) "A" = Ok tot ->
      total_cubre_subtotal tot /\
      exists s iva total,
        py_add s iva = Ok total /\
        tot = Totales.mk (py_round2 s) (py_round2 iva) (py_round2 total)).
Proof.
  split.
  - intros items tot H (g & Hg & Hfin).
    apply calcular_totales_B_inv in H as (its & s & t & g0 & _ & _ & _ & _ & ->).
    cbn [Totales.total] in Hg. injection Hg as <-.
    pose proof (fround2_finite_inv _ Hfin) as Hfin0.
    rewrite (fsub_self g0 Hfin0). unfold total_es_suma.
    cbn [Totales.subtotal Totales.iva Totales.total fround2 py_add].
    eexists. split; [reflexivity|]. apply py_eq_add_zero.
    by destruct (fround2 g0).
  - intros its tot Hnn H.
    apply calcular_totales_A_inv in H as (its' & s & iva & total & Hits & Hs & Hiva & Ht & ->).
    injection Hits as <-. split.
    + unfold total_cubre_subtotal, py_ge.
      cbn [Totales.subtotal Totales.total].
      apply (total_ge_subtotal s iva total); [|done|done].
      apply (py_sum_from_nn its (PyInt 0) s); [done| |done]. simpl. lia.
    + by exists s, iva, total.
Qed.

Lemma campos_guardados_witness :
  (exists tot,
      calcular_totales (JArr [item (JInt 1) (JInt 121)]) "B" = Ok tot /\
      total_es_suma tot) /\
  (exists tot,
      calcular_totales (JArr [item (JInt 2) (JInt 100)]) "A" = Ok tot /\
      total_cubre_subtotal tot).
Proof.
  destruct campos_guardados as [HB HA]. split.
  - eexists. split; [vm_compute; reflexivity|].
    apply (HB (JArr [item (JInt 1) (JInt 121)])); [vm_compute; reflexivity|].
    eexists. split; reflexivity.
  - eexists. split; [vm_compute; reflexivity|].
    apply (HA [item (JInt 2) (JInt 100)]); [|vm_compute; reflexivity].
    constructor; [|constructor].
    exists (JInt 2), (JInt 100). split; [by split|]. split; simpl; lia.
Defined.

(** One item of quantity 1 and price 19 in series A is stored as subtotal
    19, tax 3.99 and total 22.99, and 19 + 3.99 is the double
    22.990000000000002, not the double 22.99. One item of price 1.014 is
    stored as 1.01, 0.21 and 1.23, a cent more than 1.01 + 0.21. In both
    the quantity and the price are non-negative. *)
Lemma total_es_suma_counterexample :
  (let its := [item (JInt 1) (JInt 19)] in
   Forall item_nn its /\
   exists tot,
     calcular_totales (JArr its) "A" = Ok tot /\
     tot = Totales.mk (PyInt 19) (PyFloat (Q2F (399 # 100)))
             (PyFloat (Q2F (2299 # 100))) /\
     ~ total_es_suma tot) /\
  (let its := [item (JInt 1) (JFloat (Q2F (1014 # 1000)))] in
   Forall item_nn its /\
   exists tot,
     calcular_totales (JArr its) "A" = Ok tot /\
     tot = Totales.mk (PyFloat (Q2F (101 # 100))) (PyFloat (Q2F (21 # 100)))
             (PyFloat (Q2F (123 # 100))) /\
     ~ total_es_suma tot).
Proof.
  split; intros its.
  - split.
    + constructor; [|constructor].
      exists (JInt 1), (JInt 19). split; [by split|]. split; simpl; lia.
    + eexists. split; [vm_compute; reflexivity|]. split; [reflexivity|].
      intros (r & Hr & He). vm_compute in Hr. injection Hr as <-.
      vm_compute in He. discriminate.
  - split.
    + constructor; [|constructor].
      exists (JInt 1), (JFloat (Q2F (1014 # 1000))).
      split; [by split|]. split; [simpl; lia|]. vm_compute. auto.
    + eexists. split; [vm_compute; reflexivity|]. split; [reflexivity|].
      intros (r & Hr & He). vm_compute in Hr. injection Hr as <-.
      vm_compute in He. discriminate.
Qed.

(** *** Items that are all floats, items that are all ints *)

Lemma importe_item_float it c p :
  item_es it (JFloat c) (JFloat p) -> importe_item it = Ok (PyFloat (fmul c p)).
Proof. intros [Hc Hp]. unfold importe_item. by rewrite Hc, Hp. Qed.

Lemma importe_item_int it c p :
  item_es it (JInt c) (JInt p) -> importe_item it = Ok (PyInt (c * p)).
Proof. intros [Hc Hp]. unfold importe_item. by rewrite Hc, Hp. Qed.

Lemma py_sum_from_float its g :
  items_float its ->
  exists h, py_sum_from importe_item (PyFloat g) its = Ok (PyFloat h).
Proof.
  intros Hits. revert g. induction Hits as [|it its (c & p & Hit) _ IH]; intros g.
  - by exists g.
  - cbn [py_sum_from]. rewrite (importe_item_float _ _ _ Hit). apply IH.
Qed.

(** Floats multiply and add without raising, whatever their sign. *)
Lemma py_sum_float its :
  items_float its -> its <> [] ->
  exists h, py_sum importe_item its = Ok (PyFloat h).
Proof.
  intros Hits Hne. destruct Hits as [|it its (c & p & Hit) Hits]; [done|].
  unfold py_sum. cbn [py_sum_from]. rewrite (importe_item_float _ _ _ Hit).
  cbn [mbind res_bind py_add]. rewrite float_of_int_0.
  by apply py_sum_from_float.
Qed.

Lemma py_sum_from_int its cps acc :
  items_int its cps ->
  py_sum_from importe_item (PyInt acc) its =
    Ok (PyInt (fold_left (fun a cp => a + cp.1 * cp.2)%Z cps acc)).
Proof.
  intros Hits. revert acc. induction Hits as [|it cp its cps Hit _ IH]; intros acc.
  - done.
  - cbn [py_sum_from fold_left]. rewrite (importe_item_int _ _ _ Hit). apply IH.
Qed.

(** The branch of either series runs to the end on a float subtotal, and on
    an int subtotal that converts to a float. *)
Lemma calcular_totales_desde its tipo s :
  (tipo = "A" \/ tipo = "B")%string ->
  py_sum importe_item its = Ok s ->
  (exists f, s = PyFloat f) \/ (exists z f, s = PyInt z /\ float_of_int z = Ok f) ->
  exists tot, calcular_totales (JArr its) tipo = Ok tot.
Proof.
  intros Ht Hs Hconv.
  assert (exists t g, py_mul s importe_iva = Ok t /\ py_add s t = Ok (PyFloat g))
    as (t & g & Hmul & Hadd).
  { destruct Hconv as [[f ->]|(z & f & -> & Hf)]; [by eexists _, _|].
    exists (PyFloat (fmul f f_0_21)), (fadd f (fmul f f_0_21)).
    unfold importe_iva. cbn [py_mul py_add]. by rewrite Hf. }
  destruct Ht as [-> | ->].
  - eexists. by eapply calcular_totales_A_ok.
  - eexists. by eapply calcular_totales_B_ok.
Qed.

End TaxCalculator.

(** *** Decimal fields *)

Lemma length_zeros k : String.length (zeros k) = k.
Proof. induction k as [|k IH]; simpl; [done|by rewrite IH]. Qed.

Lemma string_app_nil (s : string) : ("" ++ s)%string = s.
Proof. reflexivity. Qed.

Lemma string_app_cons c (r s : string) :
  (String c r ++ s)%string = String c (r ++ s).
Proof. reflexivity. Qed.

Lemma length_string_app (s t : string) :
  String.length (s ++ t) = (String.length s + String.length t)%nat.
Proof.
  induction s as [|c s IH]; [done|].
  rewrite string_app_cons. simpl. by rewrite IH.
Qed.

Lemma zfill_length w s :
  String.length (zfill w s) = Nat.max w (String.length s).
Proof.
  unfold zfill. destruct (w <=? String.length s)%nat eqn:E.
  - apply Nat.leb_le in E. lia.
  - apply Nat.leb_gt in E. destruct s as [|c r]; [rewrite length_zeros; simpl; lia|].
    destruct (_ || _)%bool; simpl; rewrite length_string_app, length_zeros;
      simpl in *; lia.
Qed.

Lemma digitos_zeros k s :
  NilEmpty.uint_of_string (zeros k ++ s) =
    option_map (Nat.iter k Decimal.D0) (NilEmpty.uint_of_string s).
Proof.
  induction k as [|k IH]; cbn [zeros].
  - rewrite string_app_nil. by destruct (NilEmpty.uint_of_string s).
  - rewrite string_app_cons. cbn [NilEmpty.uint_of_string]. rewrite IH.
    by destruct (NilEmpty.uint_of_string s).
Qed.

Lemma of_uint_zeros k d : Z.of_uint (Nat.iter k Decimal.D0 d) = Z.of_uint d.
Proof. induction k as [|k IH]; [done|]. simpl. exact IH. Qed.

(** The decimal string of a non-negative int starts with a digit, and
    padding it only adds zeros in front. *)
Lemma zfill_nonneg w n :
  0 <= n ->
  exists k d, zfill w (py_str_Z n) = (zeros k ++ NilEmpty.string_of_uint d)%string /\
              Z.of_uint d = n.
Proof.
  intros Hn. unfold py_str_Z.
  assert (Hd : exists d, d <> Decimal.Nil /\ Z.to_int n = Decimal.Pos d /\ Z.of_uint d = n).
  { destruct n as [|p|p]; [by exists (Decimal.D0 Decimal.Nil)| |lia].
    exists (Pos.to_uint p). split; [apply DecimalPos.Unsigned.to_uint_nonnil|].
    split; [done|]. unfold Z.of_uint. by rewrite DecimalPos.Unsigned.of_to. }
  destruct Hd as (d & Hnil & -> & Hval). cbn [NilZero.string_of_int].
  assert (Hs : NilZero.string_of_uint d = NilEmpty.string_of_uint d)
    by by destruct d.
  rewrite Hs. unfold zfill.
  destruct (w <=? _)%nat; [by exists 0%nat, d|].
  exists (w - String.length (NilEmpty.string_of_uint d))%nat, d.
  split; [|done]. by destruct d.
Qed.

Lemma valor_digitos_zfill w n :
  0 <= n -> valor_digitos (zfill w (py_str_Z n)) = Some n.
Proof.
  intros Hn. destruct (zfill_nonneg w n Hn) as (k & d & -> & Hd).
  unfold valor_digitos. rewrite digitos_zeros, NilEmpty.usu. simpl.
  by rewrite of_uint_zeros, Hd.
Qed.

Lemma texto_a_instante_a_texto d :
  texto_a_instante (instante_a_texto d) = Some d.
Proof.
  unfold texto_a_instante, instante_a_texto, py_str_Z.
  rewrite NilZero.isi.
  - simpl. by rewrite DecimalZ.of_to.
  - destruct d; [done| |done]. simpl. intros [= H].
    by apply DecimalPos.Unsigned.to_uint_nonnil in H.
  - destruct d; [done|done|]. simpl. intros [= H].
    by apply DecimalPos.Unsigned.to_uint_nonnil in H.
Qed.

Section HandlerFacts.
Context (isoformat : Z -> string) (fromisoformat : string -> option Z).

Lemma tipo_valido_Some v t :
  tipo_valido v = Some t -> v = JStr t /\ (t = "A" \/ t = "B")%string.
Proof.
  destruct v; simpl; try discriminate.
  destruct (String.eqb s "A") eqn:HA; simpl.
  - intros [= <-]. apply String.eqb_eq in HA. auto.
  - destruct (String.eqb s "B") eqn:HB; [|discriminate].
    intros [= <-]. apply String.eqb_eq in HB. auto.
Qed.

(** What one POST does to the store. *)
Lemma crear_factura_inv p st r st' :
  crear_factura isoformat p st = (r, st') ->
  (st' = st /\ forall f, r <> Resp201 f) \/
  (exists kv tipo n pv tot f,
      cuerpo p = JObj kv /\
      tipo_valido (default JNull (lookup_key "tipo" kv)) = Some tipo /\
      en_puntos_venta (default JNull (lookup_key "puntoVenta" kv)) = true /\
      sin_items (default JNull (lookup_key "items" kv)) = Ok false /\
      contadores st !! tipo = Some n /\
      py_str (default JNull (lookup_key "puntoVenta" kv)) = Some pv /\
      calcular_totales (default JNull (lookup_key "items" kv)) tipo = Ok tot /\
      r = Resp201 f /\
      st' = mkState (facturas st ++ [f]) (<[tipo := n + 1]> (contadores st)) /\
      f = Factura.mk (Z.of_nat (length (facturas st)) + 1) tipo
            (zfill 5 pv ++ "-" ++ zfill 8 (py_str_Z n))
            (default JNull (lookup_key "puntoVenta" kv))
            (generar_cae (sorteo p))
            (isoformat (ahora p)) (isoformat (ahora p + diez_dias))
            (default JNull (lookup_key "cliente" kv))
            (default JNull (lookup_key "items" kv))
            (Totales.subtotal tot) (Totales.iva tot) (Totales.total tot)
            "Autorizada").
Proof.
  unfold crear_factura, crear_factura_try.
  destruct (cuerpo p) as [ | | | | | |kv] eqn:Hc;
    try (unfold mbind, M_bind, lift, py_get; intros [= <- <-]; left; split; [done|intros ? [=]]).
  unfold mbind, M_bind, lift, mret, M_ret, get_state, put_state, py_get.
  destruct (tipo_valido _) as [tipo|] eqn:Ht; cbv beta iota;
    [|intros [= <- <-]; left; split; [done|intros ? [=]]].
  destruct (en_puntos_venta _) eqn:Hpv; cbn [negb]; cbv beta iota;
    [|intros [= <- <-]; left; split; [done|intros ? [=]]].
  destruct (sin_items _) as [[|]|e] eqn:Hv; cbv beta iota;
    try (intros [= <- <-]; left; split; [done|intros ? [=]]).
  destruct (calcular_totales _ _) as [tot|e] eqn:Hcalc; cbv beta iota;
    [|intros [= <- <-]; left; split; [done|intros ? [=]]].
  unfold generar_numero_factura.
  destruct (contadores st !! tipo) as [n|] eqn:Hn; cbv beta iota;
    [|intros [= <- <-]; left; split; [done|intros ? [=]]].
  destruct (py_str_registered _ Hpv) as [pv Hs]. rewrite Hs.
  cbn. intros [= <- <-]. right. eexists kv, tipo, n, pv, tot, _.
  repeat split; done.
Qed.

Lemma crear_factura_rechaza p st kv msg :
  cuerpo p = JObj kv ->
  match tipo_valido (default JNull (lookup_key "tipo" kv)) with
  | None => msg = "Tipo de factura inválido. Debe ser A o B"%string
  | Some _ =>
      if en_puntos_venta (default JNull (lookup_key "puntoVenta" kv))
      then sin_items (default JNull (lookup_key "items" kv)) = Ok true /\
           msg = "Debe incluir al menos un item"%string
      else msg = "Punto de venta inválido"%string
  end ->
  crear_factura isoformat p st = (Resp400 msg, st).
Proof.
  intros Hc. unfold crear_factura, crear_factura_try. rewrite Hc.
  unfold mbind, M_bind, lift, mret, M_ret, get_state, put_state, py_get.
  destruct (tipo_valido _) as [tipo|]; cbv beta iota; [|by intros ->].
  destruct (en_puntos_venta _); cbn [negb]; cbv beta iota; [|by intros ->].
  by intros [-> ->].
Qed.

Lemma tipo_valido_None v :
  v <> JStr "A" -> v <> JStr "B" -> tipo_valido v = None.
Proof.
  intros HA HB. destruct v; try done. simpl.
  destruct (String.eqb s "A") eqn:EA; [apply String.eqb_eq in EA; by subst|].
  destruct (String.eqb s "B") eqn:EB; [apply String.eqb_eq in EB; by subst|].
  done.
Qed.

Lemma tipo_valido_AB v :
  v = JStr "A" \/ v = JStr "B" -> exists t, tipo_valido v = Some t.
Proof. intros [-> | ->]; simpl; eauto. Qed.

Lemma en_puntos_venta_false v :
  (forall k, In k puntos_venta -> eq_int v k = false) ->
  en_puntos_venta v = false.
Proof.
  intros H. unfold en_puntos_venta.
  destruct (existsb _ _) eqn:E; [|done].
  apply existsb_exists in E as (k & Hk & Hek). rewrite (H k Hk) in Hek. done.
Qed.

Lemma en_puntos_venta_true v :
  (exists k, In k puntos_venta /\ eq_int v k = true) ->
  en_puntos_venta v = true.
Proof. intros H. unfold en_puntos_venta. by apply existsb_exists. Qed.

(** C4: a request whose body is a JSON object is checked for its type,
    then its point of sale, then its items, and the first check that fails
    gives the 400 response: a type other than the strings A and B gives
    the invalid-type message; otherwise a point of sale equal to none of
    1..5 gives the invalid-point-of-sale message; otherwise items that are
    missing or an empty list give the at-least-one-item message. The store
    is untouched in all three. *)
Theorem validation_order p st kv :
  cuerpo p = JObj kv ->
  let tipo := default JNull (lookup_key "tipo" kv) in
  let punto_venta := default JNull (lookup_key "puntoVenta" kv) in
  let items := default JNull (lookup_key "items" kv) in
  (tipo <> JStr "A" -> tipo <> JStr "B" ->
   crear_factura isoformat p st =
     (Resp400 "Tipo de factura inválido. Debe ser A o B", st)) /\
  (tipo = JStr "A" \/ tipo = JStr "B" ->
   (forall k, In k puntos_venta -> eq_int punto_venta k = false) ->
   crear_factura isoformat p st = (Resp400 "Punto de venta inválido", st)) /\
  (tipo = JStr "A" \/ tipo = JStr "B" ->
   (exists k, In k puntos_venta /\ eq_int punto_venta k = true) ->
   items = JNull \/ items = JArr [] ->
   crear_factura isoformat p st =
     (Resp400 "Debe incluir al menos un item", st)).
Proof.
  intros Hc tipo pv items. repeat split.
  - intros HA HB. apply (crear_factura_rechaza _ _ kv); [done|].
    fold tipo. by rewrite tipo_valido_None.
  - intros Ht Hpv. apply (crear_factura_rechaza _ _ kv); [done|].
    fold tipo pv. destruct (tipo_valido_AB _ Ht) as [t ->].
    by rewrite en_puntos_venta_false.
  - intros Ht Hpv Hit. apply (crear_factura_rechaza _ _ kv); [done|].
    fold tipo pv items. destruct (tipo_valido_AB _ Ht) as [t ->].
    rewrite en_puntos_venta_true by done.
    by destruct Hit as [-> | ->].
Qed.


(** *** Runs of requests *)

Lemma creadas_cons_201 f rs : creadas (Resp201 f :: rs) = f :: creadas rs.
Proof. reflexivity. Qed.

Lemma creadas_cons_otro r rs :
  (forall f, r <> Resp201 f) -> creadas (r :: rs) = creadas rs.
Proof. intros H. destruct r; try reflexivity. by destruct (H factura). Qed.

Lemma atender_cons p ps st :
  atender isoformat (p :: ps) st =
    ((crear_factura isoformat p st).1
       :: (atender isoformat ps (crear_factura isoformat p st).2).1,
     (atender isoformat ps (crear_factura isoformat p st).2).2).
Proof.
  cbn [atender]. destruct (crear_factura isoformat p st) as [r st1].
  cbn [fst snd]. by destruct (atender isoformat ps st1) as [rs st2].
Qed.

(** The ledger after a run is the ledger before it followed by the
    invoices the run created. *)
Lemma atender_facturas ps st :
  facturas (atender isoformat ps st).2 =
    facturas st ++ creadas (atender isoformat ps st).1.
Proof.
  revert st. induction ps as [|p ps IH]; intros st.
  - simpl. by rewrite app_nil_r.
  - rewrite atender_cons. cbn [fst snd].
    destruct (crear_factura isoformat p st) as [r st1] eqn:Hp. cbn [fst snd].
    rewrite IH.
    apply crear_factura_inv in Hp as [[-> Hr]|Hp].
    + by rewrite creadas_cons_otro.
    + destruct Hp as (kv & tipo & n & pv & tot & f & _ & _ & _ & _ & _ & _ & _ & -> & -> & _).
      rewrite creadas_cons_201. cbn [facturas]. by rewrite <- app_assoc.
Qed.

Lemma ids_desde ps st :
  ids_creados (atender isoformat ps st).1 =
    map (fun i => Z.of_nat (length (facturas st)) + Z.of_nat i)
        (seq 1 (length (ids_creados (atender isoformat ps st).1))).
Proof.
  revert st. induction ps as [|p ps IH]; intros st; [done|].
  rewrite atender_cons. cbn [fst snd].
  destruct (crear_factura isoformat p st) as [r st1] eqn:Hp. cbn [fst snd].
  apply crear_factura_inv in Hp as [[-> Hr]|Hp].
  - unfold ids_creados. rewrite creadas_cons_otro by done. apply IH.
  - destruct Hp as (kv & tipo & n & pv & tot & f & _ & _ & _ & _ & _ & _ & _ & -> & -> & Hf).
    assert (Hid : Factura.id f = Z.of_nat (length (facturas st)) + 1) by by rewrite Hf.
    clear Hf. unfold ids_creados in *. rewrite creadas_cons_201.
    cbn [map length seq]. rewrite Hid. f_equal.
    rewrite IH at 1. cbn [facturas]. rewrite length_app. cbn [length].
    rewrite <- (seq_shift _ 1), map_map. apply List.map_ext. intros i. lia.
Qed.

(** C6: the ids of the successful creations of a run, in order, are the
    integers that follow the invoice count the run starts from, each one
    more than the one before; from the empty ledger they are 1, 2, 3, ...
    so no id is given twice. *)
Theorem ids_consecutivos :
  (forall ps st,
      let ids := ids_creados (atender isoformat ps st).1 in
      ids = map (fun i => Z.of_nat (length (facturas st)) + Z.of_nat i)
                (seq 1 (length ids))) /\
  (forall ps,
      let ids := ids_creados (atender isoformat ps init_state).1 in
      ids = map Z.of_nat (seq 1 (length ids)) /\ NoDup ids).
Proof.
  split; [intros ps st; apply ids_desde|].
  intros ps ids.
  assert (H : ids = map Z.of_nat (seq 1 (length ids))).
  { subst ids. rewrite ids_desde at 1. by apply List.map_ext. }
  split; [done|]. rewrite H. apply NoDup_fmap_2; [apply Nat2Z.inj'|].
  apply NoDup_ListNoDup, List.seq_NoDup.
Qed.

(** *** The number generator *)

Lemma generar_numero_factura_ok tipo pv st n s :
  contadores st !! tipo = Some n ->
  py_str pv = Some s ->
  generar_numero_factura tipo pv st =
    (Ok (zfill 5 s ++ "-" ++ zfill 8 (py_str_Z n))%string,
     mkState (facturas st) (<[tipo := n + 1]> (contadores st))).
Proof. intros Hn Hs. unfold generar_numero_factura. by rewrite Hn, Hs. Qed.

(** One POST leaves every counter where it was or one further. *)
Lemma crear_factura_contadores p st r st' k n :
  crear_factura isoformat p st = (r, st') ->
  contadores st !! k = Some n ->
  exists n', contadores st' !! k = Some n' /\ n <= n' <= n + 1.
Proof.
  intros H Hk. apply crear_factura_inv in H as [[-> _]|H].
  - exists n. split; [done|lia].
  - destruct H as (kv & tipo & m & pv & tot & f & _ & _ & _ & _ & Hm & _ & _ & _ & -> & _).
    cbn [contadores]. destruct (decide (k = tipo)) as [->|Hne].
    + rewrite lookup_insert_eq. exists (m + 1). split; [done|].
      rewrite Hm in Hk. injection Hk as ->. lia.
    + rewrite lookup_insert_ne by done. exists n. split; [done|lia].
Qed.

Lemma atender_contadores ps st k n :
  contadores st !! k = Some n ->
  exists n', contadores (atender isoformat ps st).2 !! k = Some n' /\ n <= n'.
Proof.
  revert st n. induction ps as [|p ps IH]; intros st n Hk.
  - exists n. split; [done|lia].
  - rewrite atender_cons. cbn [snd].
    destruct (crear_factura isoformat p st) as [r st1] eqn:Hp. cbn [snd].
    destruct (crear_factura_contadores _ _ _ _ _ _ Hp Hk) as (n1 & Hk1 & Hle).
    destruct (IH _ _ Hk1) as (n2 & Hk2 & Hle2).
    exists n2. split; [done|lia].
Qed.

(** What holds of every invoice a POST creates holds of every invoice a
    run creates. *)
Lemma creadas_Forall (P : Factura.t -> Prop) :
  (forall p st f st', crear_factura isoformat p st = (Resp201 f, st') -> P f) ->
  forall ps st, Forall P (creadas (atender isoformat ps st).1).
Proof.
  intros HP ps. induction ps as [|p ps IH]; intros st; [by constructor|].
  rewrite atender_cons. cbn [fst].
  destruct (crear_factura isoformat p st) as [r st1] eqn:Hp. cbn [fst snd].
  destruct r as [f|msg|e]; cbn [creadas flat_map app]; [|apply IH..].
  constructor; [by eapply HP|apply IH].
Qed.

Lemma atender_init_facturas ps :
  facturas (atender isoformat ps init_state).2 =
    creadas (atender isoformat ps init_state).1.
Proof. by rewrite atender_facturas. Qed.

Lemma crear_factura_fechas p st f st' :
  crear_factura isoformat p st = (Resp201 f, st') ->
  exists emision,
    Factura.fechaEmision f = isoformat emision /\
    Factura.fechaVencimientoCAE f = isoformat (emision + diez_dias).
Proof.
  intros H. apply crear_factura_inv in H as [[_ H]|H]; [by destruct (H f)|].
  destruct H as (kv & tipo & n & pv & tot & f' & _ & _ & _ & _ & _ & _ & _ & [= <-] & _ & ->).
  by exists (ahora p).
Qed.

Lemma crear_factura_tipo_total p st f st' :
  crear_factura isoformat p st = (Resp201 f, st') ->
  (Factura.tipo f = "A" \/ Factura.tipo f = "B")%string /\
  exists tot,
    calcular_totales (Factura.items f) (Factura.tipo f) = Ok tot /\
    Factura.subtotal f = Totales.subtotal tot /\
    Factura.iva f = Totales.iva tot /\
    Factura.total f = Totales.total tot.
Proof.
  intros H. apply crear_factura_inv in H as [[_ H]|H]; [by destruct (H f)|].
  destruct H as (kv & tipo & n & pv & tot & f' & _ & Ht & _ & _ & _ & _ & Hc & [= <-] & _ & ->).
  apply tipo_valido_Some in Ht as [_ Ht]. split; [done|]. by exists tot.
Qed.

(** *** Verifying an authorization code *)

Lemma find_ninguna cae (l : list Factura.t) :
  (forall f, In f l -> Factura.cae f <> cae) ->
  find (fun f => String.eqb (Factura.cae f) cae) l = None.
Proof.
  induction l as [|g l IH]; intros H; [done|]. simpl.
  destruct (String.eqb_spec (Factura.cae g) cae) as [E|_].
  - destruct (H g); [by left|done].
  - apply IH. intros f Hf. apply H. by right.
Qed.

Lemma find_primera cae (l1 l2 : list Factura.t) f :
  Factura.cae f = cae ->
  (forall g, In g l1 -> Factura.cae g <> cae) ->
  find (fun f => String.eqb (Factura.cae f) cae) (l1 ++ f :: l2) = Some f.
Proof.
  intros Hf. induction l1 as [|g l1 IH]; intros H; simpl.
  - by rewrite Hf, String.eqb_refl.
  - destruct (String.eqb_spec (Factura.cae g) cae) as [E|_].
    + destruct (H g); [by left|done].
    + apply IH. intros h Hh. apply H. by right.
Qed.

Lemma verificar_cae_encontrada ahora cae st f vencimiento :
  find (fun f => String.eqb (Factura.cae f) cae) (facturas st) = Some f ->
  fromisoformat (Factura.fechaVencimientoCAE f) = Some vencimiento ->
  verificar_cae fromisoformat ahora cae st =
    Ok (Verificacion.mk (negb (ahora >? vencimiento)) (Some f)
          (if ahora >? vencimiento then "CAE vencido" else "CAE válido")).
Proof. intros Hf Hd. unfold verificar_cae. by rewrite Hf, Hd. Qed.

(** *** A request that passes the three checks *)

Lemma sin_items_lista its : its <> [] -> sin_items (JArr its) = Ok false.
Proof. by destruct its. Qed.

Lemma crear_factura_ok p st kv tipo n tot :
  cuerpo p = JObj kv ->
  tipo_valido (default JNull (lookup_key "tipo" kv)) = Some tipo ->
  en_puntos_venta (default JNull (lookup_key "puntoVenta" kv)) = true ->
  sin_items (default JNull (lookup_key "items" kv)) = Ok false ->
  calcular_totales (default JNull (lookup_key "items" kv)) tipo = Ok tot ->
  contadores st !! tipo = Some n ->
  exists f st',
    crear_factura isoformat p st = (Resp201 f, st') /\
    Factura.subtotal f = Totales.subtotal tot /\
    Factura.iva f = Totales.iva tot /\
    Factura.total f = Totales.total tot.
Proof.
  intros Hc Ht Hpv Hv Hcalc Hn. unfold crear_factura, crear_factura_try.
  rewrite Hc. unfold mbind, M_bind, lift, mret, M_ret, get_state, put_state, py_get.
  rewrite Ht, Hpv. cbn [negb]. cbv beta iota. rewrite Hv, Hcalc.
  unfold generar_numero_factura. rewrite Hn.
  destruct (py_str_registered _ Hpv) as [pv ->]. by eexists _, _.
Qed.

(** Every store a run of requests reaches has a counter for each series. *)
Lemma atender_contador ps tipo :
  (tipo = "A" \/ tipo = "B")%string ->
  exists n, contadores (atender isoformat ps init_state).2 !! tipo = Some n.
Proof.
  intros Ht.
  destruct (atender_contadores ps init_state tipo 1) as (n & Hn & _);
    [by destruct Ht as [-> | ->]|by exists n].
Qed.

(** *** The statistics *)

Lemma length_filter_tipo (l : list Factura.t) :
  Forall (fun f => Factura.tipo f = "A" \/ Factura.tipo f = "B")%string l ->
  length l =
    (length (filter (fun f => Factura.tipo f = "A"%string) l) +
     length (filter (fun f => Factura.tipo f = "B"%string) l))%nat.
Proof.
  induction 1 as [|f l Hf _ IH]; [done|].
  rewrite !filter_cons. destruct Hf as [Hf|Hf]; rewrite Hf.
  - rewrite decide_True by done. rewrite decide_False by done.
    cbn [length]. lia.
  - rewrite decide_False by done. rewrite decide_True by done.
    cbn [length]. lia.
Qed.

(** C7: the sequence counter is kept per series and shared by all points
    of sale. With counter [n] for the series, the number generator returns
    the point of sale padded with zeros to five characters, a dash and [n]
    padded with zeros to eight digits (a field that reads back as [n]), and
    moves that series to [n + 1], leaving every other series alone. So two
    successive creations of one series carry the sequence numbers [n] and
    [n + 1] whatever their points of sale. Both counters start at 1 and no
    run of requests lowers one. *)
Theorem contador_por_serie :
  (forall tipo pv st n s,
      contadores st !! tipo = Some n ->
      py_str pv = Some s ->
      generar_numero_factura tipo pv st =
        (Ok (zfill 5 s ++ "-" ++ zfill 8 (py_str_Z n))%string,
         mkState (facturas st) (<[tipo := n + 1]> (contadores st))) /\
      String.length (zfill 5 s) = Nat.max 5 (String.length s) /\
      String.length (zfill 8 (py_str_Z n)) =
        Nat.max 8 (String.length (py_str_Z n)) /\
      (0 <= n -> valor_digitos (zfill 8 (py_str_Z n)) = Some n) /\
      (<[tipo := n + 1]> (contadores st)) !! tipo = Some (n + 1) /\
      forall otra, otra <> tipo ->
        (<[tipo := n + 1]> (contadores st)) !! otra = contadores st !! otra) /\
  (forall p1 p2 st f1 st1 f2 st2,
      crear_factura isoformat p1 st = (Resp201 f1, st1) ->
      crear_factura isoformat p2 st1 = (Resp201 f2, st2) ->
      Factura.tipo f1 = Factura.tipo f2 ->
      exists n s1 s2,
        contadores st !! Factura.tipo f1 = Some n /\
        py_str (Factura.puntoVenta f1) = Some s1 /\
        py_str (Factura.puntoVenta f2) = Some s2 /\
        Factura.numero f1 = (zfill 5 s1 ++ "-" ++ zfill 8 (py_str_Z n))%string /\
        Factura.numero f2 =
          (zfill 5 s2 ++ "-" ++ zfill 8 (py_str_Z (n + 1)))%string /\
        (0 <= n ->
         valor_digitos (zfill 8 (py_str_Z n)) = Some n /\
         valor_digitos (zfill 8 (py_str_Z (n + 1))) = Some (n + 1))) /\
  (contadores init_state !! "A"%string = Some 1 /\
   contadores init_state !! "B"%string = Some 1) /\
  (forall ps st serie n,
      contadores st !! serie = Some n ->
      exists n',
        contadores (atender isoformat ps st).2 !! serie = Some n' /\ n <= n').
Proof.
  split; [|split; [|split]].
  - intros tipo pv st n s Hn Hs.
    split; [by apply generar_numero_factura_ok|].
    split; [apply zfill_length|]. split; [apply zfill_length|].
    split; [apply valor_digitos_zfill|].
    split; [apply lookup_insert_eq|].
    intros otra Ho. by apply lookup_insert_ne.
  - intros p1 p2 st f1 st1 f2 st2 H1 H2 Ht.
    apply crear_factura_inv in H1 as [[_ H1]|H1]; [by destruct (H1 f1)|].
    apply crear_factura_inv in H2 as [[_ H2]|H2]; [by destruct (H2 f2)|].
    destruct H1 as (kv1 & t1 & n1 & s1 & tot1 & g1 & _ & _ & _ & _ & Hn1 & Hs1 & _ & [= <-] & -> & ->).
    destruct H2 as (kv2 & t2 & n2 & s2 & tot2 & g2 & _ & _ & _ & _ & Hn2 & Hs2 & _ & [= <-] & _ & ->).
    cbn [Factura.tipo Factura.puntoVenta Factura.numero contadores] in *.
    subst t2. rewrite lookup_insert_eq in Hn2. injection Hn2 as <-.
    exists n1, s1, s2. repeat (split; [done|]).
    intros Hn. split; apply valor_digitos_zfill; lia.
  - split; reflexivity.
  - intros ps st serie n. apply atender_contadores.
Qed.

Hypothesis fromisoformat_isoformat :
  forall d, fromisoformat (isoformat d) = Some d.

(** C8: on the ledger any run of requests leaves, verifying a code never
    raises. If no stored invoice has the code the answer is not valid,
    with the not-found message; otherwise the first invoice with the code,
    in insertion order, is echoed, valid exactly when the current time is
    not past its expiry (ten days after its issue), with the message for
    valid or expired. *)
Theorem verificar_cae_siempre_responde ps ahora cae :
  let st := (atender isoformat ps init_state).2 in
  (exists v, verificar_cae fromisoformat ahora cae st = Ok v) /\
  ((forall f, In f (facturas st) -> Factura.cae f <> cae) ->
   verificar_cae fromisoformat ahora cae st =
     Ok (Verificacion.mk false None "CAE no encontrado")) /\
  (forall l1 f l2,
      facturas st = l1 ++ f :: l2 ->
      Factura.cae f = cae ->
      (forall g, In g l1 -> Factura.cae g <> cae) ->
      exists emision v,
        Factura.fechaEmision f = isoformat emision /\
        Factura.fechaVencimientoCAE f = isoformat (emision + diez_dias) /\
        verificar_cae fromisoformat ahora cae st = Ok v /\
        Verificacion.factura v = Some f /\
        (Verificacion.valido v = true <-> ahora <= emision + diez_dias) /\
        Verificacion.mensaje v =
          (if Verificacion.valido v then "CAE válido" else "CAE vencido")%string).
Proof using fromisoformat_isoformat.
  intros st.
  assert (Hinv : Forall (fun f => exists emision,
              Factura.fechaEmision f = isoformat emision /\
              Factura.fechaVencimientoCAE f = isoformat (emision + diez_dias))
            (facturas st)).
  { subst st. rewrite atender_init_facturas.
    apply creadas_Forall. apply crear_factura_fechas. }
  rewrite Forall_forall in Hinv.
  assert (Hfound : forall f,
    find (fun f => String.eqb (Factura.cae f) cae) (facturas st) = Some f ->
    exists emision v,
        Factura.fechaEmision f = isoformat emision /\
        Factura.fechaVencimientoCAE f = isoformat (emision + diez_dias) /\
        verificar_cae fromisoformat ahora cae st = Ok v /\
        Verificacion.factura v = Some f /\
        (Verificacion.valido v = true <-> ahora <= emision + diez_dias) /\
        Verificacion.mensaje v =
          (if Verificacion.valido v then "CAE válido" else "CAE vencido")%string).
  { intros f Hf. destruct (Hinv f) as (emision & He & Hv).
    { apply find_some in Hf as [Hf _]. by apply list_elem_of_In. }
    eexists emision, _. split; [done|]. split; [done|].
    split; [apply verificar_cae_encontrada; [done|]|].
    { by rewrite Hv, fromisoformat_isoformat. }
    cbn. split; [done|]. split; [|by destruct (_ >? _)].
    rewrite negb_true_iff. rewrite Z.gtb_ltb, Z.ltb_ge. done. }
  split; [|split].
  - destruct (find (fun f => String.eqb (Factura.cae f) cae) (facturas st))
      as [f|] eqn:Hf.
    + destruct (Hfound f eq_refl) as (e & v & _ & _ & Hv & _). by exists v.
    + unfold verificar_cae. rewrite Hf. by eexists.
  - intros Hno. unfold verificar_cae. by rewrite find_ninguna.
  - intros l1 f l2 Hl Hf Hl1. apply Hfound. rewrite Hl. by apply find_primera.
Qed.

(** C9: after a run of requests from the empty ledger in which [N]
    creations of series A and [M] of series B succeeded, the statistics
    are computed without error and report [N + M] invoices, [N] of series
    A, [M] of series B, and as amount the sum of the stored totals rounded
    by [round(., 2)]. *)
Theorem estadisticas_tras_creaciones ps :
  let rs := (atender isoformat ps init_state).1 in
  let st := (atender isoformat ps init_state).2 in
  let N := creadas_de "A" rs in
  let M := creadas_de "B" rs in
  exists suma,
    py_sum (fun f => Ok (Factura.total f)) (facturas st) = Ok suma /\
    obtener_estadisticas st = Ok (Estadisticas.mk (N + M) N M (py_round2 suma)).
Proof.
  intros rs st N M.
  assert (Hl : facturas st = creadas rs) by apply atender_init_facturas.
  assert (Hinv : Forall (fun f =>
              (Factura.tipo f = "A" \/ Factura.tipo f = "B")%string /\
              exists g, Factura.total f = PyFloat g) (creadas rs)).
  { apply creadas_Forall. intros p st0 f st0' H.
    apply crear_factura_tipo_total in H as (Ht & tot & Hc & _ & _ & Htot).
    split; [done|]. rewrite Htot. by eapply calcular_totales_total_float. }
  apply Forall_and in Hinv as [Htipo Htot].
  destruct (py_sum_from_floats Factura.total (creadas rs) (PyInt 0)) as [suma Hs];
    [by left|done|].
  exists suma. unfold obtener_estadisticas, py_sum. rewrite Hl, Hs.
  split; [done|]. cbn. subst N M. unfold creadas_de.
  rewrite (length_filter_tipo _ Htipo) at 1. by rewrite Nat2Z.inj_add.
Qed.

(** *** Items that are numbers *)

Lemma float_of_int_o_desborde z :
  (exists f, float_of_int z = Ok f) \/ float_of_int z = Raise OverflowError.
Proof. unfold float_of_int. destruct (Q2F (inject_Z z)); eauto. Qed.

Lemma py_mul_o_desborde a b :
  (exists r, py_mul a b = Ok r) \/ py_mul a b = Raise OverflowError.
Proof.
  destruct a as [x|f], b as [y|g]; cbn [py_mul]; eauto.
  - destruct (float_of_int_o_desborde x) as [[h ->]| ->]; eauto.
  - destruct (float_of_int_o_desborde y) as [[h ->]| ->]; eauto.
Qed.

Lemma py_add_o_desborde a b :
  (exists r, py_add a b = Ok r) \/ py_add a b = Raise OverflowError.
Proof.
  destruct a as [x|f], b as [y|g]; cbn [py_add]; eauto.
  - destruct (float_of_int_o_desborde x) as [[h ->]| ->]; eauto.
  - destruct (float_of_int_o_desborde y) as [[h ->]| ->]; eauto.
Qed.

Lemma as_num_numero v : es_numero v -> exists a, as_num v = Ok a.
Proof. destruct v; try done; eauto. Qed.

Lemma importe_item_numerico it c p a b :
  item_es it c p -> as_num c = Ok a -> as_num p = Ok b ->
  importe_item it = py_mul a b.
Proof.
  intros [Hc Hp] Ha Hb. unfold importe_item.
  rewrite Hc. cbn [mbind res_bind]. rewrite Hp. cbn [mbind res_bind].
  rewrite Ha. cbn [mbind res_bind]. by rewrite Hb.
Qed.

Lemma importe_item_o_desborde it :
  item_numerico it ->
  (exists v, importe_item it = Ok v) \/ importe_item it = Raise OverflowError.
Proof.
  intros (c & p & Hit & Hc & Hp).
  destruct (as_num_numero c Hc) as [a Ha]. destruct (as_num_numero p Hp) as [b Hb].
  rewrite (importe_item_numerico _ _ _ _ _ Hit Ha Hb). apply py_mul_o_desborde.
Qed.

Lemma py_sum_from_o_desborde its acc :
  Forall item_numerico its ->
  (exists s, py_sum_from importe_item acc its = Ok s) \/
  py_sum_from importe_item acc its = Raise OverflowError.
Proof.
  intros H. revert acc. induction H as [|it its Hit _ IH]; intros acc; [by eauto|].
  cbn [py_sum_from].
  destruct (importe_item_o_desborde it Hit) as [[v ->]| ->]; [|by right].
  cbn [mbind res_bind].
  destruct (py_add_o_desborde acc v) as [[acc' ->]| ->]; [|by right].
  cbn [mbind res_bind]. apply IH.
Qed.

(** With numbers for every quantity and price the calculator returns, or
    raises OverflowError; nothing else can stop it. *)
Lemma calcular_totales_o_desborde its tipo :
  Forall item_numerico its ->
  (exists tot, calcular_totales (JArr its) tipo = Ok tot) \/
  calcular_totales (JArr its) tipo = Raise OverflowError.
Proof.
  intros H. unfold calcular_totales. cbn [py_iter mbind res_bind].
  destruct (py_sum_from_o_desborde its (PyInt 0) H) as [[s Hs]|Hs];
    unfold py_sum; rewrite Hs; [|by right]. cbn [mbind res_bind].
  destruct (py_mul_o_desborde s importe_iva) as [[iva Hiva]|Hiva];
    [|destruct (String.eqb tipo "A"); rewrite Hiva; by right].
  destruct (py_add_o_desborde s iva) as [[total Ht]|Ht];
    [|destruct (String.eqb tipo "A"); rewrite Hiva; cbn [mbind res_bind];
      rewrite Ht; by right].
  destruct (String.eqb tipo "A"); rewrite Hiva; cbn [mbind res_bind];
    rewrite Ht; cbn [mbind res_bind]; [by eauto|].
  apply py_mul_float_r in Hiva as [h ->]. apply py_add_float_r in Ht as [g ->].
  cbn [py_sub mbind res_bind]. by eauto.
Qed.

Lemma peso_de_nonneg cp : 0 <= peso_de cp.
Proof. unfold peso_de. destruct (entero_de cp.1), (entero_de cp.2); lia. Qed.

Lemma peso_total_nonneg cps : 0 <= peso_total cps.
Proof.
  induction cps as [|cp cps IH]; cbn [peso_total fold_right]; [lia|].
  fold (peso_total cps). pose proof (peso_de_nonneg cp). lia.
Qed.

(** The running total over numeric items whose ints stay in range: an int
    total stays in range, and every int that meets a float converts. *)
Lemma py_sum_from_numericos its cps acc :
  items_numericos its cps ->
  match acc with
  | PyInt a => Z.abs a + peso_total cps < 2 ^ 1023
  | PyFloat _ => peso_total cps < 2 ^ 1023
  end ->
  exists s, py_sum_from importe_item acc its = Ok s /\
    match s with PyInt z => Z.abs z < 2 ^ 1023 | PyFloat _ => True end.
Proof.
  intros H. revert acc.
  induction H as [|it [c p] its cps (Hit & Hc & Hp) _ IH]; intros acc Hacc.
  - cbn [peso_total fold_right] in Hacc. exists acc. split; [done|].
    destruct acc; [lia|done].
  - cbn [peso_total fold_right] in Hacc. fold (peso_total cps) in Hacc.
    pose proof (peso_total_nonneg cps) as HW.
    cbn [fst snd] in Hit, Hc, Hp. cbn [py_sum_from].
    destruct (as_num_numero c Hc) as [a Ha]. destruct (as_num_numero p Hp) as [b Hb].
    rewrite (importe_item_numerico _ _ _ _ _ Hit Ha Hb).
    assert (Hpeso : peso_de (c, p) =
              match a, b with
              | PyInt x, PyInt y => Z.abs (x * y)
              | PyInt x, PyFloat _ => Z.abs x
              | PyFloat _, PyInt y => Z.abs y
              | PyFloat _, PyFloat _ => 0
              end).
    { unfold peso_de. cbn [fst snd].
      destruct c; try done; destruct p; try done;
        cbn in Ha, Hb; injection Ha as <-; injection Hb as <-; reflexivity. }
    rewrite Hpeso in Hacc. clear Hpeso Ha Hb Hit Hc Hp.
    destruct a as [x|f], b as [y|g]; cbn [py_mul].
    + cbn [mbind res_bind]. destruct acc as [a|h]; cbn [py_add].
      * cbn [mbind res_bind]. apply IH. lia.
      * destruct (float_of_int_bound (x * y)) as [fy ->]; [lia|].
        cbn [mbind res_bind]. apply IH. lia.
    + destruct (float_of_int_bound x) as [fx ->]; [destruct acc; lia|].
      cbn [mbind res_bind]. destruct acc as [a|h]; cbn [py_add].
      * destruct (float_of_int_bound a) as [fa ->]; [lia|].
        cbn [mbind res_bind]. apply IH. lia.
      * cbn [mbind res_bind]. apply IH. lia.
    + destruct (float_of_int_bound y) as [fy ->]; [destruct acc; lia|].
      cbn [mbind res_bind]. destruct acc as [a|h]; cbn [py_add].
      * destruct (float_of_int_bound a) as [fa ->]; [lia|].
        cbn [mbind res_bind]. apply IH. lia.
      * cbn [mbind res_bind]. apply IH. lia.
    + cbn [mbind res_bind]. destruct acc as [a|h]; cbn [py_add].
      * destruct (float_of_int_bound a) as [fa ->]; [lia|].
        cbn [mbind res_bind]. apply IH. lia.
      * cbn [mbind res_bind]. apply IH. lia.
Qed.

Lemma calcular_totales_numericos its cps tipo :
  (tipo = "A" \/ tipo = "B")%string ->
  items_numericos its cps ->
  peso_total cps < 2 ^ 1023 ->
  exists tot, calcular_totales (JArr its) tipo = Ok tot.
Proof.
  intros Ht Hits Hb.
  destruct (py_sum_from_numericos its cps (PyInt 0) Hits) as (s & Hs & Hr);
    [simpl; lia|].
  apply (calcular_totales_desde its tipo s Ht Hs).
  destruct s as [z|f]; [right|left; by eexists].
  destruct (float_of_int_bound z Hr) as [f Hf]. by exists z, f.
Qed.

Lemma items_numericos_Forall its cps :
  items_numericos its cps -> Forall item_numerico its.
Proof.
  induction 1 as [|it [c p] its cps H _ IH]; constructor; [|done].
  by exists c, p.
Qed.

Lemma crear_factura_lanza p st kv tipo e :
  cuerpo p = JObj kv ->
  tipo_valido (default JNull (lookup_key "tipo" kv)) = Some tipo ->
  en_puntos_venta (default JNull (lookup_key "puntoVenta" kv)) = true ->
  sin_items (default JNull (lookup_key "items" kv)) = Ok false ->
  calcular_totales (default JNull (lookup_key "items" kv)) tipo = Raise e ->
  crear_factura isoformat p st = (Resp500 e, st).
Proof.
  intros Hc Ht Hpv Hv Hcalc. unfold crear_factura, crear_factura_try.
  rewrite Hc. unfold mbind, M_bind, lift, mret, M_ret, get_state, put_state, py_get.
  rewrite Ht, Hpv. cbn [negb]. cbv beta iota. by rewrite Hv, Hcalc.
Qed.

(** C10 (as amended): the contents of the items are never validated. On
    any store a run of requests reaches, a request whose type is A or B,
    whose point of sale is registered and whose items are a non-empty list
    of records with a quantity and a price that are numbers (ints, floats
    or booleans, in any mix and of any sign) is answered 201, with the
    calculator's amounts stored as they come, unless an int too large for
    a float has to be converted: then, and only then, it is answered 500
    with OverflowError and nothing is stored. It is answered 201 whenever
    the ints stay in range: when the ints that meet a float and the
    products of two ints add up to less than [2^1023] in magnitude, when
    every quantity and price is a float, or when every one is an int and
    the sum of the products is below [2^1023] in magnitude. Negative
    amounts flow into the stored subtotal, tax and total: one item of
    quantity -1 and price 100 is stored with total -121.0. *)
Theorem items_sin_validar :
  (forall ps p kv tipo its,
      let st := (atender isoformat ps init_state).2 in
      cuerpo p = JObj kv ->
      default JNull (lookup_key "tipo" kv) = JStr tipo ->
      (tipo = "A" \/ tipo = "B")%string ->
      en_puntos_venta (default JNull (lookup_key "puntoVenta" kv)) = true ->
      default JNull (lookup_key "items" kv) = JArr its ->
      its <> [] ->
      Forall item_numerico its ->
      (exists f st' tot,
          crear_factura isoformat p st = (Resp201 f, st') /\
          calcular_totales (JArr its) tipo = Ok tot /\
          Factura.subtotal f = Totales.subtotal tot /\
          Factura.iva f = Totales.iva tot /\
          Factura.total f = Totales.total tot) \/
      (calcular_totales (JArr its) tipo = Raise OverflowError /\
       crear_factura isoformat p st = (Resp500 OverflowError, st))) /\
  (forall ps p kv tipo its,
      let st := (atender isoformat ps init_state).2 in
      cuerpo p = JObj kv ->
      default JNull (lookup_key "tipo" kv) = JStr tipo ->
      (tipo = "A" \/ tipo = "B")%string ->
      en_puntos_venta (default JNull (lookup_key "puntoVenta" kv)) = true ->
      default JNull (lookup_key "items" kv) = JArr its ->
      its <> [] ->
      (exists cps, items_numericos its cps /\ peso_total cps < 2 ^ 1023) \/
        items_float its \/
        (exists cps, items_int its cps /\ Z.abs (suma_int cps) < 2 ^ 1023) ->
      exists f st' tot,
        crear_factura isoformat p st = (Resp201 f, st') /\
        calcular_totales (JArr its) tipo = Ok tot /\
        Factura.subtotal f = Totales.subtotal tot /\
        Factura.iva f = Totales.iva tot /\
        Factura.total f = Totales.total tot) /\
  (exists f st',
      crear_factura isoformat
        (peticion_de (JStr "A") (JInt 1) (JArr [item (JInt (-1)) (JInt 100)]))
        init_state = (Resp201 f, st') /\
      Factura.subtotal f = PyInt (-100) /\
      Factura.iva f = PyFloat (Q2F (-21)) /\
      Factura.total f = PyFloat (Q2F (-121)) /\
      facturas st' = [f]).
Proof.
  assert (Hcrea : forall ps p kv tipo its tot,
    cuerpo p = JObj kv ->
    default JNull (lookup_key "tipo" kv) = JStr tipo ->
    (tipo = "A" \/ tipo = "B")%string ->
    en_puntos_venta (default JNull (lookup_key "puntoVenta" kv)) = true ->
    default JNull (lookup_key "items" kv) = JArr its ->
    its <> [] ->
    calcular_totales (JArr its) tipo = Ok tot ->
    exists f st' tot,
      crear_factura isoformat p (atender isoformat ps init_state).2 = (Resp201 f, st') /\
      calcular_totales (JArr its) tipo = Ok tot /\
      Factura.subtotal f = Totales.subtotal tot /\
      Factura.iva f = Totales.iva tot /\
      Factura.total f = Totales.total tot).
  { intros ps p kv tipo its tot Hc Ht HAB Hpv Hits Hne Hcalc.
    destruct (atender_contador ps tipo HAB) as [n Hn].
    destruct (crear_factura_ok p (atender isoformat ps init_state).2 kv tipo n tot)
      as (f & st' & Hf & H1 & H2 & H3); try done.
    + rewrite Ht. by destruct HAB as [-> | ->].
    + rewrite Hits. by apply sin_items_lista.
    + by rewrite Hits.
    + by exists f, st', tot. }
  split; [|split].
  - intros ps p kv tipo its st Hc Ht HAB Hpv Hits Hne Hnum.
    destruct (calcular_totales_o_desborde its tipo Hnum) as [[tot Hcalc]|Hcalc].
    + left. by eapply Hcrea.
    + right. split; [done|].
      apply (crear_factura_lanza p st kv tipo); try done.
      * rewrite Ht. by destruct HAB as [-> | ->].
      * rewrite Hits. by apply sin_items_lista.
      * by rewrite Hits.
  - intros ps p kv tipo its st Hc Ht HAB Hpv Hits Hne Hnum.
    assert (Hcalc : exists tot, calcular_totales (JArr its) tipo = Ok tot).
    { destruct Hnum as [(cps & Hn & Hb)|[Hf|(cps & Hi & Hb)]].
      - by eapply calcular_totales_numericos.
      - destruct (py_sum_float its Hf Hne) as [h Hs].
        eapply calcular_totales_desde; [done|exact Hs|]. left. by exists h.
      - destruct (float_of_int_bound _ Hb) as [f Hf].
        eapply calcular_totales_desde; [done|by apply py_sum_from_int|].
        right. by eexists _, f. }
    destruct Hcalc as [tot Hcalc]. by eapply Hcrea.
  - eexists _, _. split; [vm_compute; reflexivity|]. by repeat split.
Qed.

End HandlerFacts.

(** *** The handler theorems on concrete requests *)

Lemma validation_order_witness :
  crear_factura instante_a_texto (peticion_de (JStr "C") (JInt 1) un_item) init_state =
    (Resp400 "Tipo de factura inválido. Debe ser A o B", init_state) /\
  crear_factura instante_a_texto (peticion_de (JStr "A") (JInt 9) un_item) init_state =
    (Resp400 "Punto de venta inválido", init_state) /\
  crear_factura instante_a_texto (peticion_de (JStr "B") (JInt 2) (JArr [])) init_state =
    (Resp400 "Debe incluir al menos un item", init_state).
Proof.
  split; [|split].
  - apply (validation_order instante_a_texto
             (peticion_de (JStr "C") (JInt 1) un_item) init_state _ eq_refl);
      discriminate.
  - apply (validation_order instante_a_texto
             (peticion_de (JStr "A") (JInt 9) un_item) init_state _ eq_refl).
    + by left.
    + intros k Hk. simpl in Hk.
      repeat (destruct Hk as [<-|Hk]; [reflexivity|]). destruct Hk.
  - apply (validation_order instante_a_texto
             (peticion_de (JStr "B") (JInt 2) (JArr [])) init_state _ eq_refl).
    + by right.
    + exists 2. split; [simpl; tauto|reflexivity].
    + by right.
Defined.


Lemma contador_por_serie_witness :
  generar_numero_factura "A" (JInt 3) init_state =
    (Ok "00003-00000001"%string,
     mkState [] (<["A"%string := 2]> (contadores init_state))) /\
  (exists f1 st1 f2 st2,
      crear_factura instante_a_texto (peticion_de (JStr "B") (JInt 1) un_item)
        init_state = (Resp201 f1, st1) /\
      crear_factura instante_a_texto (peticion_de (JStr "B") (JInt 5) un_item)
        st1 = (Resp201 f2, st2) /\
      Factura.numero f1 = "00001-00000001"%string /\
      Factura.numero f2 = "00005-00000002"%string) /\
  (exists n',
      contadores
        (atender instante_a_texto
           [peticion_de (JStr "B") (JInt 1) un_item] init_state).2
        !! "B"%string = Some n' /\ 1 <= n').
Proof.
  destruct (contador_por_serie instante_a_texto) as (Hgen & Hdos & _ & Hmono).
  split; [|split].
  - exact (proj1 (Hgen "A"%string (JInt 3) init_state 1 "3"%string eq_refl eq_refl)).
  - edestruct (Hdos (peticion_de (JStr "B") (JInt 1) un_item)
                    (peticion_de (JStr "B") (JInt 5) un_item) init_state)
      as (n & s1 & s2 & Hn & Hs1 & Hs2 & Hn1 & Hn2 & _).
    + vm_compute. reflexivity.
    + vm_compute. reflexivity.
    + reflexivity.
    + do 4 eexists. split; [vm_compute; reflexivity|].
      split; [vm_compute; reflexivity|].
      injection Hn as <-. injection Hs1 as <-. injection Hs2 as <-.
      split; [exact Hn1|exact Hn2].
  - apply (Hmono [peticion_de (JStr "B") (JInt 1) un_item] init_state "B"%string 1).
    reflexivity.
Defined.

Lemma verificar_cae_siempre_responde_witness :
  let st := (atender instante_a_texto
               [peticion_de (JStr "A") (JInt 1) un_item] init_state).2 in
  (exists v, verificar_cae texto_a_instante 2000 "12345678901234" st = Ok v /\
             Verificacion.valido v = true) /\
  verificar_cae texto_a_instante 2000 "00000000000000" st =
    Ok (Verificacion.mk false None "CAE no encontrado").
Proof.
  intros st.
  destruct (verificar_cae_siempre_responde instante_a_texto texto_a_instante
              texto_a_instante_a_texto
              [peticion_de (JStr "A") (JInt 1) un_item] 2000 "12345678901234")
    as (_ & _ & Hsi).
  destruct (verificar_cae_siempre_responde instante_a_texto texto_a_instante
              texto_a_instante_a_texto
              [peticion_de (JStr "A") (JInt 1) un_item] 2000 "00000000000000")
    as (_ & Hno & _).
  split.
  - edestruct (Hsi []) as (emision & v & He & _ & Hv & _ & Hval & _).
    + vm_compute. reflexivity.
    + reflexivity.
    + intros g [].
    + exists v. split; [exact Hv|]. apply Hval.
      apply (f_equal texto_a_instante) in He.
      cbn [Factura.fechaEmision] in He.
      rewrite texto_a_instante_a_texto in He. vm_compute in He.
      injection He as <-. vm_compute. discriminate.
  - apply Hno. intros f Hf. vm_compute in Hf. destruct Hf as [<-|[]].
    discriminate.
Defined.

Lemma items_sin_validar_witness :
  exists f st',
    crear_factura instante_a_texto
      (peticion_de (JStr "B") (JInt 2)
         (JArr [item (JInt 2) (JFloat (Q2F (999 # 100)));
                item (JBool true) (JInt (-5))]))
      (atender instante_a_texto [peticion_de (JStr "A") (JInt 1) un_item]
         init_state).2 = (Resp201 f, st') /\
    Factura.total f = PyFloat (Q2F (1813 # 100)).
Proof.
  destruct (proj1 (proj2 (items_sin_validar instante_a_texto))
              [peticion_de (JStr "A") (JInt 1) un_item]
              (peticion_de (JStr "B") (JInt 2)
                 (JArr [item (JInt 2) (JFloat (Q2F (999 # 100)));
                        item (JBool true) (JInt (-5))]))
              _ "B"%string _ eq_refl eq_refl (or_intror eq_refl) eq_refl eq_refl)
    as (f & st' & tot & Hf & Hcalc & _ & _ & Htot).
  - discriminate.
  - left. exists [(JInt 2, JFloat (Q2F (999 # 100))); (JBool true, JInt (-5))].
    split; [|vm_compute; reflexivity].
    repeat constructor.
  - exists f, st'. split; [exact Hf|]. rewrite Htot.
    vm_compute in Hcalc. injection Hcalc as <-. reflexivity.
Defined.

(** A request of type A at point of sale 1 whose only item has the int
    quantity [10^400] and price 1 is answered 500: the subtotal is too large
    to be converted to a float. *)
Lemma items_sin_validar_counterexample :
  let p := peticion_de (JStr "A") (JInt 1)
             (JArr [item (JInt (10 ^ 400)) (JInt 1)]) in
  tipo_valido (JStr "A") = Some "A"%string /\
  en_puntos_venta (JInt 1) = true /\
  items_int [item (JInt (10 ^ 400)) (JInt 1)] [(10 ^ 400, 1)] /\
  crear_factura instante_a_texto p init_state =
    (Resp500 OverflowError, init_state).
Proof.
  intros p. split; [reflexivity|]. split; [reflexivity|]. split.
  - repeat constructor.
  - vm_compute. reflexivity.
Qed.

(* ===================================================================== *)
(** * The rest of the handlers *)
(* ===================================================================== *)

(** ** The two series side by side *)

Lemma py_sub_float f g : py_sub (PyFloat f) (PyFloat g) = Ok (PyFloat (fsub f g)).
Proof. reflexivity. Qed.

(** X1: the calculator charges both series the same. On the same items it
    either raises the same exception for A and for B, or returns for both,
    and then the total of B is the total of A, which B also reports as its
    subtotal: the 21% is added on top in both. Any series other than A is
    computed as B. *)
Theorem mismo_total_en_ambas_series items :
  match calcular_totales items "A", calcular_totales items "B" with
  | Ok a, Ok b =>
      Totales.total b = Totales.total a /\ Totales.subtotal b = Totales.total a
  | Raise e, Raise e' => e = e'
  | _, _ => False
  end /\
  (forall tipo, tipo <> "A"%string ->
     calcular_totales items tipo = calcular_totales items "B").
Proof.
  split.
  - unfold calcular_totales.
    destruct (py_iter items) as [its|e]; [|done]. cbn [mbind res_bind].
    destruct (py_sum importe_item its) as [s|e]; [|done].
    cbn [mbind res_bind String.eqb Ascii.eqb Bool.eqb].
    destruct (py_mul s importe_iva) as [iva|e] eqn:Hiva; [|done]. cbn [mbind res_bind].
    destruct (py_add s iva) as [total|e] eqn:Ht; [|done]. cbn [mbind res_bind].
    apply py_mul_float_r in Hiva as [h ->]. apply py_add_float_r in Ht as [g ->].
    rewrite py_sub_float. done.
  - intros tipo Ht. unfold calcular_totales.
    destruct (String.eqb_spec tipo "A"); done.
Qed.

(** ** Amounts that are not negative *)

Lemma py_round2_nn x : num_nn x -> num_nn (py_round2 x).
Proof. destruct x as [z|f]; [done|apply fround2_fnn]. Qed.

Lemma py_mul_iva_nn s iva :
  num_nn s -> py_mul s importe_iva = Ok iva -> num_nn iva.
Proof.
  destruct s as [z|f]; cbn [py_mul importe_iva num_nn].
  - intros Hz H. apply bind_Ok in H as (f & Hf & [= <-]).
    apply float_of_int_fnn in Hf as [Hf _]; [|done]. by apply fmul_iva_fnn.
  - intros Hf [= <-]. by apply fmul_iva_fnn.
Qed.

(** X2: quantities and prices that are non-negative finite numbers never
    give a negative or NaN amount. The subtotal and the total the calculator
    returns are not negative in either series; so is the tax of series A;
    the tax of any other series is 0.0 as long as the total is finite. *)
Theorem montos_no_negativos its tipo tot :
  Forall item_nn its ->
  calcular_totales (JArr its) tipo = Ok tot ->
  num_nn (Totales.subtotal tot) /\ num_nn (Totales.total tot) /\
  (tipo = "A"%string -> num_nn (Totales.iva tot)) /\
  (tipo <> "A"%string -> num_fin (Totales.total tot) ->
   Totales.iva tot = PyFloat (S754_zero false)).
Proof.
  intros Hnn H. unfold calcular_totales in H. cbn [py_iter mbind res_bind] in H.
  apply bind_Ok in H as (s & Hs & H).
  assert (Hsnn : num_nn s).
  { apply (py_sum_from_nn its (PyInt 0) s); [done| |done]. simpl. lia. }
  destruct (String.eqb_spec tipo "A") as [->|Hne].
  - apply bind_Ok in H as (iva & Hiva & H). apply bind_Ok in H as (total & Ht & H).
    injection H as <-. cbn [Totales.subtotal Totales.iva Totales.total].
    pose proof (py_mul_iva_nn _ _ Hsnn Hiva) as Hivann.
    pose proof (py_add_nn _ _ _ Hsnn Hivann Ht) as Htnn.
    split; [by apply py_round2_nn|]. split; [by apply py_round2_nn|].
    split; [intros _; by apply py_round2_nn|done].
  - apply bind_Ok in H as (iva & Hiva & H). apply bind_Ok in H as (total & Ht & H).
    pose proof (py_mul_iva_nn _ _ Hsnn Hiva) as Hivann.
    pose proof (py_add_nn _ _ _ Hsnn Hivann Ht) as Htnn.
    apply py_mul_float_r in Hiva as [h ->]. apply py_add_float_r in Ht as [g ->].
    rewrite py_sub_float in H. cbn [mbind res_bind] in H. injection H as <-.
    cbn [Totales.subtotal Totales.iva Totales.total py_round2 num_fin].
    split; [by apply fround2_fnn|]. split; [by apply fround2_fnn|].
    split; [done|]. intros _ Hfin. apply fround2_finite_inv in Hfin.
    by rewrite fsub_self.
Qed.

Lemma montos_no_negativos_witness :
  exists tot,
    calcular_totales (JArr [item (JFloat (Q2F (3 # 2))) (JInt 10)]) "A" = Ok tot /\
    num_nn (Totales.subtotal tot) /\ num_nn (Totales.total tot).
Proof.
  assert (Hnn : Forall item_nn [item (JFloat (Q2F (3 # 2))) (JInt 10)]).
  { constructor; [|constructor].
    exists (JFloat (Q2F (3 # 2))), (JInt 10). split; [by split|].
    split; [|simpl; lia]. split; [|reflexivity]. split; reflexivity. }
  eexists. split; [vm_compute; reflexivity|].
  destruct (montos_no_negativos _ "A"
              (Totales.mk (PyFloat (Q2F 15)) (PyFloat (Q2F (315 # 100)))
                 (PyFloat (Q2F (1815 # 100)))) Hnn) as (H1 & H2 & _).
  - vm_compute. reflexivity.
  - split; [exact H1|exact H2].
Defined.

(** ** How exact the amounts are *)

Section Accuracy.
Local Open Scope Q_scope.

Lemma F2Q_round_pos q :
  0 < q -> rval q < pow2 1024 ->
  is_finite (round_pos false q) = true /\ F2Q (round_pos false q) == rval q.
Proof.
  intros Hq Hlt. destruct (round_pos_cases false q Hq) as [Hm|Hinf|m e Hv _ _ _].
  - split; [done|]. rewrite (rval_zero q Hm). reflexivity.
  - lra.
  - split; [done|]. exact Hv.
Qed.

Lemma rexp_le q k :
  0 < q -> q < pow2 k -> (-1021 <= k)%Z -> (rexp q <= k - 53)%Z.
Proof.
  intros Hq Hk Hmin. unfold rexp.
  destruct (ilog2_spec q Hq) as [Hlo _].
  assert (ilog2 q < k)%Z by (apply pow2_lt_inv; lra).
  lia.
Qed.

Lemma rval_near q k :
  0 < q -> q < pow2 k -> (-1021 <= k)%Z ->
  Qabs (q - rval q) <= pow2 (k - 54).
Proof.
  intros Hq Hk Hmin. eapply Qle_trans; [apply rval_error|].
  pose proof (pow2_le _ _ (rexp_le q k Hq Hk Hmin)) as H.
  assert (E : pow2 (k - 53) == pow2 (k - 54) * 2).
  { replace (k - 53)%Z with ((k - 54) + 1)%Z by lia. rewrite pow2_add. reflexivity. }
  lra.
Qed.

(** A correct rounding of a value well inside the range is a positive
    finite float, within half an ulp. *)
Lemma round_pos_near q k :
  0 < q -> q < pow2 k -> (-1021 <= k <= 1023)%Z -> pow2 (k - 54) < q ->
  exists m e,
    round_pos false q = S754_finite false m e /\
    Qabs (q - Fabs (S754_finite false m e)) <= pow2 (k - 54).
Proof.
  intros Hq Hk Hr Hlo.
  pose proof (rval_near q k Hq Hk ltac:(lia)) as Hn.
  apply Qabs_Qle_condition in Hn as [Hn1 Hn2].
  pose proof (pow2_pos (k - 54)) as Hp.
  assert (Hk1 : pow2 (k + 1) <= pow2 1024) by (apply pow2_le; lia).
  assert (Hk2 : pow2 (k - 54) < pow2 k) by (apply pow2_lt; lia).
  assert (Hk3 : pow2 (k + 1) == pow2 k * 2) by (rewrite pow2_add; reflexivity).
  destruct (round_pos_cases false q Hq) as [Hm|Hinf|m e Hv _ _ _].
  - pose proof (rval_zero q Hm). lra.
  - lra.
  - exists m, e. split; [done|]. cbn [Fabs]. rewrite Hv.
    apply Qabs_Qle_condition. split; lra.
Qed.

Lemma fround2_near m e k :
  Fabs (S754_finite false m e) + (1 # 200) < pow2 k -> (-1021 <= k <= 1023)%Z ->
  is_finite (fround2 (S754_finite false m e)) = true /\
  Qabs (F2Q (fround2 (S754_finite false m e)) - Fabs (S754_finite false m e))
    <= (1 # 200) + pow2 (k - 54).
Proof.
  intros Hk Hr. pose proof (Fabs_pos false m e) as HX.
  pose proof (pow2_pos (k - 54)) as Hp.
  destruct (rint_even_bounds (Fabs (S754_finite false m e) * 100)) as [Hlo Hhi].
  unfold fround2. cbv zeta.
  set (X := Fabs (S754_finite false m e)) in *.
  set (n := rint_even (X * 100)) in *.
  destruct (Z.eqb_spec n 0) as [E|Hne].
  - split; [done|]. cbn [F2Q]. rewrite E in Hlo, Hhi.
    change (inject_Z 0) with 0 in Hlo, Hhi.
    apply Qabs_Qle_condition. split; lra.
  - assert (Hn : (0 < n)%Z).
    { assert (- (1) < inject_Z n) by lra.
      assert (-1 < n)%Z; [|lia].
      rewrite Zlt_Qlt. exact H. }
    assert (Hq : 0 < inject_Z n / 100).
    { apply inject_Z_pos in Hn. apply Qlt_shift_div_l; lra. }
    assert (E : inject_Z n / 100 * 100 == inject_Z n) by (field; lra).
    assert (Hk' : inject_Z n / 100 < pow2 k) by lra.
    pose proof (rval_near _ k Hq Hk' ltac:(lia)) as Hn'.
    apply Qabs_Qle_condition in Hn' as [Hn1 Hn2].
    assert (Hk1 : pow2 (k + 1) <= pow2 1024) by (apply pow2_le; lia).
    assert (Hk2 : pow2 (k - 54) < pow2 k) by (apply pow2_lt; lia).
    assert (Hk3 : pow2 (k + 1) == pow2 k * 2) by (rewrite pow2_add; reflexivity).
    destruct (F2Q_round_pos _ Hq) as [Hfin Hv]; [lra|].
    split; [done|]. rewrite Hv. apply Qabs_Qle_condition. split; lra.
Qed.

Lemma float_of_int_exact z :
  (0 < z < 2 ^ 53)%Z ->
  exists m e, float_of_int z = Ok (S754_finite false m e) /\
              Fabs (S754_finite false m e) == inject_Z z.
Proof.
  intros Hz. rewrite float_of_int_pos by lia.
  assert (Hq : 0 < inject_Z z) by (apply inject_Z_pos; lia).
  assert (Hv : rval (inject_Z z) == inject_Z z).
  { apply (rval_exact _ z 0); [|lia|lia]. change (pow2 0) with 1. ring. }
  assert (Hb : inject_Z z < pow2 53).
  { rewrite pow2_Z by lia. rewrite <- Zlt_Qlt. lia. }
  assert (Hk : pow2 53 < pow2 1024) by (apply pow2_lt; lia).
  destruct (round_pos_cases false (inject_Z z) Hq) as [Hm|Hinf|m e Hm _ _ _].
  - pose proof (rval_zero _ Hm). lra.
  - lra.
  - exists m, e. split; [done|]. cbn [Fabs]. by rewrite Hm.
Qed.

(** The double nearest to 0.21. *)
Lemma f_0_21_valor : Fabs f_0_21 == 7566047373982433 # 36028797018963968.
Proof. vm_compute. reflexivity. Qed.

(** The tax and the total of an int subtotal up to [10^12], before they
    are stored: finite, and within half a cent and a little of 21% and of
    121% of the subtotal. *)
Lemma exactitud z f :
  (0 < z <= 10 ^ 12)%Z -> float_of_int z = Ok f ->
  let iva := fround2 (fmul f f_0_21) in
  let total := fround2 (fadd f (fmul f f_0_21)) in
  is_finite iva = true /\ is_finite total = true /\
  Qabs (F2Q iva - (21 # 100) * inject_Z z) <= (1 # 200) + (1 # 20000) /\
  Qabs (F2Q total - (121 # 100) * inject_Z z) <= (1 # 200) + (3 # 10000).
Proof.
  intros Hz Hf.
  destruct (float_of_int_exact z) as (m & e & Hf' & Hfz); [lia|].
  rewrite Hf' in Hf. injection Hf as <-.
  assert (Hz1 : 1 <= inject_Z z).
  { change 1 with (inject_Z 1). rewrite <- Zle_Qle. lia. }
  assert (Hz2 : inject_Z z <= 1000000000000).
  { change 1000000000000 with (inject_Z (10 ^ 12)). rewrite <- Zle_Qle. lia. }
  pose proof f_0_21_valor as Hc.
  assert (P38 : pow2 38 == 274877906944) by reflexivity.
  assert (P41 : pow2 41 == 2199023255552) by reflexivity.
  assert (Pm16 : pow2 (38 - 54) == 1 # 65536) by reflexivity.
  assert (Pm13 : pow2 (41 - 54) == 1 # 8192) by reflexivity.
  (* the product *)
  unfold f_0_21 in *.
  set (fz := S754_finite false m e) in *.
  set (c := S754_finite false 7566047373982433 (-55)) in *.
  assert (Hmul : fmul fz c = round_pos false (Fabs fz * Fabs c)) by reflexivity.
  assert (Hq1 : Fabs fz * Fabs c == inject_Z z * (7566047373982433 # 36028797018963968))
    by (by rewrite Hfz, Hc).
  set (q1 := Fabs fz * Fabs c) in *. clearbody q1.
  destruct (round_pos_near q1 38) as (mp & ep & Hp & Hperr);
    [lra|lra|lia|lra|].
  rewrite Hmul, Hp. clear Hmul.
  apply Qabs_Qle_condition in Hperr as [Hp1 Hp2].
  pose proof (Fabs_pos false mp ep) as Hppos.
  (* the sum *)
  assert (Hadd : fadd fz (S754_finite false mp ep) =
                 round_pos false (Fabs fz + Fabs (S754_finite false mp ep))).
  { unfold fadd, fz. cbn [F2Q]. unfold Q2F.
    assert (Hgt : 0 < Fabs (S754_finite false m e) + Fabs (S754_finite false mp ep))
      by (fold fz; lra).
    apply Qgt_alt in Hgt. by rewrite Hgt. }
  rewrite Hadd. clear Hadd.
  destruct (fround2_near mp ep 38) as [Hfin1 He1]; [lra|lia|].
  apply Qabs_Qle_condition in He1 as [He11 He12].
  set (P := Fabs (S754_finite false mp ep)) in *. clearbody P.
  set (Z0 := Fabs fz) in *. clearbody Z0.
  destruct (round_pos_near (Z0 + P) 41) as (mt & et & Ht & Hterr);
    [lra|lra|lia|lra|].
  rewrite Ht.
  apply Qabs_Qle_condition in Hterr as [Ht1 Ht2].
  destruct (fround2_near mt et 41) as [Hfin2 He2]; [lra|lia|].
  apply Qabs_Qle_condition in He2 as [He21 He22].
  cbv zeta. split; [done|]. split; [done|].
  split; apply Qabs_Qle_condition; split; lra.
Qed.

(** X19: how exact the amounts are. For items whose quantities and
    prices are ints with a sum of products [z] from 1 to [10^12], the
    calculator returns for both series; the stored tax of series A is a
    finite float within 0.00505 of 21% of [z], the stored total of either
    series is a finite float within 0.0053 of 121% of [z], the subtotal of
    series A is [z] itself and the tax of series B is 0.0. *)
Theorem exactitud_de_los_montos its cps :
  items_int its cps ->
  (0 < suma_int cps <= 10 ^ 12)%Z ->
  exists iva total,
    is_finite iva = true /\ is_finite total = true /\
    Qabs (F2Q iva - (21 # 100) * inject_Z (suma_int cps)) <= (1 # 200) + (1 # 20000) /\
    Qabs (F2Q total - (121 # 100) * inject_Z (suma_int cps)) <= (1 # 200) + (3 # 10000) /\
    calcular_totales (JArr its) "A" =
      Ok (Totales.mk (PyInt (suma_int cps)) (PyFloat iva) (PyFloat total)) /\
    calcular_totales (JArr its) "B" =
      Ok (Totales.mk (PyFloat total) (PyFloat (S754_zero false)) (PyFloat total)).
Proof.
  intros Hits Hz.
  destruct (float_of_int_exact (suma_int cps)) as (m & e & Hf & _); [lia|].
  destruct (exactitud _ _ Hz Hf) as (Hfin1 & Hfin2 & He1 & He2).
  pose proof (py_sum_from_int its cps 0%Z Hits) as Hs. fold (suma_int cps) in Hs.
  set (f := S754_finite false m e) in *.
  exists (fround2 (fmul f f_0_21)), (fround2 (fadd f (fmul f f_0_21))).
  repeat (split; [done|]). split.
  - apply (calcular_totales_A_ok (JArr its) its (PyInt (suma_int cps))
             (PyFloat (fmul f f_0_21)) (PyFloat (fadd f (fmul f f_0_21))));
      [done|done| |]; unfold importe_iva; cbn [py_mul py_add]; by rewrite Hf.
  - rewrite (calcular_totales_B_ok (JArr its) its (PyInt (suma_int cps))
               (PyFloat (fmul f f_0_21)) (fadd f (fmul f f_0_21)));
      [|done|done| |]; try (unfold importe_iva; cbn [py_mul py_add]; by rewrite Hf).
    rewrite fsub_self by (by apply fround2_finite_inv). done.
Qed.

End Accuracy.

Lemma exactitud_de_los_montos_witness :
  exists iva total,
    calcular_totales (JArr [item (JInt 2) (JInt 100)]) "A" =
      Ok (Totales.mk (PyInt 200) (PyFloat iva) (PyFloat total)) /\
    (Qabs (F2Q iva - (21 # 100) * inject_Z 200) <= (1 # 200) + (1 # 20000))%Q /\
    (Qabs (F2Q total - (121 # 100) * inject_Z 200) <= (1 # 200) + (3 # 10000))%Q.
Proof.
  destruct (exactitud_de_los_montos [item (JInt 2) (JInt 100)] [(2, 100)])
    as (iva & total & _ & _ & H1 & H2 & HA & _).
  - repeat constructor.
  - vm_compute. split; [reflexivity|discriminate].
  - exists iva, total. split; [exact HA|]. split; [exact H1|exact H2].
Defined.

(** ** What the calculator asks of the items *)

Lemma as_num_es_numero v a : as_num v = Ok a -> es_numero v.
Proof. by destruct v. Qed.

Lemma importe_item_Ok it v :
  importe_item it = Ok v ->
  exists c q, item_es it c q /\ es_numero c /\ es_numero q.
Proof.
  unfold importe_item. intros H.
  apply bind_Ok in H as (c & Hc & H). apply bind_Ok in H as (q & Hq & H).
  apply bind_Ok in H as (a & Ha & H). apply bind_Ok in H as (b & Hb & _).
  exists c, q. split; [by split|]. split; by eapply as_num_es_numero.
Qed.

Lemma py_sum_from_Ok its acc s :
  py_sum_from importe_item acc its = Ok s ->
  Forall (fun it => exists c q, item_es it c q /\ es_numero c /\ es_numero q) its.
Proof.
  revert acc. induction its as [|it its IH]; intros acc H; [done|].
  cbn [py_sum_from] in H. apply bind_Ok in H as (v & Hv & H).
  apply bind_Ok in H as (acc' & _ & H).
  constructor; [by eapply importe_item_Ok|by eapply IH].
Qed.

Lemma calcular_totales_Ok items tipo tot :
  calcular_totales items tipo = Ok tot ->
  exists its, py_iter items = Ok its /\
    Forall (fun it => exists c q, item_es it c q /\ es_numero c /\ es_numero q) its.
Proof.
  unfold calcular_totales. intros H.
  apply bind_Ok in H as (its & Hits & H). apply bind_Ok in H as (s & Hs & _).
  exists its. split; [done|]. by eapply py_sum_from_Ok.
Qed.

(** Only a non-empty list passes both the items check and the calculator:
    the elements of a string or of a dict are strings, which have no
    ["cantidad"]. *)
Lemma items_lista items tipo tot :
  sin_items items = Ok false ->
  calcular_totales items tipo = Ok tot ->
  exists its, items = JArr its /\ its <> [] /\
    Forall (fun it => exists c q, item_es it c q /\ es_numero c /\ es_numero q) its.
Proof.
  intros Hv Hc. apply calcular_totales_Ok in Hc as (its & Hits & Hall).
  destruct items as [ |b|z|f|s|l|kv]; try discriminate.
  - destruct s as [|c s]; [discriminate|]. injection Hits as <-.
    apply Forall_cons in Hall as [(c' & q & [Hc' _] & _) _]. discriminate.
  - injection Hits as <-. exists l. split; [done|]. split; [|done].
    by destruct l.
  - destruct kv as [|[k v] kv]; [discriminate|]. injection Hits as <-.
    apply Forall_cons in Hall as [(c' & q & [Hc' _] & _) _]. discriminate.
Qed.

Lemma py_sum_from_app {A} (f : A -> res num) acc (l1 l2 : list A) :
  py_sum_from f acc (l1 ++ l2) =
    acc' ← py_sum_from f acc l1; py_sum_from f acc' l2.
Proof.
  revert acc. induction l1 as [|x l1 IH]; intros acc; [done|].
  cbn [app py_sum_from]. destruct (f x) as [v|e]; [|done]. cbn [mbind res_bind].
  destruct (py_add acc v) as [acc'|e]; [|done]. cbn [mbind res_bind]. apply IH.
Qed.

Lemma importe_item_sin_clave ikv :
  lookup_key "cantidad" ikv = None \/ lookup_key "precioUnitario" ikv = None ->
  importe_item (JObj ikv) = Raise KeyError.
Proof.
  intros H. unfold importe_item, py_getitem.
  destruct (lookup_key "cantidad" ikv) as [c|]; [|done].
  destruct H as [H|H]; [done|]. by rewrite H.
Qed.

Lemma py_sum_item_sin_clave pre ikv post :
  items_float pre ->
  lookup_key "cantidad" ikv = None \/ lookup_key "precioUnitario" ikv = None ->
  py_sum importe_item (pre ++ JObj ikv :: post) = Raise KeyError.
Proof.
  intros Hpre Hk. unfold py_sum. rewrite py_sum_from_app.
  assert (exists a, py_sum_from importe_item (PyInt 0) pre = Ok a) as [a ->].
  { destruct (decide (pre = [])) as [->|Hne]; [by eexists|].
    destruct (py_sum_float pre Hpre Hne) as [h Hh]. by eexists. }
  cbn [mbind res_bind py_sum_from]. by rewrite importe_item_sin_clave.
Qed.

Lemma calcular_totales_Raise its tipo e :
  py_sum importe_item its = Raise e -> calcular_totales (JArr its) tipo = Raise e.
Proof. intros H. unfold calcular_totales. cbn [py_iter mbind res_bind]. by rewrite H. Qed.

(** ** The number of decimal digits *)

Lemma length_string_of_uint d :
  String.length (NilEmpty.string_of_uint d) = Decimal.nb_digits d.
Proof. induction d; simpl; by f_equal. Qed.

Lemma of_uint_acc_bounds d acc :
  Zpos acc * 10 ^ Z.of_nat (Decimal.nb_digits d) <= Zpos (Pos.of_uint_acc d acc)
    < (Zpos acc + 1) * 10 ^ Z.of_nat (Decimal.nb_digits d).
Proof.
  revert acc. induction d; intros acc; cbn [Pos.of_uint_acc Decimal.nb_digits];
    try (rewrite Nat2Z.inj_succ, Z.pow_succ_r by lia;
         match goal with |- context [Pos.of_uint_acc d ?a] => specialize (IHd a) end;
         assert (0 < 10 ^ Z.of_nat (Decimal.nb_digits d)) by (apply Z.pow_pos_nonneg; lia);
         nia).
  simpl. lia.
Qed.

Lemma of_uint_bounds d :
  Decimal.unorm d = d -> d <> Decimal.zero ->
  10 ^ (Z.of_nat (Decimal.nb_digits d) - 1) <= Z.of_N (Pos.of_uint d)
    < 10 ^ Z.of_nat (Decimal.nb_digits d).
Proof.
  intros Hn Hz.
  destruct d; cbn [Pos.of_uint Decimal.nb_digits];
    try (rewrite Nat2Z.inj_succ, Z.pow_succ_r by lia;
         replace (Z.succ (Z.of_nat (Decimal.nb_digits d)) - 1)
           with (Z.of_nat (Decimal.nb_digits d)) by lia;
         match goal with |- context [Pos.of_uint_acc d ?a] =>
           pose proof (of_uint_acc_bounds d a) end;
         assert (0 < 10 ^ Z.of_nat (Decimal.nb_digits d)) by (apply Z.pow_pos_nonneg; lia);
         cbn [Z.of_N]; nia).
  - simpl in Hn. discriminate.
  - exfalso. unfold Decimal.unorm in Hn. cbn [Decimal.nzhead] in Hn.
    destruct (Decimal.nzhead d) eqn:E; try discriminate;
      try (injection Hn as Hn';
           pose proof (DecimalFacts.nb_digits_nzhead d) as Hle; rewrite E, Hn' in Hle;
           cbn [Decimal.nb_digits] in Hle; lia).
    injection Hn as <-. by destruct Hz.
Qed.

(** The decimal string of a positive int has the number of digits its
    size asks for. *)
Lemma py_str_Z_bounds n :
  0 < n ->
  10 ^ (Z.of_nat (String.length (py_str_Z n)) - 1) <= n
    < 10 ^ Z.of_nat (String.length (py_str_Z n)).
Proof.
  intros Hn. destruct n as [|p|p]; [lia| |lia].
  unfold py_str_Z. cbn [Z.to_int NilZero.string_of_int].
  set (d := Pos.to_uint p).
  assert (Hd : d <> Decimal.Nil) by apply DecimalPos.Unsigned.to_uint_nonnil.
  assert (Hs : NilZero.string_of_uint d = NilEmpty.string_of_uint d) by by destruct d.
  rewrite Hs, length_string_of_uint.
  assert (Hp : Pos.of_uint d = N.pos p) by apply DecimalPos.Unsigned.of_to.
  assert (Hnorm : Decimal.unorm d = d).
  { pose proof (DecimalPos.Unsigned.to_of d) as H1. by rewrite Hp in H1. }
  pose proof (of_uint_bounds d Hnorm (DecimalPos.Unsigned.to_uint_nonzero p)) as Hb.
  by rewrite Hp in Hb.
Qed.

Lemma py_str_Z_length_le n w :
  0 <= n < 10 ^ Z.of_nat w -> (0 < w)%nat -> (String.length (py_str_Z n) <= w)%nat.
Proof.
  intros Hn Hw. destruct (Z.eq_dec n 0) as [->|Hz]; [simpl; lia|].
  destruct (py_str_Z_bounds n) as [Hlo _]; [lia|].
  destruct (Nat.le_gt_cases (String.length (py_str_Z n)) w) as [|Hgt]; [done|].
  exfalso.
  assert (10 ^ Z.of_nat w <= 10 ^ (Z.of_nat (String.length (py_str_Z n)) - 1))
    by (apply Z.pow_le_mono_r; lia).
  lia.
Qed.

Lemma py_str_Z_length_gt n w :
  10 ^ Z.of_nat w <= n -> (w < String.length (py_str_Z n))%nat.
Proof.
  intros Hn. assert (0 < 10 ^ Z.of_nat w) by (apply Z.pow_pos_nonneg; lia).
  destruct (py_str_Z_bounds n) as [_ Hhi]; [lia|].
  destruct (Nat.le_gt_cases (String.length (py_str_Z n)) w) as [Hle|]; [|done].
  exfalso.
  assert (10 ^ Z.of_nat (String.length (py_str_Z n)) <= 10 ^ Z.of_nat w)
    by (apply Z.pow_le_mono_r; lia).
  lia.
Qed.

Lemma valor_digitos_py_str_Z n : 0 <= n -> valor_digitos (py_str_Z n) = Some n.
Proof. intros Hn. exact (valor_digitos_zfill 0 n Hn). Qed.

(** X3: for a draw in the range [random.randint] is given, from [10^13]
    to [10^14 - 1], the authorization code is a string of exactly fourteen
    decimal digits that reads back as the draw, so two draws give the same
    code only when they are equal. *)
Theorem formato_cae sorteo :
  10 ^ 13 <= sorteo <= 10 ^ 14 - 1 ->
  String.length (generar_cae sorteo) = 14%nat /\
  valor_digitos (generar_cae sorteo) = Some sorteo /\
  (forall otro, 10 ^ 13 <= otro <= 10 ^ 14 - 1 ->
     generar_cae otro = generar_cae sorteo -> otro = sorteo).
Proof.
  intros Hs. unfold generar_cae. split; [|split].
  - apply Nat.le_antisymm.
    + apply (py_str_Z_length_le sorteo 14); [simpl; lia|lia].
    + apply (py_str_Z_length_gt sorteo 13). simpl; lia.
  - apply valor_digitos_py_str_Z. lia.
  - intros otro Ho He.
    pose proof (valor_digitos_py_str_Z otro ltac:(lia)) as H1.
    pose proof (valor_digitos_py_str_Z sorteo ltac:(lia)) as H2.
    rewrite He, H2 in H1. by injection H1.
Qed.

Lemma formato_cae_witness :
  String.length (generar_cae 12345678901234) = 14%nat /\
  valor_digitos (generar_cae 12345678901234) = Some 12345678901234.
Proof.
  destruct (formato_cae 12345678901234) as (H1 & H2 & _); [lia|].
  split; [exact H1|exact H2].
Defined.

(** X4: with counter [n] for the series and an int point of sale [k] from
    0 to 99999, the number generator returns five digits that read [k], a
    dash, and digits that read [n]: eight of them while [n] is below
    [10^8], and more from there on, since [zfill] never cuts. *)
Theorem formato_numero tipo k n st :
  contadores st !! tipo = Some n ->
  0 <= k < 10 ^ 5 ->
  0 <= n ->
  exists pv sec,
    (generar_numero_factura tipo (JInt k) st).1 = Ok (pv ++ "-" ++ sec)%string /\
    String.length pv = 5%nat /\
    valor_digitos pv = Some k /\
    valor_digitos sec = Some n /\
    (n < 10 ^ 8 -> String.length sec = 8%nat) /\
    (10 ^ 8 <= n -> (8 < String.length sec)%nat).
Proof.
  intros Hn Hk Hn0.
  exists (zfill 5 (py_str_Z k)), (zfill 8 (py_str_Z n)).
  split. { by rewrite (generar_numero_factura_ok tipo (JInt k) st n (py_str_Z k)). }
  split. { rewrite zfill_length. pose proof (py_str_Z_length_le k 5). lia. }
  split. { apply valor_digitos_zfill. lia. }
  split. { by apply valor_digitos_zfill. }
  split.
  - intros Hlt. rewrite zfill_length.
    pose proof (py_str_Z_length_le n 8). lia.
  - intros Hge. rewrite zfill_length.
    pose proof (py_str_Z_length_gt n 8 Hge). lia.
Qed.

Lemma formato_numero_witness :
  exists pv sec,
    (generar_numero_factura "A" (JInt 3) init_state).1 = Ok (pv ++ "-" ++ sec)%string /\
    String.length pv = 5%nat /\ valor_digitos pv = Some 3 /\
    valor_digitos sec = Some 1 /\ String.length sec = 8%nat.
Proof.
  destruct (formato_numero "A" 3 1 init_state) as (pv & sec & H1 & H2 & H3 & H4 & H5 & _);
    [reflexivity|lia|lia|].
  exists pv, sec. repeat (split; [assumption|]). apply H5. lia.
Defined.

(** ** The registered points of sale *)

Lemma py_eq_float_int_iff f k :
  py_eq (PyFloat f) (PyInt k) = true <->
  is_finite f = true /\ (F2Q f == inject_Z k)%Q.
Proof.
  split; [apply py_eq_float_int|]. intros [Hfin Hq].
  unfold py_eq, py_le. destruct f as [s|s| |s m e]; try discriminate.
  - rewrite andb_true_iff, !Qle_bool_iff. rewrite Hq. split; apply Qle_refl.
  - rewrite andb_true_iff, !Qle_bool_iff. rewrite Hq. split; apply Qle_refl.
Qed.

Lemma en_puntos_venta_iff v :
  en_puntos_venta v = true <->
  exists k, In k puntos_venta /\
    (v = JInt k \/ (v = JBool true /\ k = 1) \/
     exists f, v = JFloat f /\ is_finite f = true /\ (F2Q f == inject_Z k)%Q).
Proof.
  unfold en_puntos_venta. rewrite existsb_exists. split.
  - intros (k & Hk & He). exists k. split; [done|].
    destruct v as [ |b|z|f|s|l|kv]; unfold eq_int in He; try discriminate.
    + right. left. destruct b; cbn [Z.b2z] in He.
      * apply Z.eqb_eq in He. by subst.
      * apply Z.eqb_eq in He. subst. simpl in Hk. intuition discriminate.
    + left. apply Z.eqb_eq in He. by subst.
    + right. right. exists f. split; [done|]. by apply py_eq_float_int_iff.
  - intros (k & Hk & Hv). exists k. split; [done|].
    destruct Hv as [-> | [[-> ->] | (f & -> & Hf)]]; unfold eq_int.
    + apply Z.eqb_refl.
    + done.
    + by apply py_eq_float_int_iff.
Qed.

(** What [str] prints for a point of sale that passes the check. *)
Lemma py_str_admitido v :
  en_puntos_venta v = true ->
  exists k, In k puntos_venta /\
    (py_str v = Some (py_str_Z k) \/ py_str v = Some "True"%string \/
     py_str v = Some (py_str_Z k ++ ".0")%string).
Proof.
  intros H. apply en_puntos_venta_iff in H as (k & Hk & Hv).
  exists k. split; [done|].
  destruct Hv as [-> | [[-> ->] | (f & -> & Hfin & Hq)]].
  - by left.
  - right. by left.
  - right. right. destruct f as [s|s| |s m e]; try discriminate.
    + exfalso. simpl in Hk. cbn in Hq.
      repeat (destruct Hk as [<-|Hk]; [discriminate Hq|]). done.
    + apply Qred_complete in Hq. cbn [py_str]. cbv zeta. rewrite Hq.
      simpl in Hk. repeat (destruct Hk as [<-|Hk]; [vm_compute; eauto|]). done.
Qed.

Lemma zfill_admitido v s :
  en_puntos_venta v = true -> py_str v = Some s ->
  String.length (zfill 5 s) = 5%nat.
Proof.
  intros Hv Hs. destruct (py_str_admitido v Hv) as (k & Hk & H).
  rewrite Hs in H. simpl in Hk.
  repeat (destruct Hk as [<-|Hk];
          [destruct H as [[= ->]|[[= ->]|[= ->]]]; reflexivity|]).
  done.
Qed.

(** X5: the check [punto_venta not in puntos_venta] lets through exactly
    the values that [==] one of the points of sale the GET handler lists: an
    int from 1 to 5, a finite float with such a value, and [true], which
    equals 1. What then enters the invoice number is the value as [str]
    prints it: the digit, the digit followed by [.0], or [True]. *)
Theorem puntos_de_venta_admitidos v :
  (en_puntos_venta v = true <->
   exists k, In k obtener_puntos_venta /\
     (v = JInt k \/ (v = JBool true /\ k = 1) \/
      exists f, v = JFloat f /\ is_finite f = true /\ (F2Q f == inject_Z k)%Q)) /\
  (en_puntos_venta v = true ->
   exists k, In k obtener_puntos_venta /\
     (py_str v = Some (py_str_Z k) \/ py_str v = Some "True"%string \/
      py_str v = Some (py_str_Z k ++ ".0")%string)).
Proof. split; [apply en_puntos_venta_iff|apply py_str_admitido]. Qed.

Lemma puntos_de_venta_admitidos_witness :
  en_puntos_venta (JFloat (Q2F 3)) = true /\
  en_puntos_venta (JBool true) = true /\
  exists k, In k obtener_puntos_venta /\
    py_str (JFloat (Q2F 3)) = Some (py_str_Z k ++ ".0")%string.
Proof.
  split; [|split].
  - apply (proj1 (puntos_de_venta_admitidos (JFloat (Q2F 3)))).
    exists 3. split; [simpl; tauto|]. right. right.
    exists (Q2F 3). split; [reflexivity|]. split; reflexivity.
  - apply (proj1 (puntos_de_venta_admitidos (JBool true))).
    exists 1. split; [simpl; tauto|]. right. left. by split.
  - destruct (proj2 (puntos_de_venta_admitidos (JFloat (Q2F 3))) eq_refl)
      as (k & Hk & H).
    exists k. split; [exact Hk|]. destruct H as [H|[H|H]]; [| |exact H].
    + exfalso. simpl in Hk.
      repeat (destruct Hk as [<-|Hk]; [vm_compute in H; discriminate H|]).
      exact Hk.
    + vm_compute in H. discriminate H.
Defined.

(** ** Creation *)

Lemma default_JNull_Some (o : option json) v :
  default JNull o = v -> v <> JNull -> o = Some v.
Proof. destruct o; simpl; [by intros ->|by intros <-]. Qed.

Lemma creada_o_no r :
  (exists f, r = Resp201 f) \/ (forall f, r <> Resp201 f).
Proof. destruct r; [left; by eexists|by right..]. Qed.

Lemma string_app_inj (a a' b b' : string) :
  String.length a = String.length a' ->
  (a ++ b)%string = (a' ++ b')%string -> a = a' /\ b = b'.
Proof.
  revert a'. induction a as [|c a IH]; intros [|c' a'] Hl; try discriminate.
  - by rewrite !string_app_nil.
  - rewrite !string_app_cons. intros [= -> H]. injection Hl as Hl.
    destruct (IH a' Hl H) as [-> ->]. done.
Qed.

(** Two invoices with the same number carry the same sequence number. *)
Lemma numerada_inj f g k k' :
  numerada f k -> numerada g k' -> 0 <= k -> 0 <= k' ->
  Factura.numero f = Factura.numero g -> k = k'.
Proof.
  intros (pv & _ & Hl & Hf) (pv' & _ & Hl' & Hg) Hk Hk' He.
  rewrite Hf, Hg in He. apply string_app_inj in He as [_ He]; [|by rewrite Hl, Hl'].
  rewrite !string_app_cons, !string_app_nil in He. injection He as He.
  pose proof (valor_digitos_zfill 8 k Hk) as H1.
  pose proof (valor_digitos_zfill 8 k' Hk') as H2.
  rewrite He in H1. rewrite H1 in H2. by injection H2.
Qed.



Lemma creadas_app rs rs' : creadas (rs ++ rs') = creadas rs ++ creadas rs'.
Proof. unfold creadas. apply flat_map_app. Qed.

Section CreationFacts.
Context (isoformat : Z -> string).

(** A request whose type and point of sale pass and whose items make the
    check or the calculator raise. *)
Lemma crear_factura_500 p st kv tipo e :
  cuerpo p = JObj kv ->
  tipo_valido (default JNull (lookup_key "tipo" kv)) = Some tipo ->
  en_puntos_venta (default JNull (lookup_key "puntoVenta" kv)) = true ->
  (sin_items (default JNull (lookup_key "items" kv)) = Raise e \/
   sin_items (default JNull (lookup_key "items" kv)) = Ok false /\
   calcular_totales (default JNull (lookup_key "items" kv)) tipo = Raise e) ->
  crear_factura isoformat p st = (Resp500 e, st).
Proof.
  intros Hc Ht Hpv H. unfold crear_factura, crear_factura_try. rewrite Hc.
  unfold mbind, M_bind, lift, mret, M_ret, get_state, put_state, py_get.
  rewrite Ht, Hpv. cbn [negb]. cbv beta iota.
  destruct H as [-> | [-> ->]]; done.
Qed.

Lemma crear_factura_sin_201 p st r st' :
  crear_factura isoformat p st = (r, st') ->
  (forall f, r <> Resp201 f) -> st' = st.
Proof.
  intros H Hr. apply crear_factura_inv in H as [[-> _]|H]; [done|].
  destruct H as (kv & tipo & n & pv & tot & f & _ & _ & _ & _ & _ & _ & _ & Hf & _).
  by destruct (Hr _ Hf).
Qed.

(** X6: what an answer 201 requires. The body is an object that has the
    keys [tipo], [puntoVenta] and [items]; the type is the string A or B;
    the point of sale passes the membership check; the items are a
    non-empty list of objects that each have a [cantidad] and a
    [precioUnitario] that are numbers (an int, a float or a boolean). The
    customer is stored as it came, [None] when absent, without any check;
    the id is the invoice count plus one, the code is the draw, the issue
    date the clock reading and the expiry ten days later, the state
    [Autorizada], and the invoice is the one appended to the ledger. *)
Theorem creacion_exige p st f st' :
  crear_factura isoformat p st = (Resp201 f, st') ->
  exists kv its,
    cuerpo p = JObj kv /\
    lookup_key "tipo" kv = Some (JStr (Factura.tipo f)) /\
    (Factura.tipo f = "A" \/ Factura.tipo f = "B")%string /\
    lookup_key "puntoVenta" kv = Some (Factura.puntoVenta f) /\
    en_puntos_venta (Factura.puntoVenta f) = true /\
    lookup_key "items" kv = Some (JArr its) /\
    its <> [] /\
    Forall (fun it => exists c q, item_es it c q /\ es_numero c /\ es_numero q) its /\
    Factura.items f = JArr its /\
    Factura.cliente f = default JNull (lookup_key "cliente" kv) /\
    Factura.id f = Z.of_nat (length (facturas st)) + 1 /\
    Factura.cae f = generar_cae (sorteo p) /\
    Factura.fechaEmision f = isoformat (ahora p) /\
    Factura.fechaVencimientoCAE f = isoformat (ahora p + diez_dias) /\
    Factura.estado f = "Autorizada"%string /\
    facturas st' = facturas st ++ [f].
Proof.
  intros H. apply crear_factura_inv in H as [[_ H]|H]; [by destruct (H f)|].
  destruct H as (kv & tipo & n & pv & tot & f' & Hc & Ht & Hpv & Hv & _ & _ & Hcalc & [= <-] & -> & ->).
  cbn [Factura.tipo Factura.puntoVenta Factura.items Factura.cliente Factura.cae
       Factura.id Factura.fechaEmision Factura.fechaVencimientoCAE Factura.estado
       facturas].
  destruct (items_lista _ _ _ Hv Hcalc) as (its & Hits & Hne & Hall).
  apply tipo_valido_Some in Ht as [Ht HAB].
  exists kv, its. split; [done|].
  split; [by apply default_JNull_Some|]. split; [done|].
  split. { apply default_JNull_Some; [done|]. intros E. by rewrite E in Hpv. }
  split; [done|]. split; [by apply default_JNull_Some|].
  repeat (split; [done|]). done.
Qed.

(** X18: a body that is not a JSON object ([null], a boolean, a number,
    a string or a list) has no [get]: the request ends in an
    AttributeError, answered 500 and not 400, and the store is left as it
    was. *)
Theorem cuerpo_que_no_es_objeto p st :
  (forall kv, cuerpo p <> JObj kv) ->
  crear_factura isoformat p st = (Resp500 AttributeError, st).
Proof.
  intros H. unfold crear_factura, crear_factura_try.
  destruct (cuerpo p) as [ | | | | | |kv]; try reflexivity. by destruct (H kv).
Qed.

(** X7: items that are not a list never make an invoice. With a valid
    type and point of sale, items that are falsy ([None], [false], zero,
    the empty string, the empty object) are answered 400 with the
    at-least-one-item message, and items that are truthy (a number, [true],
    a non-empty string or object) end in a TypeError, answered 500. The
    store is left as it was. *)
Theorem items_que_no_son_lista p st kv tipo :
  cuerpo p = JObj kv ->
  tipo_valido (default JNull (lookup_key "tipo" kv)) = Some tipo ->
  en_puntos_venta (default JNull (lookup_key "puntoVenta" kv)) = true ->
  (forall its, default JNull (lookup_key "items" kv) <> JArr its) ->
  crear_factura isoformat p st =
    if py_truthy (default JNull (lookup_key "items" kv))
    then (Resp500 TypeError, st)
    else (Resp400 "Debe incluir al menos un item", st).
Proof.
  intros Hc Ht Hpv Hno.
  destruct (py_truthy _) eqn:Htr.
  - apply (crear_factura_500 p st kv tipo); try done.
    destruct (default JNull (lookup_key "items" kv)) as [ |b|z|f|s|l|ikv] eqn:E;
      try discriminate.
    + left. unfold sin_items. by rewrite Htr.
    + left. unfold sin_items. by rewrite Htr.
    + left. unfold sin_items. by rewrite Htr.
    + right. destruct s as [|c s]; [discriminate|]. done.
    + by destruct (Hno l).
    + right. destruct ikv as [|[k v] ikv]; [discriminate|]. done.
  - apply (crear_factura_rechaza isoformat p st kv); [done|].
    rewrite Ht, Hpv. split; [|done]. unfold sin_items. by rewrite Htr.
Qed.

(** X8: an item without a key. With a valid type and point of sale, a
    list of items in which an object lacks [cantidad] or [precioUnitario],
    the items before it having floats for both, ends in a KeyError,
    answered 500, and the store is left as it was. *)
Theorem item_sin_clave p st kv tipo pre ikv post :
  cuerpo p = JObj kv ->
  tipo_valido (default JNull (lookup_key "tipo" kv)) = Some tipo ->
  en_puntos_venta (default JNull (lookup_key "puntoVenta" kv)) = true ->
  default JNull (lookup_key "items" kv) = JArr (pre ++ JObj ikv :: post) ->
  items_float pre ->
  lookup_key "cantidad" ikv = None \/ lookup_key "precioUnitario" ikv = None ->
  crear_factura isoformat p st = (Resp500 KeyError, st).
Proof.
  intros Hc Ht Hpv Hits Hpre Hk.
  apply (crear_factura_500 p st kv tipo); try done. right. rewrite Hits. split.
  - apply sin_items_lista. by destruct pre.
  - apply calcular_totales_Raise. by apply py_sum_item_sin_clave.
Qed.

(** *** Counters, sequence numbers and the ledger *)

Lemma crear_factura_numerada p st f st' :
  crear_factura isoformat p st = (Resp201 f, st') ->
  exists n,
    (Factura.tipo f = "A" \/ Factura.tipo f = "B")%string /\
    contadores st !! Factura.tipo f = Some n /\
    numerada f n /\
    st' = mkState (facturas st ++ [f])
            (<[Factura.tipo f := n + 1]> (contadores st)).
Proof.
  intros H. apply crear_factura_inv in H as [[_ H]|H]; [by destruct (H f)|].
  destruct H as (kv & tipo & n & pv & tot & f' & _ & Ht & Hpv & _ & Hn & Hs & _ & [= <-] & -> & ->).
  cbn [Factura.tipo]. apply tipo_valido_Some in Ht as [_ Ht].
  exists n. split; [done|]. split; [done|]. split; [|done].
  exists pv. cbn [Factura.puntoVenta Factura.numero].
  split; [done|]. split; [|done]. by eapply zfill_admitido.
Qed.





Lemma crear_factura_en_orden p st r st' :
  libro_en_orden st -> crear_factura isoformat p st = (r, st') ->
  libro_en_orden st'.
Proof.
  intros (Hpos & Hall & Hnd) Hp.
  destruct (creada_o_no r) as [[g ->]|Hr'].
  - apply crear_factura_numerada in Hp as (n & _ & Hn & Hnum & ->).
    pose proof (Hpos _ _ Hn) as Hn0.
    split; [|split]; cbn [contadores facturas].
    + intros t c. destruct (decide (t = Factura.tipo g)) as [->|Hne].
      * rewrite lookup_insert_eq. intros [= <-]. lia.
      * rewrite lookup_insert_ne by done. apply Hpos.
    + apply Forall_app. split.
      * eapply Forall_impl; [exact Hall|]. intros f (c & k & Hc & Hk & Hb).
        destruct (decide (Factura.tipo f = Factura.tipo g)) as [E|Hne].
        -- exists (n + 1), k. rewrite E, lookup_insert_eq.
           rewrite E, Hn in Hc. injection Hc as <-. split; [done|]. split; [done|lia].
        -- exists c, k. by rewrite lookup_insert_ne.
      * constructor; [|done]. exists (n + 1), n.
        rewrite lookup_insert_eq. split; [done|]. split; [done|lia].
    + rewrite map_app. apply NoDup_app. split; [done|]. split.
      * intros key Hin Hin'. apply list_elem_of_singleton in Hin'. subst key.
        apply list_elem_of_fmap in Hin as (f & Hkey & Hf).
        rewrite Forall_forall in Hall. destruct (Hall f Hf) as (c & k & Hc & Hk & Hb).
        injection Hkey as Ht Hnumero.
        rewrite <- Ht, Hn in Hc. injection Hc as <-.
        assert (k = n); [|lia].
        eapply numerada_inj; [exact Hk|exact Hnum|lia|lia|done].
      * apply NoDup_singleton.
  - by rewrite (crear_factura_sin_201 _ _ _ _ Hp Hr').
Qed.

Lemma atender_en_orden ps st :
  libro_en_orden st -> libro_en_orden (atender isoformat ps st).2.
Proof.
  revert st. induction ps as [|p ps IH]; intros st H; [done|].
  rewrite atender_cons. cbn [snd].
  destruct (crear_factura isoformat p st) as [r st1] eqn:Hp. cbn [snd].
  apply IH. by eapply crear_factura_en_orden.
Qed.

Lemma init_en_orden : libro_en_orden init_state.
Proof.
  split; [|split].
  - intros t c. unfold init_state. cbn [contadores].
    destruct (decide (t = "A"%string)) as [->|HA].
    { rewrite lookup_insert_eq. intros [= <-]. lia. }
    rewrite lookup_insert_ne by done.
    destruct (decide (t = "B"%string)) as [->|HB].
    { rewrite lookup_insert_eq. intros [= <-]. lia. }
    rewrite lookup_insert_ne by done. by rewrite lookup_empty.
  - constructor.
  - constructor.
Qed.

(** X11: no two invoices of the ledger share series and number, whatever
    requests were served and whatever their points of sale. *)
Theorem numeros_sin_repetir ps :
  NoDup (map serie_y_numero (facturas (atender isoformat ps init_state).2)).
Proof. apply atender_en_orden, init_en_orden. Qed.

End CreationFacts.

Lemma creacion_exige_witness :
  exists f st',
    crear_factura instante_a_texto (peticion_de (JStr "A") (JInt 1) un_item)
      init_state = (Resp201 f, st') /\
    Factura.estado f = "Autorizada"%string /\
    facturas st' = [f].
Proof.
  edestruct (creacion_exige instante_a_texto
               (peticion_de (JStr "A") (JInt 1) un_item) init_state)
    as (kv & its & _ & _ & _ & _ & _ & _ & _ & _ & _ & _ & _ & _ & _ & _ & He & Hl).
  - vm_compute. reflexivity.
  - eexists _, _. split; [vm_compute; reflexivity|]. split; [exact He|exact Hl].
Defined.

Lemma cuerpo_que_no_es_objeto_witness :
  crear_factura instante_a_texto (mkPeticion 1000 12345678901234 JNull) init_state
    = (Resp500 AttributeError, init_state) /\
  crear_factura instante_a_texto
    (mkPeticion 1000 12345678901234 (JArr [JStr "A"; JInt 1])) init_state
    = (Resp500 AttributeError, init_state).
Proof.
  split.
  - apply (cuerpo_que_no_es_objeto instante_a_texto
             (mkPeticion 1000 12345678901234 JNull) init_state).
    intros kv. discriminate.
  - apply (cuerpo_que_no_es_objeto instante_a_texto
             (mkPeticion 1000 12345678901234 (JArr [JStr "A"; JInt 1])) init_state).
    intros kv. discriminate.
Defined.

Lemma items_que_no_son_lista_witness :
  crear_factura instante_a_texto (peticion_de (JStr "A") (JInt 1) (JInt 5))
    init_state = (Resp500 TypeError, init_state) /\
  crear_factura instante_a_texto (peticion_de (JStr "A") (JInt 1) (JStr ""))
    init_state = (Resp400 "Debe incluir al menos un item", init_state).
Proof.
  split.
  - apply (items_que_no_son_lista instante_a_texto
             (peticion_de (JStr "A") (JInt 1) (JInt 5)) init_state _ "A"
             eq_refl eq_refl eq_refl).
    intros its. discriminate.
  - apply (items_que_no_son_lista instante_a_texto
             (peticion_de (JStr "A") (JInt 1) (JStr "")) init_state _ "A"
             eq_refl eq_refl eq_refl).
    intros its. discriminate.
Defined.

Lemma item_sin_clave_witness :
  crear_factura instante_a_texto
    (peticion_de (JStr "B") (JInt 2)
       (JArr [item (JFloat (Q2F (3 # 2))) (JFloat (Q2F 2));
              JObj [("cantidad"%string, JInt 1)]]))
    init_state = (Resp500 KeyError, init_state).
Proof.
  apply (item_sin_clave instante_a_texto
           (peticion_de (JStr "B") (JInt 2)
              (JArr [item (JFloat (Q2F (3 # 2))) (JFloat (Q2F 2));
                     JObj [("cantidad"%string, JInt 1)]]))
           init_state _ "B"
           [item (JFloat (Q2F (3 # 2))) (JFloat (Q2F 2))]
           [("cantidad"%string, JInt 1)] [] eq_refl eq_refl eq_refl eq_refl).
  - constructor; [|constructor]. eexists _, _. split; reflexivity.
  - by right.
Defined.


(** ** Reading the ledger *)

Lemma find_app_Some {A} (p : A -> bool) (l l' : list A) x :
  find p l = Some x -> find p (l ++ l') = Some x.
Proof.
  induction l as [|y l IH]; [done|]. cbn [app find].
  destruct (p y); [done|apply IH].
Qed.

(** In a list whose ids are [k], [k + 1], ... the search by id finds the
    element at the position the id names, and nothing outside the range. *)
Lemma find_id_en (l : list Factura.t) k :
  map Factura.id l = map Z.of_nat (seq k (length l)) ->
  (forall i f, l !! i = Some f ->
     Factura.id f = Z.of_nat (k + i) /\
     find (fun f => Factura.id f =? Z.of_nat (k + i)) l = Some f) /\
  (forall id, id < Z.of_nat k \/ Z.of_nat (k + length l) <= id ->
     find (fun f => Factura.id f =? id) l = None).
Proof.
  revert k. induction l as [|g l IH]; intros k Hids.
  - split; [intros i f Hi; done|done].
  - cbn [map length seq] in Hids. injection Hids as Hg Hl.
    destruct (IH (S k) Hl) as [IH1 IH2]. split.
    + intros [|i] f Hi; cbn in Hi.
      * injection Hi as <-. rewrite Nat.add_0_r. split; [done|].
        cbn [find]. by rewrite Hg, Z.eqb_refl.
      * destruct (IH1 i f Hi) as [Hid Hfind].
        replace (k + S i)%nat with (S k + i)%nat by lia. split; [done|].
        cbn [find]. rewrite Hg.
        destruct (Z.eqb_spec (Z.of_nat k) (Z.of_nat (S k + i))) as [E|_]; [lia|done].
    + intros id Hid. cbn [find length]. rewrite Hg.
      destruct (Z.eqb_spec (Z.of_nat k) id) as [E|_]; [cbn [length] in Hid; lia|].
      apply IH2. cbn [length] in Hid. lia.
Qed.

Section LedgerFacts.
Context (isoformat : Z -> string) (fromisoformat : string -> option Z).

Lemma atender_app ps qs st :
  atender isoformat (ps ++ qs) st =
    ((atender isoformat ps st).1 ++
       (atender isoformat qs (atender isoformat ps st).2).1,
     (atender isoformat qs (atender isoformat ps st).2).2).
Proof.
  revert st. induction ps as [|p ps IH]; intros st.
  - cbn [app atender fst snd]. by destruct (atender isoformat qs st).
  - cbn [app]. rewrite !atender_cons. cbn [fst snd]. by rewrite IH.
Qed.

Lemma ids_del_libro ps :
  let st := (atender isoformat ps init_state).2 in
  map Factura.id (facturas st) = map Z.of_nat (seq 1 (length (facturas st))).
Proof.
  intros st. subst st. rewrite atender_init_facturas.
  pose proof (ids_desde isoformat ps init_state) as H.
  unfold ids_creados in H. rewrite length_map in H.
  rewrite H at 1. by apply List.map_ext.
Qed.

Lemma obtener_factura_libro ps :
  let rs := (atender isoformat ps init_state).1 in
  let st := (atender isoformat ps init_state).2 in
  (forall i f, creadas rs !! i = Some f ->
     Factura.id f = Z.of_nat i + 1 /\
     obtener_factura (Z.of_nat i + 1) st = Resp200 f) /\
  (forall id, id < 1 \/ Z.of_nat (length (creadas rs)) < id ->
     obtener_factura id st = Resp404 "Factura no encontrada").
Proof.
  intros rs st.
  assert (Hl : facturas st = creadas rs) by apply atender_init_facturas.
  destruct (find_id_en (facturas st) 1 (ids_del_libro ps)) as [H1 H2].
  split.
  - intros i f Hi. rewrite <- Hl in Hi. destruct (H1 i f Hi) as [Hid Hf].
    replace (Z.of_nat i + 1) with (Z.of_nat (1 + i)) by lia.
    split; [done|]. unfold obtener_factura. by rewrite Hf.
  - intros id Hid. unfold obtener_factura. rewrite H2; [done|].
    rewrite Hl. lia.
Qed.

(** X12: looking an invoice up by its id. After a run of requests from
    the initial store, the id [i + 1] gives the invoice created in position
    [i] (from 0), which is the one that carries that id, and an id below 1
    or above the number of invoices gives the 404 answer. So the invoice of
    an answer 201 is found under its id at once and after any further
    requests. *)
Theorem obtener_factura_tras_creaciones :
  (forall ps,
     let rs := (atender isoformat ps init_state).1 in
     let st := (atender isoformat ps init_state).2 in
     (forall i f, creadas rs !! i = Some f ->
        Factura.id f = Z.of_nat i + 1 /\
        obtener_factura (Z.of_nat i + 1) st = Resp200 f) /\
     (forall id, id < 1 \/ Z.of_nat (length (creadas rs)) < id ->
        obtener_factura id st = Resp404 "Factura no encontrada")) /\
  (forall ps p qs f st1,
     crear_factura isoformat p (atender isoformat ps init_state).2
       = (Resp201 f, st1) ->
     obtener_factura (Factura.id f) (atender isoformat qs st1).2 = Resp200 f).
Proof.
  split; [apply obtener_factura_libro|].
  intros ps p qs f st1 Hp.
  destruct (obtener_factura_libro (ps ++ p :: qs)) as [H _].
  rewrite atender_app, atender_cons, Hp in H. cbn [fst snd] in H.
  rewrite creadas_app, creadas_cons_201 in H.
  destruct (H (length (creadas (atender isoformat ps init_state).1)) f) as [Hid Hf].
  { by rewrite list_lookup_middle. }
  by rewrite Hid.
Qed.

(** X13: the ledger only grows. A run of requests from any store leaves
    the invoices that were there, in their order, followed by the ones it
    created. So an id that was found gives the same invoice afterwards, and
    an authorization code that was found is verified against the same
    invoice with the same answer. *)
Theorem libro_solo_crece ps st :
  let st' := (atender isoformat ps st).2 in
  facturas st' = facturas st ++ creadas (atender isoformat ps st).1 /\
  (forall id f,
     obtener_factura id st = Resp200 f -> obtener_factura id st' = Resp200 f) /\
  (forall ahora cae v,
     verificar_cae fromisoformat ahora cae st = Ok v ->
     Verificacion.factura v <> None ->
     verificar_cae fromisoformat ahora cae st' = Ok v).
Proof.
  intros st'. pose proof (atender_facturas isoformat ps st) as Hl. fold st' in Hl.
  split; [done|]. split.
  - intros id f. unfold obtener_factura. rewrite Hl.
    destruct (find _ (facturas st)) as [g|] eqn:Hg; [|done].
    by rewrite (find_app_Some _ _ _ _ Hg).
  - intros ahora cae v. unfold verificar_cae. rewrite Hl.
    destruct (find _ (facturas st)) as [g|] eqn:Hg.
    + by rewrite (find_app_Some _ _ _ _ Hg).
    + intros [= <-]. done.
Qed.

(** X20: once expired, always expired. If verifying a code finds an
    invoice and answers that the code has expired, then at any later time,
    and after any further requests, verifying it gives the very same
    answer: the same invoice, not valid, with the expired message. *)
Theorem vencido_para_siempre ps st ahora ahora' cae v :
  verificar_cae fromisoformat ahora cae st = Ok v ->
  Verificacion.factura v <> None ->
  Verificacion.valido v = false ->
  ahora <= ahora' ->
  verificar_cae fromisoformat ahora' cae (atender isoformat ps st).2 = Ok v.
Proof.
  intros Hv Hf Hval Hle. unfold verificar_cae in *.
  rewrite (atender_facturas isoformat ps st).
  destruct (find _ (facturas st)) as [g|] eqn:Hg.
  - rewrite (find_app_Some _ _ _ _ Hg).
    destruct (fromisoformat (Factura.fechaVencimientoCAE g)) as [venc|]; [|done].
    injection Hv as <-. cbn [Verificacion.valido] in Hval.
    apply negb_false_iff in Hval. rewrite Hval.
    assert (E : (ahora' >? venc) = true).
    { rewrite Z.gtb_ltb in *. apply Z.ltb_lt. apply Z.ltb_lt in Hval. lia. }
    by rewrite E.
  - injection Hv as <-. done.
Qed.

End LedgerFacts.

Lemma obtener_factura_tras_creaciones_witness :
  let ps := [peticion_de (JStr "A") (JInt 1) un_item;
             peticion_de (JStr "B") (JInt 2) un_item] in
  (exists f,
     obtener_factura 2 (atender instante_a_texto ps init_state).2 = Resp200 f /\
     Factura.id f = 2 /\ Factura.tipo f = "B"%string) /\
  obtener_factura 3 (atender instante_a_texto ps init_state).2 =
    Resp404 "Factura no encontrada".
Proof.
  intros ps.
  destruct (proj1 (obtener_factura_tras_creaciones instante_a_texto) ps) as [H1 H2].
  split.
  - edestruct (H1 1%nat) as [Hid Hf]; [vm_compute; reflexivity|].
    eexists. split; [exact Hf|]. split; [exact Hid|reflexivity].
  - apply H2. right. vm_compute. reflexivity.
Defined.

Lemma libro_solo_crece_witness :
  let st := (atender instante_a_texto
               [peticion_de (JStr "A") (JInt 1) un_item] init_state).2 in
  let st' := (atender instante_a_texto
                [peticion_de (JStr "B") (JInt 2) un_item] st).2 in
  exists f,
    obtener_factura 1 st = Resp200 f /\ obtener_factura 1 st' = Resp200 f.
Proof.
  intros st st'.
  destruct (libro_solo_crece instante_a_texto texto_a_instante
              [peticion_de (JStr "B") (JInt 2) un_item] st) as (_ & H & _).
  eexists. split; [vm_compute; reflexivity|].
  apply H. vm_compute. reflexivity.
Defined.

Lemma vencido_para_siempre_witness :
  let st := (atender instante_a_texto
               [peticion_de (JStr "A") (JInt 1) un_item] init_state).2 in
  let st' := (atender instante_a_texto
                [peticion_de (JStr "B") (JInt 2) un_item] st).2 in
  exists v,
    verificar_cae texto_a_instante 900000000000 "12345678901234" st = Ok v /\
    Verificacion.valido v = false /\
    verificar_cae texto_a_instante 900000000001 "12345678901234" st' = Ok v.
Proof.
  intros st st'. eexists. split; [vm_compute; reflexivity|]. split; [reflexivity|].
  apply (vencido_para_siempre instante_a_texto texto_a_instante
           [peticion_de (JStr "B") (JInt 2) un_item] st 900000000000 900000000001).
  - vm_compute. reflexivity.
  - discriminate.
  - reflexivity.
  - lia.
Defined.

(** ** Listing the invoices *)

Lemma py_filter_Ok {A} (c : A -> res bool) (b : A -> bool) (l : list A) :
  Forall (fun x => c x = Ok (b x)) l ->
  py_filter c l = Ok (filter (fun x => b x) l).
Proof.
  induction 1 as [|x l Hx _ IH]; [done|].
  cbn [py_filter]. rewrite Hx, IH. cbn [mbind res_bind]. rewrite filter_cons.
  destruct (b x); [rewrite decide_True by done|rewrite decide_False by (by intros [])];
    done.
Qed.

Lemma py_filter_sublist {A} (c : A -> res bool) (l r : list A) :
  py_filter c l = Ok r -> sublist r l.
Proof.
  revert r. induction l as [|x l IH]; intros r; cbn [py_filter].
  - intros [= <-]. constructor.
  - destruct (c x) as [b|e]; [|done]. cbn [mbind res_bind].
    destruct (py_filter c l) as [r'|e]; [|done]. cbn [mbind res_bind]. intros [= <-].
    destruct b; [apply sublist_skip|apply sublist_cons]; by apply IH.
Qed.

Lemma Forall_sublist {A} (P : A -> Prop) (r l : list A) :
  sublist r l -> Forall P l -> Forall P r.
Proof.
  induction 1 as [|x r l _ IH|x r l _ IH]; intros H; [done| |].
  - apply Forall_cons in H as [Hx H]. constructor; [done|by apply IH].
  - apply Forall_cons in H as [_ H]. by apply IH.
Qed.

Lemma Forall_filter_tipo t (l : list Factura.t) :
  Forall (fun f => Factura.tipo f = t) (filter (fun f => Factura.tipo f = t) l).
Proof.
  induction l as [|f l IH]; [done|]. rewrite filter_cons.
  destruct (decide (Factura.tipo f = t)); [by constructor|done].
Qed.

Lemma por_tipo_sublist tipo l : sublist (por_tipo tipo l) l.
Proof.
  unfold por_tipo. destruct (arg_dado tipo); [apply sublist_filter|done].
Qed.

Lemma texto_a_fecha_a_texto d : texto_a_fecha (instante_a_texto d) = Some (Naive d).
Proof. unfold texto_a_fecha. by rewrite texto_a_instante_a_texto. Qed.

Section ListingFacts.
Context (isoformat : Z -> string) (fromisoformat : string -> option datetime).

Lemma obtener_facturas_por_tipo tipo desde hasta st :
  obtener_facturas fromisoformat tipo desde hasta st =
    (resultado ←
       match arg_dado desde with
       | Some desde =>
           fecha_desde ← leer_fecha fromisoformat desde;
           py_filter (fun f => emision ← leer_fecha fromisoformat (Factura.fechaEmision f);
                               dt_ge emision fecha_desde)
             (por_tipo tipo (facturas st))
       | None => Ok (por_tipo tipo (facturas st))
       end;
     resultado ←
       match arg_dado hasta with
       | Some hasta =>
           fecha_hasta ← leer_fecha fromisoformat hasta;
           py_filter (fun f => emision ← leer_fecha fromisoformat (Factura.fechaEmision f);
                               dt_le emision fecha_hasta) resultado
       | None => Ok resultado
       end;
     Ok (Listado.mk (Z.of_nat (length resultado)) resultado)).
Proof. reflexivity. Qed.

Lemma leer_fecha_Some s d :
  fromisoformat s = Some d -> leer_fecha fromisoformat s = Ok d.
Proof. intros H. unfold leer_fecha. by rewrite H. Qed.

Lemma leer_fecha_None s :
  fromisoformat s = None -> leer_fecha fromisoformat s = Raise ValueError.
Proof. intros H. unfold leer_fecha. by rewrite H. Qed.

(** X14: a listing never invents, repeats or reorders. Whatever the
    store, the arguments and the reader of dates, a listing that is returned
    holds a sub-list of the ledger, in ledger order, its [total] is the
    length of that list, and with a series asked for every invoice listed
    is of that series. *)
Theorem obtener_facturas_sublista tipo desde hasta st l :
  obtener_facturas fromisoformat tipo desde hasta st = Ok l ->
  sublist (Listado.facturas l) (facturas st) /\
  Listado.total l = Z.of_nat (length (Listado.facturas l)) /\
  (forall t, arg_dado tipo = Some t ->
     Forall (fun f => Factura.tipo f = t) (Listado.facturas l)).
Proof.
  rewrite obtener_facturas_por_tipo. intros H.
  apply bind_Ok in H as (r1 & H1 & H). apply bind_Ok in H as (r2 & H2 & H).
  injection H as <-. cbn [Listado.facturas Listado.total].
  assert (S1 : sublist r1 (por_tipo tipo (facturas st))).
  { destruct (arg_dado desde) as [d|].
    - apply bind_Ok in H1 as (fd & _ & H1). by apply py_filter_sublist in H1.
    - by injection H1 as <-. }
  assert (S2 : sublist r2 r1).
  { destruct (arg_dado hasta) as [h|].
    - apply bind_Ok in H2 as (fh & _ & H2). by apply py_filter_sublist in H2.
    - by injection H2 as <-. }
  split; [|split; [done|]].
  - etrans; [exact S2|]. etrans; [exact S1|]. apply por_tipo_sublist.
  - intros t Ht. unfold por_tipo in S1. rewrite Ht in S1.
    eapply Forall_sublist; [exact S2|]. eapply Forall_sublist; [exact S1|].
    apply Forall_filter_tipo.
Qed.

(** X17: the listing agrees with the statistics. After a run of
    requests from the initial store the statistics are computed, the
    listing without arguments returns the whole ledger with the
    [totalFacturas] of the statistics as its total, the listing of series A
    and that of series B have [facturasA] and [facturasB] as totals, the
    listing of any other series is empty, and [totalFacturas] is the sum of
    the two. *)
Theorem listado_y_estadisticas ps :
  let st := (atender isoformat ps init_state).2 in
  exists e,
    obtener_estadisticas st = Ok e /\
    obtener_facturas fromisoformat None None None st =
      Ok (Listado.mk (Estadisticas.totalFacturas e) (facturas st)) /\
    obtener_facturas fromisoformat (Some "A"%string) None None st =
      Ok (Listado.mk (Estadisticas.facturasA e)
            (filter (fun f => Factura.tipo f = "A"%string) (facturas st))) /\
    obtener_facturas fromisoformat (Some "B"%string) None None st =
      Ok (Listado.mk (Estadisticas.facturasB e)
            (filter (fun f => Factura.tipo f = "B"%string) (facturas st))) /\
    (forall t, t <> ""%string -> t <> "A"%string -> t <> "B"%string ->
       obtener_facturas fromisoformat (Some t) None None st = Ok (Listado.mk 0 [])) /\
    Estadisticas.totalFacturas e =
      Estadisticas.facturasA e + Estadisticas.facturasB e.
Proof.
  intros st.
  assert (Hinv : Forall (fun f =>
              (Factura.tipo f = "A" \/ Factura.tipo f = "B")%string /\
              exists g, Factura.total f = PyFloat g) (facturas st)).
  { subst st. rewrite atender_init_facturas. apply creadas_Forall.
    intros p st0 f st0' H.
    apply crear_factura_tipo_total in H as (Ht & tot & Hc & _ & _ & Htot).
    split; [done|]. rewrite Htot. by eapply calcular_totales_total_float. }
  apply Forall_and in Hinv as [Htipo Htot].
  destruct (py_sum_from_floats Factura.total (facturas st) (PyInt 0)) as [suma Hs];
    [by left|done|].
  eexists. split.
  { unfold obtener_estadisticas, py_sum. rewrite Hs. reflexivity. }
  cbn [Estadisticas.totalFacturas Estadisticas.facturasA Estadisticas.facturasB].
  split; [done|]. split; [done|]. split; [done|]. split.
  - intros t H0 HA HB. unfold obtener_facturas. cbn [arg_dado].
    destruct (String.eqb_spec t ""); [done|].
    assert (E : filter (fun f => Factura.tipo f = t) (facturas st) = []).
    { clear Htot Hs. induction Htipo as [|f l Hf _ IH]; [done|].
      rewrite filter_cons, IH. rewrite decide_False; [done|].
      intros <-. by destruct Hf. }
    by rewrite E.
  - rewrite (length_filter_tipo _ Htipo) at 1. by rewrite Nat2Z.inj_add.
Qed.

Hypothesis fromisoformat_isoformat :
  forall d, fromisoformat (isoformat d) = Some (Naive d).

Lemma libro_emitidas ps :
  Forall (fun f => exists e, Factura.fechaEmision f = isoformat e)
    (facturas (atender isoformat ps init_state).2).
Proof.
  rewrite atender_init_facturas. apply creadas_Forall.
  intros p st f st' H. apply crear_factura_fechas in H as (e & He & _). by exists e.
Qed.

Lemma filtro_desde l a :
  Forall (fun f => exists e, Factura.fechaEmision f = isoformat e) l ->
  py_filter (fun f => emision ← leer_fecha fromisoformat (Factura.fechaEmision f);
                      dt_ge emision (Naive a)) l =
    Ok (filter (fun f => emitida_en fromisoformat (Some a) None f) l).
Proof using fromisoformat_isoformat.
  intros H. apply py_filter_Ok. eapply Forall_impl; [exact H|].
  intros f [e He]. unfold leer_fecha, emitida_en.
  rewrite He, fromisoformat_isoformat. cbn. by rewrite andb_true_r.
Qed.

Lemma filtro_hasta l b :
  Forall (fun f => exists e, Factura.fechaEmision f = isoformat e) l ->
  py_filter (fun f => emision ← leer_fecha fromisoformat (Factura.fechaEmision f);
                      dt_le emision (Naive b)) l =
    Ok (filter (fun f => emitida_en fromisoformat None (Some b) f) l).
Proof using fromisoformat_isoformat.
  intros H. apply py_filter_Ok. eapply Forall_impl; [exact H|].
  intros f [e He]. unfold leer_fecha, emitida_en.
  rewrite He, fromisoformat_isoformat. by cbn.
Qed.

Lemma emitida_en_libre l :
  Forall (fun f => exists e, Factura.fechaEmision f = isoformat e) l ->
  filter (fun f => emitida_en fromisoformat None None f) l = l.
Proof using fromisoformat_isoformat.
  induction 1 as [|f l [e He] _ IH]; [done|].
  rewrite filter_cons, IH. rewrite decide_True; [done|].
  unfold emitida_en. by rewrite He, fromisoformat_isoformat.
Qed.

Lemma emitida_en_ambos a b (l : list Factura.t) :
  filter (fun f => emitida_en fromisoformat None (Some b) f)
    (filter (fun f => emitida_en fromisoformat (Some a) None f) l) =
  filter (fun f => emitida_en fromisoformat (Some a) (Some b) f) l.
Proof.
  rewrite list_filter_filter. apply list_filter_iff. intros f.
  unfold emitida_en. destruct (fromisoformat _) as [[e|e]|]; cbn; [|tauto..].
  rewrite andb_true_r. destruct (a <=? e), (e <=? b); cbn; tauto.
Qed.

(** X15: the date window. On the ledger a run of requests leaves, with
    date arguments that are absent or read as naive instants, the listing
    is returned and holds, in ledger order, the invoices of the series
    asked for that were issued from [desde] to [hasta], both bounds
    included, an absent bound being open. *)
Theorem obtener_facturas_ventana ps tipo desde hasta a b :
  let st := (atender isoformat ps init_state).2 in
  let l := filter (fun f => emitida_en fromisoformat a b f)
             (por_tipo tipo (facturas st)) in
  lee_como fromisoformat desde a ->
  lee_como fromisoformat hasta b ->
  obtener_facturas fromisoformat tipo desde hasta st =
    Ok (Listado.mk (Z.of_nat (length l)) l).
Proof using fromisoformat_isoformat.
  intros st l Ha Hb.
  assert (He : Forall (fun f => exists e, Factura.fechaEmision f = isoformat e)
                 (por_tipo tipo (facturas st))).
  { eapply Forall_sublist; [apply por_tipo_sublist|apply libro_emitidas]. }
  subst l. rewrite obtener_facturas_por_tipo. unfold lee_como in *.
  set (l0 := por_tipo tipo (facturas st)) in *.
  destruct (arg_dado desde) as [d|], a as [a|]; try done;
    destruct (arg_dado hasta) as [h|], b as [b|]; try done.
  - rewrite (leer_fecha_Some _ _ Ha). cbn [mbind res_bind].
    rewrite filtro_desde by done. cbn [mbind res_bind].
    rewrite (leer_fecha_Some _ _ Hb). cbn [mbind res_bind].
    rewrite filtro_hasta.
    + cbn [mbind res_bind]. by rewrite emitida_en_ambos.
    + eapply Forall_sublist; [apply sublist_filter|done].
  - rewrite (leer_fecha_Some _ _ Ha). cbn [mbind res_bind].
    by rewrite filtro_desde by done.
  - cbn [mbind res_bind]. rewrite (leer_fecha_Some _ _ Hb). cbn [mbind res_bind].
    by rewrite filtro_hasta by done.
  - cbn [mbind res_bind]. by rewrite emitida_en_libre.
Qed.

Lemma filtro_con_zona (cmp : datetime -> datetime -> res bool) l t :
  (forall e, cmp (Naive e) (Aware t) = Raise TypeError) ->
  Forall (fun f => exists e, Factura.fechaEmision f = isoformat e) l ->
  l <> [] ->
  py_filter (fun f => emision ← leer_fecha fromisoformat (Factura.fechaEmision f);
                      cmp emision (Aware t)) l = Raise TypeError.
Proof using fromisoformat_isoformat.
  intros Hcmp Hl Hne. destruct Hl as [|f l [e He] _]; [done|].
  cbn [py_filter]. unfold leer_fecha. rewrite He, fromisoformat_isoformat.
  cbn [mbind res_bind]. by rewrite Hcmp.
Qed.

(** X16: date arguments the listing fails on. A date text that cannot
    be read raises ValueError whatever the store holds, even nothing. A
    date text with a UTC offset raises TypeError on the ledger a run of
    requests leaves only if some invoice of the series asked for is there to
    be compared with it; with none, and no other date argument, the listing
    is returned empty. The handler does not catch either exception. *)
Theorem obtener_facturas_fecha_rechazada :
  (forall tipo desde hasta st s,
     arg_dado desde = Some s \/ arg_dado desde = None /\ arg_dado hasta = Some s ->
     fromisoformat s = None ->
     obtener_facturas fromisoformat tipo desde hasta st = Raise ValueError) /\
  (forall ps tipo desde hasta s t,
     let st := (atender isoformat ps init_state).2 in
     arg_dado desde = Some s \/ arg_dado desde = None /\ arg_dado hasta = Some s ->
     fromisoformat s = Some (Aware t) ->
     por_tipo tipo (facturas st) <> [] ->
     obtener_facturas fromisoformat tipo desde hasta st = Raise TypeError) /\
  (forall tipo desde hasta st s t,
     arg_dado desde = Some s /\ arg_dado hasta = None \/
       arg_dado desde = None /\ arg_dado hasta = Some s ->
     fromisoformat s = Some (Aware t) ->
     por_tipo tipo (facturas st) = [] ->
     obtener_facturas fromisoformat tipo desde hasta st = Ok (Listado.mk 0 [])).
Proof using fromisoformat_isoformat.
  split; [|split].
  - intros tipo desde hasta st s Harg Hs. rewrite obtener_facturas_por_tipo.
    destruct Harg as [-> | [-> ->]]; by rewrite (leer_fecha_None _ Hs).
  - intros ps tipo desde hasta s t st Harg Hs Hne.
    assert (He : Forall (fun f => exists e, Factura.fechaEmision f = isoformat e)
                   (por_tipo tipo (facturas st))).
    { eapply Forall_sublist; [apply por_tipo_sublist|apply libro_emitidas]. }
    rewrite obtener_facturas_por_tipo.
    destruct Harg as [-> | [-> ->]]; rewrite (leer_fecha_Some _ _ Hs);
      cbn [mbind res_bind].
    + by rewrite (filtro_con_zona dt_ge).
    + by rewrite (filtro_con_zona dt_le).
  - intros tipo desde hasta st s t Harg Hs Hnil. rewrite obtener_facturas_por_tipo.
    destruct Harg as [[-> ->] | [-> ->]]; rewrite Hnil, (leer_fecha_Some _ _ Hs); done.
Qed.

End ListingFacts.

Lemma obtener_facturas_sublista_witness :
  let st := (atender instante_a_texto
               [peticion_en 1000 (JStr "A") (JInt 1) un_item;
                peticion_en 5000 (JStr "B") (JInt 2) un_item] init_state).2 in
  exists l,
    obtener_facturas texto_a_fecha (Some "B"%string) None None st = Ok l /\
    sublist (Listado.facturas l) (facturas st) /\
    Listado.total l = 1.
Proof.
  intros st.
  edestruct (obtener_facturas_sublista texto_a_fecha (Some "B"%string) None None st)
    as (H1 & H2 & _).
  - vm_compute. reflexivity.
  - eexists. split; [vm_compute; reflexivity|]. split; [exact H1|exact H2].
Defined.

Lemma obtener_facturas_ventana_witness :
  let st := (atender instante_a_texto
               [peticion_en 1000 (JStr "A") (JInt 1) un_item;
                peticion_en 5000 (JStr "B") (JInt 2) un_item] init_state).2 in
  exists f,
    obtener_facturas texto_a_fecha None (Some "2000"%string) None st =
      Ok (Listado.mk 1 [f]) /\
    Factura.id f = 2.
Proof.
  intros st.
  pose proof (obtener_facturas_ventana instante_a_texto texto_a_fecha
                texto_a_fecha_a_texto
                [peticion_en 1000 (JStr "A") (JInt 1) un_item;
                 peticion_en 5000 (JStr "B") (JInt 2) un_item]
                None (Some "2000"%string) None (Some 2000) None eq_refl I) as H.
  subst st. eexists. split; [rewrite H; vm_compute; reflexivity|reflexivity].
Defined.

Lemma obtener_facturas_fecha_rechazada_witness :
  let st := (atender instante_a_texto
               [peticion_en 1000 (JStr "A") (JInt 1) un_item] init_state).2 in
  obtener_facturas texto_a_fecha None (Some "ayer"%string) None init_state =
    Raise ValueError /\
  obtener_facturas texto_a_fecha None (Some "2000Z"%string) None st =
    Raise TypeError /\
  obtener_facturas texto_a_fecha (Some "B"%string) (Some "2000Z"%string) None st =
    Ok (Listado.mk 0 []).
Proof.
  intros st.
  destruct (obtener_facturas_fecha_rechazada instante_a_texto texto_a_fecha
              texto_a_fecha_a_texto) as (H1 & H2 & H3).
  split; [|split].
  - apply (H1 None (Some "ayer"%string) None init_state "ayer"%string);
      [by left|reflexivity].
  - apply (H2 [peticion_en 1000 (JStr "A") (JInt 1) un_item]
              None (Some "2000Z"%string) None "2000Z"%string 2000);
      [by left|reflexivity|vm_compute; discriminate].
  - apply (H3 (Some "B"%string) (Some "2000Z"%string) None st "2000Z"%string 2000);
      [by left|reflexivity|vm_compute; reflexivity].
Defined.
